(** * SctxDecode: the SCTX texture container parser, its pixel-format
    catalogue, the expected-size calculator and the decode dispatcher.

    The development is a shallow embedding of [SctxDecode.py].  Python
    integers are [Z], [bytes] objects are lists of [byte], [str] objects are
    [string]; a method that mutates [self] is a computation in a small
    state-and-exception monad over the object, and the local [BinaryReader]
    of a method is threaded explicitly.  The two external libraries
    ([zstandard] and [texture2ddecoder]) are capabilities the code is handed:
    they are variables of the sections that use them. *)

From Stdlib Require Import ZArith List String Ascii Lia Bool.
From Stdlib Require Import Init.Byte DecimalString.
Import ListNotations.
Open Scope string_scope.
Open Scope list_scope.
Open Scope Z_scope.

(** ** Python values *)

Definition bytes : Set := list byte.

(** [len(x)] as a Python integer. *)
Definition len {A : Type} (l : list A) : Z := Z.of_nat (List.length l).

(** Truthiness of a [bytes | None] attribute: [None] and [b''] are falsy. *)
Definition truthy (d : option bytes) : bool :=
  match d with
  | Some (_ :: _) => true
  | _ => false
  end.

(** [sub in s] on strings: [sub] occurs in [s] as a contiguous substring. *)
Fixpoint str_in (sub s : string) : bool :=
  if String.prefix sub s then true
  else match s with
       | EmptyString => false
       | String _ s' => str_in sub s'
       end.

(** Formatting of an integer inside an f-string. *)
Definition str (n : Z) : string := NilZero.string_of_int (Z.to_int n).

(** [list(range(a, b))]. *)
Definition range (a b : Z) : list Z :=
  map (fun k => a + Z.of_nat k) (seq 0 (Z.to_nat (b - a))).

(** [x in xs] on a list of integers. *)
Definition int_in (x : Z) (xs : list Z) : bool := existsb (Z.eqb x) xs.

(** [d.get(k, default)] on a dict literal, kept as an association list. *)
Fixpoint dict_get {V : Type} (d : list (Z * V)) (k : Z) (default : V) : V :=
  match d with
  | [] => default
  | (k', v) :: d' => if k =? k' then v else dict_get d' k default
  end.

(** Exceptions the code can raise or catch. *)
Inductive Exn : Set :=
| AttributeError (msg : string)
| ValueError (msg : string)
| IndexError (msg : string)
| TypeError (msg : string)
| ZstdError
| DecoderError.

(** ** class ScPixel(IntEnum) *)

Module ScPixel.

Inductive t : Set :=
  | EAC_R11 | EAC_SIGNED_R11 | EAC_RG11 | EAC_SIGNED_RG11 | ETC2_EAC_RGBA8
  | ETC2_EAC_SRGBA8 | ETC2_RGB8 | ETC2_SRGB8 | ETC2_RGB8_PUNCHTHROUGH_ALPHA1
  | ETC2_SRGB8_PUNCHTHROUGH_ALPHA1 | ASTC_SRGBA8_4x4 | ASTC_SRGBA8_5x4
  | ASTC_SRGBA8_5x5 | ASTC_SRGBA8_6x5 | ASTC_SRGBA8_6x6 | ASTC_SRGBA8_8x5
  | ASTC_SRGBA8_8x6 | ASTC_SRGBA8_8x8 | ASTC_SRGBA8_10x5 | ASTC_SRGBA8_10x6
  | ASTC_SRGBA8_10x8 | ASTC_SRGBA8_10x10 | ASTC_SRGBA8_12x10
  | ASTC_SRGBA8_12x12 | ASTC_RGBA8_4x4 | ASTC_RGBA8_5x4 | ASTC_RGBA8_5x5
  | ASTC_RGBA8_6x5 | ASTC_RGBA8_6x6 | ASTC_RGBA8_8x5 | ASTC_RGBA8_8x6
  | ASTC_RGBA8_8x8 | ASTC_RGBA8_10x5 | ASTC_RGBA8_10x6 | ASTC_RGBA8_10x8
  | ASTC_RGBA8_10x10 | ASTC_RGBA8_12x10 | ASTC_RGBA8_12x12 | ETC1_RGB8 | R8
  | R8_SIGNED | R16 | R16_SIGNED | R16F | R32F | RG8 | RG8_SIGNED | RG16
  | RG16_SIGNED | RG16F | RG32F | RGB8 | RGB8_SIGNED | RGB16 | RGB16_SIGNED
  | RGB16F | RGB32F | RGBA8 | RGBA8_SIGNED | RGBA16 | RGBA16_SIGNED | RGBA16F
  | RGBA32F | BGR8 | BGRA8 | BGRA8_SRGB | PVRTC1_RGB2 | PVRTC1_SRGB2
  | PVRTC1_RGB4 | PVRTC1_SRGB4 | PVRTC1_RGBA2 | PVRTC1_SRGBA2 | PVRTC1_RGBA4
  | PVRTC1_SRGBA4 | PVRTC2_RGBA2 | PVRTC2_SRGBA2 | PVRTC2_RGBA4
  | PVRTC2_SRGBA4 | RGBA8Unorm | RGBA8Unorm_sRGB | RGB8Unorm | RGB8Unorm_sRGB
  | RG8Unorm | R8Unorm | BGRA8Unorm | BGR8Unorm | RGBA8Unorm_70.

Definition value (p : t) : Z :=
  match p with
  | EAC_R11 => 170 | EAC_SIGNED_R11 => 172 | EAC_RG11 => 174
  | EAC_SIGNED_RG11 => 176 | ETC2_EAC_RGBA8 => 178 | ETC2_EAC_SRGBA8 => 179
  | ETC2_RGB8 => 180 | ETC2_SRGB8 => 181
  | ETC2_RGB8_PUNCHTHROUGH_ALPHA1 => 182
  | ETC2_SRGB8_PUNCHTHROUGH_ALPHA1 => 183 | ASTC_SRGBA8_4x4 => 186
  | ASTC_SRGBA8_5x4 => 187 | ASTC_SRGBA8_5x5 => 188 | ASTC_SRGBA8_6x5 => 189
  | ASTC_SRGBA8_6x6 => 190 | ASTC_SRGBA8_8x5 => 192 | ASTC_SRGBA8_8x6 => 193
  | ASTC_SRGBA8_8x8 => 194 | ASTC_SRGBA8_10x5 => 195
  | ASTC_SRGBA8_10x6 => 196 | ASTC_SRGBA8_10x8 => 197
  | ASTC_SRGBA8_10x10 => 198 | ASTC_SRGBA8_12x10 => 199
  | ASTC_SRGBA8_12x12 => 200 | ASTC_RGBA8_4x4 => 204 | ASTC_RGBA8_5x4 => 205
  | ASTC_RGBA8_5x5 => 206 | ASTC_RGBA8_6x5 => 207 | ASTC_RGBA8_6x6 => 208
  | ASTC_RGBA8_8x5 => 210 | ASTC_RGBA8_8x6 => 211 | ASTC_RGBA8_8x8 => 212
  | ASTC_RGBA8_10x5 => 213 | ASTC_RGBA8_10x6 => 214 | ASTC_RGBA8_10x8 => 215
  | ASTC_RGBA8_10x10 => 216 | ASTC_RGBA8_12x10 => 217
  | ASTC_RGBA8_12x12 => 218 | ETC1_RGB8 => 263 | R8 => 280 | R8_SIGNED => 281
  | R16 => 282 | R16_SIGNED => 283 | R16F => 284 | R32F => 285 | RG8 => 286
  | RG8_SIGNED => 287 | RG16 => 288 | RG16_SIGNED => 289 | RG16F => 290
  | RG32F => 291 | RGB8 => 292 | RGB8_SIGNED => 293 | RGB16 => 294
  | RGB16_SIGNED => 295 | RGB16F => 296 | RGB32F => 297 | RGBA8 => 298
  | RGBA8_SIGNED => 299 | RGBA16 => 300 | RGBA16_SIGNED => 301
  | RGBA16F => 302 | RGBA32F => 303 | BGR8 => 304 | BGRA8 => 305
  | BGRA8_SRGB => 306 | PVRTC1_RGB2 => 307 | PVRTC1_SRGB2 => 308
  | PVRTC1_RGB4 => 309 | PVRTC1_SRGB4 => 310 | PVRTC1_RGBA2 => 311
  | PVRTC1_SRGBA2 => 312 | PVRTC1_RGBA4 => 313 | PVRTC1_SRGBA4 => 314
  | PVRTC2_RGBA2 => 315 | PVRTC2_SRGBA2 => 316 | PVRTC2_RGBA4 => 317
  | PVRTC2_SRGBA4 => 318 | RGBA8Unorm => 319 | RGBA8Unorm_sRGB => 320
  | RGB8Unorm => 321 | RGB8Unorm_sRGB => 322 | RG8Unorm => 323
  | R8Unorm => 324 | BGRA8Unorm => 325 | BGR8Unorm => 326
  | RGBA8Unorm_70 => 70
  end.

Definition name (p : t) : string :=
  match p with
  | EAC_R11 => "EAC_R11" | EAC_SIGNED_R11 => "EAC_SIGNED_R11"
  | EAC_RG11 => "EAC_RG11" | EAC_SIGNED_RG11 => "EAC_SIGNED_RG11"
  | ETC2_EAC_RGBA8 => "ETC2_EAC_RGBA8" | ETC2_EAC_SRGBA8 => "ETC2_EAC_SRGBA8"
  | ETC2_RGB8 => "ETC2_RGB8" | ETC2_SRGB8 => "ETC2_SRGB8"
  | ETC2_RGB8_PUNCHTHROUGH_ALPHA1 => "ETC2_RGB8_PUNCHTHROUGH_ALPHA1"
  | ETC2_SRGB8_PUNCHTHROUGH_ALPHA1 => "ETC2_SRGB8_PUNCHTHROUGH_ALPHA1"
  | ASTC_SRGBA8_4x4 => "ASTC_SRGBA8_4x4"
  | ASTC_SRGBA8_5x4 => "ASTC_SRGBA8_5x4"
  | ASTC_SRGBA8_5x5 => "ASTC_SRGBA8_5x5"
  | ASTC_SRGBA8_6x5 => "ASTC_SRGBA8_6x5"
  | ASTC_SRGBA8_6x6 => "ASTC_SRGBA8_6x6"
  | ASTC_SRGBA8_8x5 => "ASTC_SRGBA8_8x5"
  | ASTC_SRGBA8_8x6 => "ASTC_SRGBA8_8x6"
  | ASTC_SRGBA8_8x8 => "ASTC_SRGBA8_8x8"
  | ASTC_SRGBA8_10x5 => "ASTC_SRGBA8_10x5"
  | ASTC_SRGBA8_10x6 => "ASTC_SRGBA8_10x6"
  | ASTC_SRGBA8_10x8 => "ASTC_SRGBA8_10x8"
  | ASTC_SRGBA8_10x10 => "ASTC_SRGBA8_10x10"
  | ASTC_SRGBA8_12x10 => "ASTC_SRGBA8_12x10"
  | ASTC_SRGBA8_12x12 => "ASTC_SRGBA8_12x12"
  | ASTC_RGBA8_4x4 => "ASTC_RGBA8_4x4" | ASTC_RGBA8_5x4 => "ASTC_RGBA8_5x4"
  | ASTC_RGBA8_5x5 => "ASTC_RGBA8_5x5" | ASTC_RGBA8_6x5 => "ASTC_RGBA8_6x5"
  | ASTC_RGBA8_6x6 => "ASTC_RGBA8_6x6" | ASTC_RGBA8_8x5 => "ASTC_RGBA8_8x5"
  | ASTC_RGBA8_8x6 => "ASTC_RGBA8_8x6" | ASTC_RGBA8_8x8 => "ASTC_RGBA8_8x8"
  | ASTC_RGBA8_10x5 => "ASTC_RGBA8_10x5"
  | ASTC_RGBA8_10x6 => "ASTC_RGBA8_10x6"
  | ASTC_RGBA8_10x8 => "ASTC_RGBA8_10x8"
  | ASTC_RGBA8_10x10 => "ASTC_RGBA8_10x10"
  | ASTC_RGBA8_12x10 => "ASTC_RGBA8_12x10"
  | ASTC_RGBA8_12x12 => "ASTC_RGBA8_12x12" | ETC1_RGB8 => "ETC1_RGB8"
  | R8 => "R8" | R8_SIGNED => "R8_SIGNED" | R16 => "R16"
  | R16_SIGNED => "R16_SIGNED" | R16F => "R16F" | R32F => "R32F"
  | RG8 => "RG8" | RG8_SIGNED => "RG8_SIGNED" | RG16 => "RG16"
  | RG16_SIGNED => "RG16_SIGNED" | RG16F => "RG16F" | RG32F => "RG32F"
  | RGB8 => "RGB8" | RGB8_SIGNED => "RGB8_SIGNED" | RGB16 => "RGB16"
  | RGB16_SIGNED => "RGB16_SIGNED" | RGB16F => "RGB16F" | RGB32F => "RGB32F"
  | RGBA8 => "RGBA8" | RGBA8_SIGNED => "RGBA8_SIGNED" | RGBA16 => "RGBA16"
  | RGBA16_SIGNED => "RGBA16_SIGNED" | RGBA16F => "RGBA16F"
  | RGBA32F => "RGBA32F" | BGR8 => "BGR8" | BGRA8 => "BGRA8"
  | BGRA8_SRGB => "BGRA8_SRGB" | PVRTC1_RGB2 => "PVRTC1_RGB2"
  | PVRTC1_SRGB2 => "PVRTC1_SRGB2" | PVRTC1_RGB4 => "PVRTC1_RGB4"
  | PVRTC1_SRGB4 => "PVRTC1_SRGB4" | PVRTC1_RGBA2 => "PVRTC1_RGBA2"
  | PVRTC1_SRGBA2 => "PVRTC1_SRGBA2" | PVRTC1_RGBA4 => "PVRTC1_RGBA4"
  | PVRTC1_SRGBA4 => "PVRTC1_SRGBA4" | PVRTC2_RGBA2 => "PVRTC2_RGBA2"
  | PVRTC2_SRGBA2 => "PVRTC2_SRGBA2" | PVRTC2_RGBA4 => "PVRTC2_RGBA4"
  | PVRTC2_SRGBA4 => "PVRTC2_SRGBA4" | RGBA8Unorm => "RGBA8Unorm"
  | RGBA8Unorm_sRGB => "RGBA8Unorm_sRGB" | RGB8Unorm => "RGB8Unorm"
  | RGB8Unorm_sRGB => "RGB8Unorm_sRGB" | RG8Unorm => "RG8Unorm"
  | R8Unorm => "R8Unorm" | BGRA8Unorm => "BGRA8Unorm"
  | BGR8Unorm => "BGR8Unorm" | RGBA8Unorm_70 => "RGBA8Unorm_70"
  end.

Definition members : list t :=
  [EAC_R11; EAC_SIGNED_R11; EAC_RG11; EAC_SIGNED_RG11; ETC2_EAC_RGBA8;
   ETC2_EAC_SRGBA8; ETC2_RGB8; ETC2_SRGB8; ETC2_RGB8_PUNCHTHROUGH_ALPHA1;
   ETC2_SRGB8_PUNCHTHROUGH_ALPHA1; ASTC_SRGBA8_4x4; ASTC_SRGBA8_5x4;
   ASTC_SRGBA8_5x5; ASTC_SRGBA8_6x5; ASTC_SRGBA8_6x6; ASTC_SRGBA8_8x5;
   ASTC_SRGBA8_8x6; ASTC_SRGBA8_8x8; ASTC_SRGBA8_10x5; ASTC_SRGBA8_10x6;
   ASTC_SRGBA8_10x8; ASTC_SRGBA8_10x10; ASTC_SRGBA8_12x10; ASTC_SRGBA8_12x12;
   ASTC_RGBA8_4x4; ASTC_RGBA8_5x4; ASTC_RGBA8_5x5; ASTC_RGBA8_6x5;
   ASTC_RGBA8_6x6; ASTC_RGBA8_8x5; ASTC_RGBA8_8x6; ASTC_RGBA8_8x8;
   ASTC_RGBA8_10x5; ASTC_RGBA8_10x6; ASTC_RGBA8_10x8; ASTC_RGBA8_10x10;
   ASTC_RGBA8_12x10; ASTC_RGBA8_12x12; ETC1_RGB8; R8; R8_SIGNED; R16;
   R16_SIGNED; R16F; R32F; RG8; RG8_SIGNED; RG16; RG16_SIGNED; RG16F; RG32F;
   RGB8; RGB8_SIGNED; RGB16; RGB16_SIGNED; RGB16F; RGB32F; RGBA8;
   RGBA8_SIGNED; RGBA16; RGBA16_SIGNED; RGBA16F; RGBA32F; BGR8; BGRA8;
   BGRA8_SRGB; PVRTC1_RGB2; PVRTC1_SRGB2; PVRTC1_RGB4; PVRTC1_SRGB4;
   PVRTC1_RGBA2; PVRTC1_SRGBA2; PVRTC1_RGBA4; PVRTC1_SRGBA4; PVRTC2_RGBA2;
   PVRTC2_SRGBA2; PVRTC2_RGBA4; PVRTC2_SRGBA4; RGBA8Unorm; RGBA8Unorm_sRGB;
   RGB8Unorm; RGB8Unorm_sRGB; RG8Unorm; R8Unorm; BGRA8Unorm; BGR8Unorm;
   RGBA8Unorm_70].

(** Comparison of two members is comparison of their integer values. *)
Definition eqb (p q : t) : bool := value p =? value q.

(** [ScPixel(n)]: the member of value [n]; [None] stands for [ValueError]. *)
Definition of_value (n : Z) : option t :=
  find (fun p => value p =? n) members.

End ScPixel.

(** ** class Texture *)

(** [Texture.PixelType] holds an [ScPixel] member or, when the enumeration
    rejected the code, the raw integer. *)
Inductive Pixel : Set :=
| Enum (p : ScPixel.t)
| Raw (n : Z).

Record Texture : Set := mkTexture {
  Width : Z;
  Height : Z;
  DataLength : Z;
  Data : option bytes;
  PixelType : Pixel;
  IsCompressedDataFlag : option bool;
  DecompressedData : option bytes
}.

(** [Texture(Pixel, Width, Height)]. *)
Definition Texture_init (Pixel : Pixel) (Width Height : Z) : Texture :=
  {| Width := Width; Height := Height; DataLength := 0; Data := None;
     PixelType := Pixel; IsCompressedDataFlag := None;
     DecompressedData := None |}.

Definition set_Width (v : Z) (t : Texture) : Texture :=
  {| Width := v; Height := Height t; DataLength := DataLength t;
     Data := Data t; PixelType := PixelType t;
     IsCompressedDataFlag := IsCompressedDataFlag t;
     DecompressedData := DecompressedData t |}.

Definition set_Height (v : Z) (t : Texture) : Texture :=
  {| Width := Width t; Height := v; DataLength := DataLength t;
     Data := Data t; PixelType := PixelType t;
     IsCompressedDataFlag := IsCompressedDataFlag t;
     DecompressedData := DecompressedData t |}.

Definition set_DataLength (v : Z) (t : Texture) : Texture :=
  {| Width := Width t; Height := Height t; DataLength := v;
     Data := Data t; PixelType := PixelType t;
     IsCompressedDataFlag := IsCompressedDataFlag t;
     DecompressedData := DecompressedData t |}.

Definition set_Data (v : option bytes) (t : Texture) : Texture :=
  {| Width := Width t; Height := Height t; DataLength := DataLength t;
     Data := v; PixelType := PixelType t;
     IsCompressedDataFlag := IsCompressedDataFlag t;
     DecompressedData := DecompressedData t |}.

Definition set_IsCompressedDataFlag (v : option bool) (t : Texture) : Texture :=
  {| Width := Width t; Height := Height t; DataLength := DataLength t;
     Data := Data t; PixelType := PixelType t;
     IsCompressedDataFlag := v;
     DecompressedData := DecompressedData t |}.

Definition set_DecompressedData (v : option bytes) (t : Texture) : Texture :=
  {| Width := Width t; Height := Height t; DataLength := DataLength t;
     Data := Data t; PixelType := PixelType t;
     IsCompressedDataFlag := IsCompressedDataFlag t;
     DecompressedData := v |}.

Definition AstcFormatIds : list Z := range 186 201 ++ range 204 219.

Definition AstcIdToName : list (Z * string) :=
  [ (186, "ASTC_SRGBA8_4x4"); (187, "ASTC_SRGBA8_5x4"); (188, "ASTC_SRGBA8_5x5");
    (189, "ASTC_SRGBA8_6x5"); (190, "ASTC_SRGBA8_6x6"); (192, "ASTC_SRGBA8_8x5");
    (193, "ASTC_SRGBA8_8x6"); (194, "ASTC_SRGBA8_8x8"); (195, "ASTC_SRGBA8_10x5");
    (196, "ASTC_SRGBA8_10x6"); (197, "ASTC_SRGBA8_10x8"); (198, "ASTC_SRGBA8_10x10");
    (199, "ASTC_SRGBA8_12x10"); (200, "ASTC_SRGBA8_12x12"); (204, "ASTC_RGBA8_4x4");
    (205, "ASTC_RGBA8_5x4"); (206, "ASTC_RGBA8_5x5"); (207, "ASTC_RGBA8_6x5");
    (208, "ASTC_RGBA8_6x6"); (210, "ASTC_RGBA8_8x5"); (211, "ASTC_RGBA8_8x6");
    (212, "ASTC_RGBA8_8x8"); (213, "ASTC_RGBA8_10x5"); (214, "ASTC_RGBA8_10x6");
    (215, "ASTC_RGBA8_10x8"); (216, "ASTC_RGBA8_10x10"); (217, "ASTC_RGBA8_12x10");
    (218, "ASTC_RGBA8_12x12") ].

Definition GetFormatName (self : Texture) : string :=
  match PixelType self with
  | Enum p =>
      if ScPixel.eqb p ScPixel.RGBA8Unorm_70 then "RGBA8Unorm"
      else ScPixel.name p
  | Raw n =>
      if int_in n AstcFormatIds then
        dict_get AstcIdToName n ("ASTC_UNKNOWN_" ++ str n)%string
      else if n =? 70 then "RGBA8Unorm"
      else ("UNKNOWN (" ++ str n ++ ")")%string
  end.

Definition IsAstc (self : Texture) : bool :=
  let FormatName := GetFormatName self in
  if str_in "ASTC" FormatName then true
  else match PixelType self with
       | Enum p => int_in (ScPixel.value p) AstcFormatIds
       | Raw n => int_in n AstcFormatIds
       end.

Definition IsEtc (self : Texture) : bool :=
  let FormatName := GetFormatName self in
  str_in "ETC" FormatName || str_in "EAC" FormatName.

Definition IsSrgb (self : Texture) : bool :=
  let FormatName := GetFormatName self in
  str_in "SRGB" FormatName || str_in "SRGBA" FormatName
  || str_in "sRGB" FormatName.

Definition IsPvrtc (self : Texture) : bool :=
  let FormatName := GetFormatName self in
  str_in "PVRTC" FormatName.

Definition UncompressedFormats : list string :=
  [ "R8"; "R16"; "R16F"; "R32F"; "RG8"; "RG16"; "RG16F"; "RG32F";
    "RGB8"; "RGB16"; "RGB16F"; "RGB32F"; "RGBA8"; "RGBA16"; "RGBA16F";
    "RGBA32F"; "BGR8"; "BGRA8"; "RGBA8Unorm"; "RGB8Unorm"; "RG8Unorm";
    "R8Unorm"; "BGRA8Unorm"; "BGR8Unorm" ].

Definition IsUncompressed (self : Texture) : bool :=
  let FormatName := GetFormatName self in
  if IsAstc self || IsEtc self || IsPvrtc self then false
  else existsb (fun Fmt => str_in Fmt FormatName) UncompressedFormats.

Definition AstcBlockSizes : list (string * (Z * Z)) :=
  [ ("4x4", (4, 4)); ("5x4", (5, 4)); ("5x5", (5, 5)); ("6x5", (6, 5));
    ("6x6", (6, 6)); ("8x5", (8, 5)); ("8x6", (8, 6)); ("8x8", (8, 8));
    ("10x5", (10, 5)); ("10x6", (10, 6)); ("10x8", (10, 8));
    ("10x10", (10, 10)); ("12x10", (12, 10)); ("12x12", (12, 12)) ].

(** [CalculateExpectedSize]: the [for] loop over [AstcBlockSizes.items()]
    returns at the first pattern found in the name; when no pattern is found
    control falls out of the [if] chain to the final [return 0]. *)
Definition CalculateExpectedSize (self : Texture) : Z :=
  if (Width self =? 0) || (Height self =? 0) then 0
  else
    let FormatName := GetFormatName self in
    if IsAstc self then
      match find (fun item => str_in (fst item) FormatName) AstcBlockSizes with
      | Some (_, (Bw, Bh)) =>
          let BlocksX := (Width self + Bw - 1) / Bw in
          let BlocksY := (Height self + Bh - 1) / Bh in
          BlocksX * BlocksY * 16
      | None => 0
      end
    else if IsEtc self then
      let BlocksX := (Width self + 3) / 4 in
      let BlocksY := (Height self + 3) / 4 in
      if str_in "RGBA" FormatName then BlocksX * BlocksY * 16
      else BlocksX * BlocksY * 8
    else if IsUncompressed self then
      if str_in "RGBA" FormatName || str_in "BGRA" FormatName then
        Width self * Height self * 4
      else if str_in "RGB" FormatName || str_in "BGR" FormatName then
        Width self * Height self * 3
      else if str_in "RG" FormatName then Width self * Height self * 2
      else if str_in "R" FormatName then Width self * Height self
      else 0
    else 0.

(** ** class BinaryReader(BytesIO) *)

Record BinaryReader : Set := mkReader {
  getvalue : bytes;
  tell : Z
}.

Definition BinaryReader_init (InitialBytes : bytes) : BinaryReader :=
  {| getvalue := InitialBytes; tell := 0 |}.

(** Bytes between the position and the end of the buffer. *)
Definition remaining (r : BinaryReader) : Z :=
  Z.max 0 (len (getvalue r) - tell r).

(** [BytesIO.read(Size)]: the next [Size] bytes, or all the bytes that are
    left when fewer than [Size] remain (or [Size] is negative); the
    position advances by the number of bytes returned. *)
Definition read (Size : Z) (r : BinaryReader) : bytes * BinaryReader :=
  let n := if Size <? 0 then remaining r else Z.min Size (remaining r) in
  let out := firstn (Z.to_nat n) (skipn (Z.to_nat (tell r)) (getvalue r)) in
  (out, {| getvalue := getvalue r; tell := tell r + len out |}).

(** [int.from_bytes(b, "little", signed=False)], for any length of [b]. *)
Fixpoint from_bytes_unsigned (b : bytes) : Z :=
  match b with
  | [] => 0
  | x :: b' => Z.of_N (Byte.to_N x) + 256 * from_bytes_unsigned b'
  end.

(** [int.from_bytes(b, "little", signed=True)]. *)
Definition from_bytes_signed (b : bytes) : Z :=
  let u := from_bytes_unsigned b in
  match b with
  | [] => 0
  | _ => if 2 ^ (8 * len b - 1) <=? u then u - 2 ^ (8 * len b) else u
  end.

Definition Skip (Size : Z) (r : BinaryReader) : BinaryReader :=
  snd (read Size r).

Definition ReadChar (r : BinaryReader) : Z * BinaryReader :=
  let (b, r') := read 1 r in (from_bytes_signed b, r').

Definition ReadUchar (r : BinaryReader) : Z * BinaryReader :=
  let (b, r') := read 1 r in (from_bytes_unsigned b, r').

Definition ReadBool (r : BinaryReader) : bool * BinaryReader :=
  let (v, r') := ReadUchar r in (1 <=? v, r').

Definition ReadShort (r : BinaryReader) : Z * BinaryReader :=
  let (b, r') := read 2 r in (from_bytes_signed b, r').

Definition ReadUshort (r : BinaryReader) : Z * BinaryReader :=
  let (b, r') := read 2 r in (from_bytes_unsigned b, r').

Definition ReadInt (r : BinaryReader) : Z * BinaryReader :=
  let (b, r') := read 4 r in (from_bytes_signed b, r').

Definition ReadUint (r : BinaryReader) : Z * BinaryReader :=
  let (b, r') := read 4 r in (from_bytes_unsigned b, r').

(** ** Methods as computations: state, exceptions and the log *)

Inductive Level : Set := INFO | WARNING | ERROR.

Definition LogRecord : Set := (Level * string)%type.

(** What running a method on an object leaves behind: the value returned or
    the exception raised, the object as mutated so far, and the records
    handed to [logging], oldest first. *)
Record Outcome (S A : Type) : Type := mkOutcome {
  result : Exn + A;
  final : S;
  logged : list LogRecord
}.

Arguments mkOutcome {S A} _ _ _.
Arguments result {S A} _.
Arguments final {S A} _.
Arguments logged {S A} _.

Definition M (S A : Type) : Type := S -> Outcome S A.

Definition ret {S A : Type} (a : A) : M S A :=
  fun s => mkOutcome (inr a) s [].

Definition raise {S A : Type} (e : Exn) : M S A :=
  fun s => mkOutcome (inl e) s [].

Definition bind {S A B : Type} (m : M S A) (f : A -> M S B) : M S B :=
  fun s =>
    match m s with
    | mkOutcome (inl e) s' l => mkOutcome (inl e) s' l
    | mkOutcome (inr a) s' l =>
        match f a s' with
        | mkOutcome r s'' l' => mkOutcome r s'' (l ++ l')
        end
    end.

Declare Scope py_scope.
Delimit Scope py_scope with py.
Notation "x <- c1 ;; c2" := (bind c1 (fun x => c2))
  (at level 61, c1 at next level, right associativity) : py_scope.
Notation "' pat <- c1 ;; c2" :=
  (bind c1 (fun x => match x with pat => c2 end))
  (at level 61, pat pattern, c1 at next level, right associativity) : py_scope.
Notation "c1 ;; c2" := (bind c1 (fun _ => c2))
  (at level 61, right associativity) : py_scope.
Open Scope py_scope.

Definition get {S : Type} : M S S :=
  fun s => mkOutcome (inr s) s [].

Definition modify {S : Type} (f : S -> S) : M S unit :=
  fun s => mkOutcome (inr tt) (f s) [].

(** A call into code that returns or raises without touching the object. *)
Definition call {S A : Type} (r : Exn + A) : M S A :=
  fun s => mkOutcome r s [].

Definition logging (lvl : Level) (msg : string) {S : Type} : M S unit :=
  fun s => mkOutcome (inr tt) s [(lvl, msg)].

(** [try: body  except <catches>: handler]. *)
Definition try_except {S A : Type} (body : M S A) (catches : Exn -> bool)
    (handler : Exn -> M S A) : M S A :=
  fun s =>
    match body s with
    | mkOutcome (inl e) s' l =>
        if catches e then
          match handler e s' with
          | mkOutcome r s'' l' => mkOutcome r s'' (l ++ l')
          end
        else mkOutcome (inl e) s' l
    | mkOutcome (inr a) s' l => mkOutcome (inr a) s' l
    end.

Definition any_exception (e : Exn) : bool := true.

Definition is_ValueError (e : Exn) : bool :=
  match e with
  | ValueError _ => true
  | _ => false
  end.

(** The text of [{E}] in a log message. *)
Definition exn_str (e : Exn) : string :=
  match e with
  | AttributeError msg => msg
  | ValueError msg => msg
  | IndexError msg => msg
  | TypeError msg => msg
  | ZstdError => "zstd error"
  | DecoderError => "decoder error"
  end.

(** [ScPixel(n)] as a call: a member, or [ValueError]. *)
Definition ScPixel_call (n : Z) : Exn + ScPixel.t :=
  match ScPixel.of_value n with
  | Some p => inr p
  | None => inl (ValueError (str n ++ " is not a valid ScPixel")%string)
  end.

(** Equality of two [bytes] objects. *)
Fixpoint bytes_eqb (a b : bytes) : bool :=
  match a, b with
  | [], [] => true
  | x :: a', y :: b' => Byte.eqb x y && bytes_eqb a' b'
  | _, _ => false
  end.

(** [b[i:j]] and [b[i:]] for [0 <= i <= j]. *)
Definition slice (i j : Z) (b : bytes) : bytes :=
  firstn (Z.to_nat (j - i)) (skipn (Z.to_nat i) b).

Definition slice_from (i : Z) (b : bytes) : bytes := skipn (Z.to_nat i) b.

(** [data.find(sub)]: the lowest index at which [sub] starts, or [-1]. *)
Fixpoint find_from (sub data : bytes) (i : Z) : Z :=
  if bytes_eqb sub (firstn (List.length sub) data) then i
  else match data with
       | [] => -1
       | _ :: data' => find_from sub data' (i + 1)
       end.

Definition bytes_find (data sub : bytes) : Z := find_from sub data 0.

Definition ZstdMagic : bytes := [x28; xb5; x2f; xfd].

(** ** Texture: the methods that call [zstandard] *)

Section ExternalLibraries.

(** [zstandard.ZstdDecompressor().decompress(data, max_output_size=...)]:
    the second argument is [None] where the call site passes no
    [max_output_size]. *)
Variable zstd_decompress : bytes -> option Z -> Exn + bytes.

Definition IsCompressedData : M Texture bool :=
  self <- get ;;
  match IsCompressedDataFlag self with
  | Some flag => ret flag
  | None =>
      match Data self with
      | Some ((_ :: _) as data) =>
          if len data <? 4 then
            modify (set_IsCompressedDataFlag (Some false)) ;; ret false
          else if bytes_eqb (slice 0 4 data) ZstdMagic then
            modify (set_IsCompressedDataFlag (Some true)) ;; ret true
          else
            probed <- try_except
              (let TestData := slice 0 (Z.min 100 (len data)) data in
               _ <- call (zstd_decompress TestData (Some 1000)) ;;
               modify (set_IsCompressedDataFlag (Some true)) ;;
               ret true)
              any_exception
              (fun _ => ret false) ;;
            if probed : bool then ret true
            else modify (set_IsCompressedDataFlag (Some false)) ;; ret false
      | _ =>
          modify (set_IsCompressedDataFlag (Some false)) ;; ret false
      end
  end.

(** [DecompressData] returns [self.Data] itself when the data is not
    compressed or cannot be decompressed, hence the [option]. *)
Definition DecompressData : M Texture (option bytes) :=
  self <- get ;;
  match DecompressedData self with
  | Some d => ret (Some d)
  | None =>
      compressed <- IsCompressedData ;;
      if negb compressed then
        modify (set_DecompressedData (Data self)) ;; ret (Data self)
      else
        try_except
          (let MaxExpected := CalculateExpectedSize self * 3 in
           let MaxExpected :=
             if MaxExpected =? 0 then 100 * 1024 * 1024 else MaxExpected in
           data <- match Data self with
                   | Some d => ret d
                   | None => raise (TypeError "a bytes-like object is required")
                   end ;;
           out <- call (zstd_decompress data (Some MaxExpected)) ;;
           modify (set_DecompressedData (Some out)) ;;
           logging INFO ("Successfully decompressed: " ++ str (len data)
                         ++ " -> " ++ str (len out) ++ " bytes")%string ;;
           ret (Some out))
          any_exception
          (fun _ =>
             modify (set_DecompressedData (Data self)) ;; ret (Data self))
  end.

(** ** class SCTX *)

(** The attributes of an [SCTX] object.  [Width], [Height] and [FileSize]
    are written once by [__init__] and never read, and are left out;
    [Texture_] is the attribute [Texture] (the name is taken by the class);
    [StreamingId] exists only once [ReadStreamingData] has assigned it. *)
Record SCTX : Set := mkSCTX {
  StreamingTextureId : Z;
  TextureId : Z;
  StreamingTexture : option Texture;
  Texture_ : option Texture;
  OriginalFileData : bytes;
  CompressedPayload : option bytes;
  DecompressedPayload : option bytes;
  StreamingId : option Z
}.

Definition set_StreamingTexture (v : option Texture) (s : SCTX) : SCTX :=
  {| StreamingTextureId := StreamingTextureId s; TextureId := TextureId s;
     StreamingTexture := v; Texture_ := Texture_ s;
     OriginalFileData := OriginalFileData s;
     CompressedPayload := CompressedPayload s;
     DecompressedPayload := DecompressedPayload s;
     StreamingId := StreamingId s |}.

Definition set_Texture (v : option Texture) (s : SCTX) : SCTX :=
  {| StreamingTextureId := StreamingTextureId s; TextureId := TextureId s;
     StreamingTexture := StreamingTexture s; Texture_ := v;
     OriginalFileData := OriginalFileData s;
     CompressedPayload := CompressedPayload s;
     DecompressedPayload := DecompressedPayload s;
     StreamingId := StreamingId s |}.

Definition set_CompressedPayload (v : option bytes) (s : SCTX) : SCTX :=
  {| StreamingTextureId := StreamingTextureId s; TextureId := TextureId s;
     StreamingTexture := StreamingTexture s; Texture_ := Texture_ s;
     OriginalFileData := OriginalFileData s;
     CompressedPayload := v;
     DecompressedPayload := DecompressedPayload s;
     StreamingId := StreamingId s |}.

Definition set_DecompressedPayload (v : option bytes) (s : SCTX) : SCTX :=
  {| StreamingTextureId := StreamingTextureId s; TextureId := TextureId s;
     StreamingTexture := StreamingTexture s; Texture_ := Texture_ s;
     OriginalFileData := OriginalFileData s;
     CompressedPayload := CompressedPayload s;
     DecompressedPayload := v;
     StreamingId := StreamingId s |}.

Definition set_StreamingId (v : option Z) (s : SCTX) : SCTX :=
  {| StreamingTextureId := StreamingTextureId s; TextureId := TextureId s;
     StreamingTexture := StreamingTexture s; Texture_ := Texture_ s;
     OriginalFileData := OriginalFileData s;
     CompressedPayload := CompressedPayload s;
     DecompressedPayload := DecompressedPayload s;
     StreamingId := v |}.

Definition NoneType_has_no (attr : string) : Exn :=
  AttributeError ("'NoneType' object has no attribute '" ++ attr ++ "'")%string.

(** [self.Texture.<attr> = v]: an attribute assignment on whatever
    [self.Texture] holds; on [None] it raises [AttributeError]. *)
Definition setattr_Texture (attr : string) (f : Texture -> Texture)
    : M SCTX unit :=
  self <- get ;;
  match Texture_ self with
  | Some t => modify (set_Texture (Some (f t)))
  | None => raise (NoneType_has_no attr)
  end.

(** [self.StreamingTexture.<attr> = v]. *)
Definition setattr_StreamingTexture (attr : string) (f : Texture -> Texture)
    : M SCTX unit :=
  self <- get ;;
  match StreamingTexture self with
  | Some t => modify (set_StreamingTexture (Some (f t)))
  | None => raise (NoneType_has_no attr)
  end.

(** The [try] block shared by the two decompression attempts of
    [FindAndDecompressPayload]; it answers whether the payload was
    decompressed. *)
Definition decompress_payload : M SCTX bool :=
  try_except
    (self <- get ;;
     payload <- match CompressedPayload self with
                | Some p => ret p
                | None => raise (TypeError "a bytes-like object is required")
                end ;;
     out <- call (zstd_decompress payload None) ;;
     modify (set_DecompressedPayload (Some out)) ;;
     logging INFO ("Decompressed payload: " ++ str (len payload) ++ " -> "
                   ++ str (len out) ++ " bytes")%string ;;
     ret true)
    any_exception
    (fun E =>
       logging ERROR ("Failed to decompress payload: " ++ exn_str E)%string ;;
       ret false).

(** The [for Offset in [...]] loop of [FindAndDecompressPayload]; it answers
    whether the method returned from inside the loop. *)
Fixpoint scan_offsets (Offsets : list Z) : M SCTX bool :=
  match Offsets with
  | [] => ret false
  | Offset :: Offsets' =>
      self <- get ;;
      if Offset <? len (OriginalFileData self) - 4 then
        let Chunk := slice Offset (Offset + 4) (OriginalFileData self) in
        if bytes_eqb Chunk ZstdMagic then
          logging INFO ("Found Zstd compressed data at offset "
                        ++ str Offset)%string ;;
          modify (set_CompressedPayload
                    (Some (slice_from Offset (OriginalFileData self)))) ;;
          done <- decompress_payload ;;
          if done : bool then ret true else scan_offsets Offsets'
        else scan_offsets Offsets'
      else scan_offsets Offsets'
  end.

Definition FindAndDecompressPayload : M SCTX unit :=
  returned <- scan_offsets [0; 512; 536; 584; 768; 1024] ;;
  if returned : bool then ret tt
  else
    self <- get ;;
    let Pos := bytes_find (OriginalFileData self) ZstdMagic in
    if negb (Pos =? -1) then
      logging INFO ("Found Zstd compressed data at offset " ++ str Pos)%string ;;
      modify (set_CompressedPayload
                (Some (slice_from Pos (OriginalFileData self)))) ;;
      _ <- decompress_payload ;;
      ret tt
    else ret tt.

(** Lines 444-456 of [ReadStreamingTexture]: the [Texture] built from the
    format code just read. *)
Definition ReadStreamingTexture_new_Texture (PixelType Width Height : Z)
    : M SCTX unit :=
  if int_in PixelType AstcFormatIds then
    try_except
      (p <- call (ScPixel_call PixelType) ;;
       modify (set_StreamingTexture
                 (Some (Texture_init (Enum p) Width Height))))
      is_ValueError
      (fun _ => modify (set_StreamingTexture
                          (Some (Texture_init (Raw PixelType) Width Height))))
  else if PixelType =? 70 then
    modify (set_StreamingTexture
              (Some (Texture_init (Enum ScPixel.RGBA8Unorm_70) Width Height)))
  else
    try_except
      (p <- call (ScPixel_call PixelType) ;;
       modify (set_StreamingTexture
                 (Some (Texture_init (Enum p) Width Height))))
      is_ValueError
      (fun _ => modify (set_StreamingTexture
                          (Some (Texture_init (Raw PixelType) Width Height)))).

Definition ReadStreamingTexture (Data : bytes) : M SCTX unit :=
  if len Data <? 28 + 12 then ret tt
  else
    let Reader := BinaryReader_init Data in
    let Reader := Skip 28 Reader in
    let '(Width, Reader) := ReadUshort Reader in
    let '(Height, Reader) := ReadUshort Reader in
    let '(PixelType, Reader) := ReadUint Reader in
    let '(_, Reader) := ReadInt Reader in
    ReadStreamingTexture_new_Texture PixelType Width Height ;;
    if len Data - tell Reader >=? 4 then
      let '(v, Reader) := ReadUint Reader in
      setattr_StreamingTexture "DataLength" (set_DataLength v) ;;
      if (v >? 0) && (len Data - tell Reader >=? v) then
        let '(d, Reader) := read v Reader in
        setattr_StreamingTexture "Data" (set_Data (Some d))
      else ret tt
    else ret tt.

(** Lines 402-416 of [ReadStreamingData]: the main [Texture] built from the
    format code just read. *)
Definition ReadStreamingData_new_Texture (PixelType Width Height : Z)
    : M SCTX unit :=
  if int_in PixelType AstcFormatIds then
    logging INFO ("Detected ASTC format: ID " ++ str PixelType)%string ;;
    try_except
      (p <- call (ScPixel_call PixelType) ;;
       modify (set_Texture (Some (Texture_init (Enum p) Width Height))))
      is_ValueError
      (fun _ => modify (set_Texture
                          (Some (Texture_init (Raw PixelType) Width Height))))
  else if PixelType =? 70 then
    modify (set_Texture
              (Some (Texture_init (Enum ScPixel.RGBA8Unorm_70) Width Height)))
  else
    try_except
      (p <- call (ScPixel_call PixelType) ;;
       modify (set_Texture (Some (Texture_init (Enum p) Width Height))))
      is_ValueError
      (fun _ =>
         logging WARNING ("Unknown pixel format detected: "
                          ++ str PixelType)%string ;;
         modify (set_Texture
                   (Some (Texture_init (Raw PixelType) Width Height)))).

Definition ReadStreamingData (Data : bytes) : M SCTX unit :=
  if len Data <? 4 then ret tt
  else
    let Reader := BinaryReader_init Data in
    let '(HeaderLength, Reader) := ReadUint Reader in
    if HeaderLength >? len Data - 4 then ret tt
    else
      let Reader := Skip HeaderLength Reader in
      if len Data - tell Reader <? 14 then ret tt
      else
        let '(PixelType, Reader) := ReadUint Reader in
        let '(Width, Reader) := ReadUshort Reader in
        let '(Height, Reader) := ReadUshort Reader in
        let '(_, Reader) := ReadInt Reader in
        ReadStreamingData_new_Texture PixelType Width Height ;;
        Reader <- (if len Data - tell Reader >=? 4 then
                     let '(v, Reader) := ReadUint Reader in
                     setattr_Texture "DataLength" (set_DataLength v) ;;
                     ret Reader
                   else ret Reader) ;;
        self <- get ;;
        if negb (StreamingTextureId self =? 0)
           && (len Data - tell Reader >=? 20) then
          let Reader := Skip 16 Reader in
          Reader <- (if len Data - tell Reader >=? 4 then
                       let '(StreamingTextureLength, Reader) := ReadUint Reader in
                       if (StreamingTextureLength >? 0)
                          && (len Data - tell Reader >=? StreamingTextureLength)
                       then
                         let '(Sub, Reader) := read StreamingTextureLength Reader in
                         ReadStreamingTexture Sub ;;
                         ret Reader
                       else ret Reader
                     else ret Reader) ;;
          if len Data - tell Reader >=? 4 then
            let '(v, Reader) := ReadUint Reader in
            modify (set_StreamingId (Some v))
          else ret tt
        else ret tt.

Definition ReadTexture (Data : bytes) : M SCTX unit :=
  if len Data <? 24 + 10 then ret tt
  else
    let Reader := BinaryReader_init Data in
    let Reader := Skip 24 Reader in
    let '(v, Reader) := ReadUshort Reader in
    setattr_Texture "Width" (set_Width v) ;;
    let '(v, Reader) := ReadUshort Reader in
    setattr_Texture "Height" (set_Height v) ;;
    let '(_, Reader) := ReadUint Reader in
    if len Data - tell Reader >=? 4 then
      let '(HashLength, Reader) := ReadUint Reader in
      if (HashLength >? 0) && (len Data - tell Reader >=? HashLength) then
        let '(HashData, Reader) := read HashLength Reader in
        ret tt
      else ret tt
    else ret tt.

(** *** [SCTX.__init__]

    The body of the constructor after the file has been read, cut at its
    blank lines into the reads it performs on the file's [Reader]. *)

(** Lines 322-327: the streaming block. *)
Definition init_streaming_block (Reader : BinaryReader)
    : M SCTX (bytes * BinaryReader) :=
  self <- get ;;
  let '(StreamingLength, Reader) := ReadUint Reader in
  StreamingLength <-
    (if StreamingLength >? len (OriginalFileData self) - tell Reader then
       logging WARNING ("Invalid streaming length "
                        ++ str StreamingLength)%string ;;
       ret (Z.min StreamingLength (len (OriginalFileData self) - tell Reader))
     else ret StreamingLength) ;;
  ret (read StreamingLength Reader).

(** Lines 331-336: the texture header block. *)
Definition init_texture_block (Reader : BinaryReader)
    : M SCTX (bytes * BinaryReader) :=
  self <- get ;;
  let '(DataLength, Reader) := ReadUint Reader in
  DataLength <-
    (if DataLength >? len (OriginalFileData self) - tell Reader then
       logging WARNING ("Invalid data length " ++ str DataLength)%string ;;
       ret (Z.min DataLength (len (OriginalFileData self) - tell Reader))
     else ret DataLength) ;;
  ret (read DataLength Reader).

(** Lines 339-346: the texture data. *)
Definition init_texture_data (Reader : BinaryReader) : M SCTX BinaryReader :=
  self <- get ;;
  match Texture_ self with
  | Some t =>
      if DataLength t >? 0 then
        if tell Reader + DataLength t <=? len (OriginalFileData self) then
          let '(d, Reader) := read (DataLength t) Reader in
          setattr_Texture "Data" (set_Data (Some d)) ;;
          ret Reader
        else
          logging WARNING ("Texture data length " ++ str (DataLength t)
                           ++ " exceeds file size")%string ;;
          let Remaining := len (OriginalFileData self) - tell Reader in
          if Remaining >? 0 then
            let '(d, Reader) := read Remaining Reader in
            setattr_Texture "Data" (set_Data (Some d)) ;;
            ret Reader
          else ret Reader
      else ret Reader
  | None => ret Reader
  end.

(** Lines 348-353: the repair after the parse. *)
Definition init_repair : M SCTX unit :=
  self <- get ;;
  match Texture_ self with
  | Some t =>
      if negb (truthy (Data t)) || (len (match Data t with
                                         | Some d => d
                                         | None => []
                                         end) <? 16) then
        logging INFO "Main texture data is too small, checking streaming texture..." ;;
        match StreamingTexture self with
        | Some st =>
            if truthy (Data st) then
              logging INFO "Using streaming texture data instead" ;;
              setattr_Texture "Data" (set_Data (Data st)) ;;
              setattr_Texture "DataLength" (set_DataLength (DataLength st))
            else ret tt
        | None => ret tt
        end
      else ret tt
  | None => ret tt
  end.

Definition SCTX__init__body : M SCTX unit :=
  FindAndDecompressPayload ;;
  self <- get ;;
  let Reader := BinaryReader_init (OriginalFileData self) in
  '(StreamingData, Reader) <- init_streaming_block Reader ;;
  ReadStreamingData StreamingData ;;
  (if tell Reader <? len (OriginalFileData self) - 4 then
     '(Data, Reader) <- init_texture_block Reader ;;
     ReadTexture Data ;;
     _ <- init_texture_data Reader ;;
     ret tt
   else ret tt) ;;
  init_repair.

(** [SCTX(Filepath, StreamingIdOverride)] on a file whose content is
    [FileData]. *)
Definition SCTX__init__ (FileData : bytes) (StreamingIdOverride : Z)
    : Outcome SCTX unit :=
  SCTX__init__body
    {| StreamingTextureId := StreamingIdOverride; TextureId := 255;
       StreamingTexture := None; Texture_ := None;
       OriginalFileData := FileData; CompressedPayload := None;
       DecompressedPayload := None; StreamingId := None |}.

(** *** [SCTX.DecodeTexture] *)

(** The entry points of [texture2ddecoder] the dispatcher calls; each
    returns the decoded bytes or raises. *)
Record Texture2DDecoder : Type := mkDecoder {
  decode_astc : bytes -> Z -> Z -> Z -> Z -> Exn + bytes;
  decode_etc1 : bytes -> Z -> Z -> Exn + bytes;
  decode_etc2 : bytes -> Z -> Z -> Exn + bytes;
  decode_etc2a1 : bytes -> Z -> Z -> Exn + bytes;
  decode_eacr : bytes -> Z -> Z -> bool -> Exn + bytes;
  decode_eacrg : bytes -> Z -> Z -> bool -> Exn + bytes;
  decode_pvrtc : bytes -> Z -> Z -> bool -> Exn + bytes
}.

Variable texture2ddecoder : Texture2DDecoder.

(** [range(0, stop, step)] for a positive [step]. *)
Definition range_step (stop step : Z) : list Z :=
  map (fun k => Z.of_nat k * step)
      (seq 0 (Z.to_nat ((stop + step - 1) / step))).

(** A [for] loop whose body extends one output [bytearray]: the chunks the
    iterations produce, concatenated, unless an iteration raises. *)
Fixpoint for_extend {A : Type} (items : list A) (body : A -> Exn + bytes)
    : Exn + bytes :=
  match items with
  | [] => inr []
  | item :: items' =>
      match body item with
      | inl e => inl e
      | inr chunk =>
          match for_extend items' body with
          | inl e => inl e
          | inr rest => inr (chunk ++ rest)
          end
      end
  end.

(** [b[i]] on a [bytes] object.  (The loop variable [I] of the source is
    written [Idx] below.) *)
Definition getitem (b : bytes) (Idx : Z) : Exn + byte :=
  match nth_error b (Z.to_nat Idx) with
  | Some x => inr x
  | None => inl (IndexError "index out of range")
  end.

(** [a, b, ... = seq] on a sequence that holds fewer values than there are
    targets.  (The slices unpacked below never hold more.) *)
Definition unpack_error (expected got : Z) : Exn :=
  ValueError ("not enough values to unpack (expected " ++ str expected
              ++ ", got " ++ str got ++ ")")%string.

(** [for I in range(0, len(Src), 4): R, G, B, A = Src[I:I+4];
    Out.extend([B, G, R, A])]. *)
Definition rgba_to_bgra (Src : bytes) : Exn + bytes :=
  for_extend (range_step (len Src) 4)
    (fun Idx => match slice Idx (Idx + 4) Src with
              | [R; G; B; A] => inr [B; G; R; A]
              | c => inl (unpack_error 4 (len c))
              end).

(** [re.search(r'(\d+)x(\d+)', FormatName)] with both groups converted by
    [int]: the leftmost place where a maximal run of digits is followed by
    [x] and by another run of digits. *)
Definition is_digit (c : ascii) : bool :=
  (Nat.leb 48 (nat_of_ascii c)) && (Nat.leb (nat_of_ascii c) 57).

Fixpoint take_digits (s : string) : string * string :=
  match s with
  | String c s' =>
      if is_digit c then
        let (d, rest) := take_digits s' in (String c d, rest)
      else (EmptyString, s)
  | EmptyString => (EmptyString, EmptyString)
  end.

Fixpoint int_of_digits (acc : Z) (s : string) : Z :=
  match s with
  | String c s' => int_of_digits (10 * acc + Z.of_nat (nat_of_ascii c - 48)) s'
  | EmptyString => acc
  end.

Definition match_dims_here (s : string) : option (Z * Z) :=
  let (d1, rest) := take_digits s in
  match d1, rest with
  | String _ _, String "x" rest' =>
      let (d2, _) := take_digits rest' in
      match d2 with
      | String _ _ => Some (int_of_digits 0 d1, int_of_digits 0 d2)
      | EmptyString => None
      end
  | _, _ => None
  end.

Fixpoint re_search_dims (s : string) : option (Z * Z) :=
  match match_dims_here s with
  | Some m => Some m
  | None =>
      match s with
      | String _ s' => re_search_dims s'
      | EmptyString => None
      end
  end.

Definition Decoded : Set := option (bytes * string).

(** The last two lines of the [try] block, reached by every path that did
    not return. *)
Definition unsupported (FormatName : string) : M Texture Decoded :=
  logging ERROR ("Unsupported texture format: " ++ FormatName)%string ;;
  ret None.

(** Lines 522-654: the body of the [try] block. *)
Definition decode_dispatch (TextureData : bytes) : M Texture Decoded :=
  TextureObj <- get ;;
  let Width := Width TextureObj in
  let Height := Height TextureObj in
  let FormatName := GetFormatName TextureObj in
  let contains sub := str_in sub FormatName in
  if IsAstc TextureObj then
    match re_search_dims FormatName with
    | Some (BlockWidth, BlockHeight) =>
        RgbaData <- call (decode_astc texture2ddecoder TextureData Width Height
                                      BlockWidth BlockHeight) ;;
        BgraData <- call (rgba_to_bgra RgbaData) ;;
        ret (Some (BgraData, "RGBA"))
    | None => unsupported FormatName
    end
  else if IsEtc TextureObj then
    if contains "ETC1" || contains "ETC2_RGB8" || contains "ETC2_SRGB8" then
      RgbaData <- call (decode_etc1 texture2ddecoder TextureData Width Height) ;;
      BgraData <- call (rgba_to_bgra RgbaData) ;;
      ret (Some (BgraData, "RGBA"))
    else if contains "ETC2_EAC_RGBA8" || contains "ETC2_EAC_SRGBA8" then
      RgbaData <- call (decode_etc2 texture2ddecoder TextureData Width Height) ;;
      BgraData <- call (rgba_to_bgra RgbaData) ;;
      ret (Some (BgraData, "RGBA"))
    else if contains "ETC2_RGB8_PUNCHTHROUGH_ALPHA1"
            || contains "ETC2_SRGB8_PUNCHTHROUGH_ALPHA1" then
      RgbaData <- call (decode_etc2a1 texture2ddecoder TextureData Width Height) ;;
      BgraData <- call (rgba_to_bgra RgbaData) ;;
      ret (Some (BgraData, "RGBA"))
    else if contains "EAC_R11" || contains "EAC_SIGNED_R11" then
      MonoData <- call (decode_eacr texture2ddecoder TextureData Width Height
                                    (contains "SIGNED")) ;;
      BgraData <- call (for_extend MonoData
                          (fun Intensity =>
                             inr [Intensity; Intensity; Intensity; xff])) ;;
      ret (Some (BgraData, "RGBA"))
    else if contains "EAC_RG11" || contains "EAC_SIGNED_RG11" then
      RgData <- call (decode_eacrg texture2ddecoder TextureData Width Height
                                   (contains "SIGNED")) ;;
      BgraData <- call (for_extend (range_step (len RgData) 2)
                          (fun Idx => match slice Idx (Idx + 2) RgData with
                                    | [R; G] => inr [x00; G; R; xff]
                                    | c => inl (unpack_error 2 (len c))
                                    end)) ;;
      ret (Some (BgraData, "RGBA"))
    else unsupported FormatName
  else if IsUncompressed TextureObj then
    if contains "RGBA8Unorm" then
      logging INFO "RGBA8Unorm: treating as BGRA (no conversion)" ;;
      ret (Some (TextureData, "RGBA"))
    else if contains "RGBA8" && negb (contains "Unorm") then
      BgraData <- call (rgba_to_bgra TextureData) ;;
      ret (Some (BgraData, "RGBA"))
    else if contains "BGRA8" || contains "BGRA8Unorm" || contains "BGRA8_SRGB" then
      ret (Some (TextureData, "RGBA"))
    else if contains "RGB8" || contains "RGB8Unorm" || contains "RGB8_SRGB"
            || contains "RGB8Unorm_sRGB" then
      RgbData <- call (for_extend (range_step (len TextureData) 3)
                         (fun Idx => match slice Idx (Idx + 3) TextureData with
                                   | [R; G; B] => inr [R; G; B]
                                   | c => inl (unpack_error 3 (len c))
                                   end)) ;;
      ret (Some (RgbData, "RGB"))
    else if contains "BGR8" || contains "BGR8Unorm" then
      RgbData <- call (for_extend (range_step (len TextureData) 3)
                         (fun Idx => match slice Idx (Idx + 3) TextureData with
                                   | [B; G; R] => inr [R; G; B]
                                   | c => inl (unpack_error 3 (len c))
                                   end)) ;;
      ret (Some (RgbData, "RGB"))
    else if contains "RG8" || contains "RG8Unorm" then
      RgbData <- call (for_extend (range_step (len TextureData) 2)
                         (fun Idx => match slice Idx (Idx + 2) TextureData with
                                   | [R; G] => inr [R; G; x00]
                                   | c => inl (unpack_error 2 (len c))
                                   end)) ;;
      ret (Some (RgbData, "RGB"))
    else if contains "R8" || contains "R8Unorm" then
      RgbData <- call (for_extend TextureData (fun R => inr [R; R; R])) ;;
      ret (Some (RgbData, "RGB"))
    else if contains "R16F" || contains "R32F" then
      RgbData <- call (for_extend
                         (range_step (len TextureData)
                                     (if contains "R16F" then 2 else 4))
                         (fun Idx => match getitem TextureData Idx with
                                   | inr R => inr [R; R; R]
                                   | inl e => inl e
                                   end)) ;;
      ret (Some (RgbData, "RGB"))
    else if contains "RG16F" || contains "RG32F" then
      let Step := if contains "RG16F" then 4 else 8 in
      RgbData <- call (for_extend (range_step (len TextureData) Step)
                         (fun Idx =>
                            match getitem TextureData Idx,
                                  getitem TextureData
                                    (Idx + (if contains "RG16F" then 2 else 4))
                            with
                            | inr R, inr G => inr [R; G; x00]
                            | inl e, _ => inl e
                            | _, inl e => inl e
                            end)) ;;
      ret (Some (RgbData, "RGB"))
    else if contains "RGB16F" || contains "RGB32F" then
      let Step := if contains "RGB16F" then 6 else 12 in
      RgbData <- call (for_extend (range_step (len TextureData) Step)
                         (fun Idx =>
                            match getitem TextureData Idx,
                                  getitem TextureData
                                    (Idx + (if contains "RGB16F" then 2 else 4)),
                                  getitem TextureData
                                    (Idx + (if contains "RGB16F" then 4 else 8))
                            with
                            | inr R, inr G, inr B => inr [R; G; B]
                            | inl e, _, _ => inl e
                            | _, inl e, _ => inl e
                            | _, _, inl e => inl e
                            end)) ;;
      ret (Some (RgbData, "RGB"))
    else if contains "RGBA16F" || contains "RGBA32F" then
      let Step := if contains "RGBA16F" then 8 else 16 in
      BgraData <- call (for_extend (range_step (len TextureData) Step)
                          (fun Idx =>
                             match getitem TextureData Idx,
                                   getitem TextureData
                                     (Idx + (if contains "RGBA16F" then 2 else 4)),
                                   getitem TextureData
                                     (Idx + (if contains "RGBA16F" then 4 else 8)),
                                   getitem TextureData
                                     (Idx + (if contains "RGBA16F" then 6 else 12))
                             with
                             | inr R, inr G, inr B, inr A => inr [B; G; R; A]
                             | inl e, _, _, _ => inl e
                             | _, inl e, _, _ => inl e
                             | _, _, inl e, _ => inl e
                             | _, _, _, inl e => inl e
                             end)) ;;
      ret (Some (BgraData, "RGBA"))
    else unsupported FormatName
  else if IsPvrtc TextureObj then
    let Is2Bpp := contains "2" in
    RgbaData <- call (decode_pvrtc texture2ddecoder TextureData Width Height
                                   Is2Bpp) ;;
    BgraData <- call (rgba_to_bgra RgbaData) ;;
    ret (Some (BgraData, "RGBA"))
  else unsupported FormatName.

(** Lines 502-511: the bytes the decode works on; [None] when the method
    returns for want of data.  The inner [option] is the Python value
    ([DecompressData] hands back [self.Data] as it is). *)
Definition decode_source (self : SCTX) (UseDecompressedPayload : bool)
    : M Texture (option (option bytes)) :=
  TextureObj <- get ;;
  if UseDecompressedPayload && truthy (DecompressedPayload self) then
    logging INFO "Using decompressed payload for decoding" ;;
    ret (Some (DecompressedPayload self))
  else if truthy (Data TextureObj) then
    compressed <- IsCompressedData ;;
    if compressed : bool then
      TextureData <- DecompressData ;;
      ret (Some TextureData)
    else ret (Some (Data TextureObj))
  else ret None.

(** [self.DecodeTexture(TextureObj, UseDecompressedPayload)], run on
    [TextureObj]; the value [None] is the pair [(None, None)]. *)
Definition DecodeTexture (self : SCTX) (UseDecompressedPayload : bool)
    : M Texture Decoded :=
  source <- decode_source self UseDecompressedPayload ;;
  match source with
  | None =>
      logging ERROR "No texture data available" ;;
      ret None
  | Some TextureData =>
      let size := match TextureData with
                  | Some ((_ :: _) as d) => len d
                  | _ => 0
                  end in
      if negb (truthy TextureData) || (size <? 16) then
        logging ERROR ("Texture data too small: " ++ str size ++ " bytes")%string ;;
        ret None
      else
        try_except
          (decode_dispatch (match TextureData with Some d => d | None => [] end))
          any_exception
          (fun E =>
             logging ERROR ("Error decoding texture: " ++ exn_str E)%string ;;
             ret None)
  end.

End ExternalLibraries.

(** * Reference definitions

    What the properties below compare the code with: the catalogue as the
    design words it, the arithmetic of the expected size, and the channel
    permutation of the canonical output. *)

Module Catalogue.
Import ScPixel.

(** Block footprint of the ASTC and ETC/EAC members. *)
Definition block_footprint (p : ScPixel.t) : option (Z * Z) :=
  match p with
  | ASTC_SRGBA8_4x4 | ASTC_RGBA8_4x4 => Some (4, 4)
  | ASTC_SRGBA8_5x4 | ASTC_RGBA8_5x4 => Some (5, 4)
  | ASTC_SRGBA8_5x5 | ASTC_RGBA8_5x5 => Some (5, 5)
  | ASTC_SRGBA8_6x5 | ASTC_RGBA8_6x5 => Some (6, 5)
  | ASTC_SRGBA8_6x6 | ASTC_RGBA8_6x6 => Some (6, 6)
  | ASTC_SRGBA8_8x5 | ASTC_RGBA8_8x5 => Some (8, 5)
  | ASTC_SRGBA8_8x6 | ASTC_RGBA8_8x6 => Some (8, 6)
  | ASTC_SRGBA8_8x8 | ASTC_RGBA8_8x8 => Some (8, 8)
  | ASTC_SRGBA8_10x5 | ASTC_RGBA8_10x5 => Some (10, 5)
  | ASTC_SRGBA8_10x6 | ASTC_RGBA8_10x6 => Some (10, 6)
  | ASTC_SRGBA8_10x8 | ASTC_RGBA8_10x8 => Some (10, 8)
  | ASTC_SRGBA8_10x10 | ASTC_RGBA8_10x10 => Some (10, 10)
  | ASTC_SRGBA8_12x10 | ASTC_RGBA8_12x10 => Some (12, 10)
  | ASTC_SRGBA8_12x12 | ASTC_RGBA8_12x12 => Some (12, 12)
  | EAC_R11 | EAC_SIGNED_R11 | EAC_RG11 | EAC_SIGNED_RG11
  | ETC2_EAC_RGBA8 | ETC2_EAC_SRGBA8 | ETC2_RGB8 | ETC2_SRGB8
  | ETC2_RGB8_PUNCHTHROUGH_ALPHA1 | ETC2_SRGB8_PUNCHTHROUGH_ALPHA1
  | ETC1_RGB8 => Some (4, 4)
  | _ => None
  end.

(** Bytes per block the code charges: 16 for ASTC and for the two ETC2
    members that carry RGBA, 8 for every other ETC/EAC member. *)
Definition bytes_per_block (p : ScPixel.t) : Z :=
  match p with
  | EAC_R11 | EAC_SIGNED_R11 | EAC_RG11 | EAC_SIGNED_RG11
  | ETC2_RGB8 | ETC2_SRGB8
  | ETC2_RGB8_PUNCHTHROUGH_ALPHA1 | ETC2_SRGB8_PUNCHTHROUGH_ALPHA1
  | ETC1_RGB8 => 8
  | _ => 16
  end.

Definition is_pvrtc (p : ScPixel.t) : bool :=
  match p with
  | PVRTC1_RGB2 | PVRTC1_SRGB2 | PVRTC1_RGB4 | PVRTC1_SRGB4
  | PVRTC1_RGBA2 | PVRTC1_SRGBA2 | PVRTC1_RGBA4 | PVRTC1_SRGBA4
  | PVRTC2_RGBA2 | PVRTC2_SRGBA2 | PVRTC2_RGBA4 | PVRTC2_SRGBA4 => true
  | _ => false
  end.

(** Channel count of the uncompressed members. *)
Definition channels (p : ScPixel.t) : option Z :=
  match p with
  | R8 | R8_SIGNED | R16 | R16_SIGNED | R16F | R32F | R8Unorm => Some 1
  | RG8 | RG8_SIGNED | RG16 | RG16_SIGNED | RG16F | RG32F | RG8Unorm => Some 2
  | RGB8 | RGB8_SIGNED | RGB16 | RGB16_SIGNED | RGB16F | RGB32F | BGR8
  | RGB8Unorm | RGB8Unorm_sRGB | BGR8Unorm => Some 3
  | RGBA8 | RGBA8_SIGNED | RGBA16 | RGBA16_SIGNED | RGBA16F | RGBA32F
  | BGRA8 | BGRA8_SRGB | RGBA8Unorm | RGBA8Unorm_sRGB | BGRA8Unorm
  | RGBA8Unorm_70 => Some 4
  | _ => None
  end.

(** Storage width of one channel, in bytes. *)
Definition bytes_per_channel (p : ScPixel.t) : Z :=
  match p with
  | R16 | R16_SIGNED | R16F | RG16 | RG16_SIGNED | RG16F
  | RGB16 | RGB16_SIGNED | RGB16F | RGBA16 | RGBA16_SIGNED | RGBA16F => 2
  | R32F | RG32F | RGB32F | RGBA32F => 4
  | _ => 1
  end.

(** The 8-bit RGBA members the dispatcher reorders, and the 8-bit members
    it hands back as they are. *)
Definition reordered_rgba8 (p : ScPixel.t) : bool :=
  match p with
  | RGBA8 | RGBA8_SIGNED => true
  | _ => false
  end.

Definition passed_through (p : ScPixel.t) : bool :=
  match p with
  | RGBA8Unorm | RGBA8Unorm_sRGB | RGBA8Unorm_70
  | BGRA8 | BGRA8_SRGB | BGRA8Unorm => true
  | _ => false
  end.

(** The PVRTC members stored at 2 bits per pixel. *)
Definition two_bpp (p : ScPixel.t) : bool :=
  match p with
  | PVRTC1_RGB2 | PVRTC1_SRGB2 | PVRTC1_RGBA2 | PVRTC1_SRGBA2
  | PVRTC2_RGBA2 | PVRTC2_SRGBA2 => true
  | _ => false
  end.

(** The PVRTC2 members stored at 4 bits per pixel. *)
Definition pvrtc2_four_bpp (p : ScPixel.t) : bool :=
  match p with
  | PVRTC2_RGBA4 | PVRTC2_SRGBA4 => true
  | _ => false
  end.

End Catalogue.

(** Division rounding up. *)
Definition ceil_div (a b : Z) : Z :=
  a / b + (if a mod b =? 0 then 0 else 1).

(** The (B,G,R,A) permutation of a buffer of (R,G,B,A) pixels. *)
Fixpoint swap_red_blue (d : bytes) : bytes :=
  match d with
  | R :: G :: B :: A :: d' => B :: G :: R :: A :: swap_red_blue d'
  | _ => []
  end.

(** Occurrence of a character in a string. *)
Fixpoint char_in (c : ascii) (s : string) : bool :=
  match s with
  | EmptyString => false
  | String a s' => Ascii.eqb c a || char_in c s'
  end.

(** Characters that the decimal form of an integer never contains. *)
Definition not_numeric (c : ascii) : bool :=
  negb (is_digit c) && negb (Ascii.eqb c "-").

(** * Concrete inputs *)

(** A reader with two bytes left. *)
Definition two_byte_reader : BinaryReader := BinaryReader_init [x01; x02].

(** Two [Texture] values that differ at most in the memoised fields. *)
Definition same_texture (t t' : Texture) : Prop :=
  Width t' = Width t /\ Height t' = Height t /\ DataLength t' = DataLength t
  /\ Data t' = Data t /\ PixelType t' = PixelType t.

(** What [DecodeTexture] returns once a decoder that yields RGBA bytes has
    answered: the reordered bytes tagged RGBA, or nothing when the decoder or
    the reordering raised (the [except] clause). *)
Definition reordered (r : Exn + bytes) : Decoded :=
  match r with
  | inl _ => None
  | inr RgbaData =>
      match rgba_to_bgra RgbaData with
      | inl _ => None
      | inr BgraData => Some (BgraData, "RGBA")
      end
  end.

(** The record the dispatcher logs when no decode path takes the format. *)
Definition unsupported_record (t : Texture) : LogRecord :=
  (ERROR, ("Unsupported texture format: " ++ GetFormatName t)%string).

(** Stand-ins for the two external libraries in the concrete runs: a
    decompressor that rejects every input, and decoders that hand the data
    back, except [decode_pvrtc], whose answer tells the flag it was given. *)
Definition zstd_rejects : bytes -> option Z -> Exn + bytes :=
  fun _ _ => inl ZstdError.

Definition decoder_double : Texture2DDecoder :=
  {| decode_astc := fun d _ _ _ _ => inr d;
     decode_etc1 := fun d _ _ => inr d;
     decode_etc2 := fun d _ _ => inr d;
     decode_etc2a1 := fun d _ _ => inr d;
     decode_eacr := fun d _ _ _ => inr d;
     decode_eacrg := fun d _ _ _ => inr d;
     decode_pvrtc := fun _ _ _ Is2Bpp =>
                       inr (if Is2Bpp : bool then [x02; x02; x02; x02]
                            else [x04; x04; x04; x04]) |}.

(** An [SCTX] object that holds nothing. *)
Definition blank_SCTX : SCTX :=
  {| StreamingTextureId := 255; TextureId := 255; StreamingTexture := None;
     Texture_ := None; OriginalFileData := []; CompressedPayload := None;
     DecompressedPayload := None; StreamingId := None |}.

Definition sixteen_bytes : bytes :=
  [x01; x02; x03; x04; x05; x06; x07; x08;
   x09; x0a; x0b; x0c; x0d; x0e; x0f; x10].

(** A texture of the given format and size that holds the given data. *)
Definition texture_of (p : Pixel) (W H : Z) (d : bytes) : Texture :=
  set_Data (Some d) (Texture_init p W H).

(** A file whose streaming block is empty and whose texture header block
    has 34 bytes: [00 00 00 00 | 22 00 00 00 | 34 bytes]. *)
Definition headerless_file : bytes :=
  [x00; x00; x00; x00; x22; x00; x00; x00] ++ repeat x00 34.

(** A streaming block whose header length (200) overruns its single
    remaining byte, a file that holds just that block, and a file that
    holds the block and then a texture header block of 34 bytes. *)
Definition overrun_block : bytes := [xc8; x00; x00; x00; x01].

Definition overrun_file : bytes := [x05; x00; x00; x00] ++ overrun_block.

Definition overrun_then_header_file : bytes :=
  overrun_file ++ [x22; x00; x00; x00] ++ repeat x00 34.

(** A file that starts with the Zstandard magic number. *)
Definition magic_file : bytes := ZstdMagic ++ [x01; x00; x40; x06].

(** A stand-in decompressor that, like a frame with a declared content size,
    needs no [max_output_size]: the four bytes after the magic number give
    the number of zero bytes to produce, and a ceiling, when one is passed,
    is honoured. *)
Definition zstd_zeros : bytes -> option Z -> Exn + bytes :=
  fun data max_output_size =>
    let n := from_bytes_unsigned (slice 4 8 data) in
    match max_output_size with
    | Some m => if m <? n then inl ZstdError
                else inr (repeat x00 (Z.to_nat n))
    | None => inr (repeat x00 (Z.to_nat n))
    end.

(** An [SCTX] object that has just read its file. *)
Definition fresh_SCTX (FileData : bytes) (StreamingIdOverride : Z) : SCTX :=
  {| StreamingTextureId := StreamingIdOverride; TextureId := 255;
     StreamingTexture := None; Texture_ := None;
     OriginalFileData := FileData; CompressedPayload := None;
     DecompressedPayload := None; StreamingId := None |}.

(** The same, with a declared size of three bytes. *)
Definition small_magic_file : bytes := ZstdMagic ++ [x03; x00; x00; x00].

(** Little-endian encodings, to lay files out. *)
Definition byte_of (n : Z) : byte :=
  match Byte.of_N (Z.to_N (n mod 256)) with
  | Some b => b
  | None => x00
  end.

Definition u16 (n : Z) : bytes := [byte_of n; byte_of (n / 256)].

Definition u32 (n : Z) : bytes :=
  [byte_of n; byte_of (n / 256); byte_of (n / 65536); byte_of (n / 16777216)].

(** A well-formed container: a streaming block that announces the main
    texture ([fmt], [W] x [H], declared data length [len main_data]) and
    carries a streaming texture ([fmt], [sw] x [sh]) with its data, a
    34-byte texture header block, and the main texture's data. *)
Definition container_file (fmt W H : Z) (main_data : bytes)
    (sw sh : Z) (streaming_data : bytes) : bytes :=
  let sub := repeat x00 28 ++ u16 sw ++ u16 sh ++ u32 fmt ++ u32 0
             ++ u32 (len streaming_data) ++ streaming_data in
  let block := u32 0 ++ u32 fmt ++ u16 W ++ u16 H ++ u32 0
               ++ u32 (len main_data) ++ repeat x00 16
               ++ u32 (len sub) ++ sub ++ u32 7 in
  let header := repeat x00 24 ++ u16 W ++ u16 H ++ repeat x00 6 in
  u32 (len block) ++ block ++ u32 (len header) ++ header ++ main_data.

Definition ten_bytes : bytes :=
  [x01; x02; x03; x04; x05; x06; x07; x08; x09; x0a].

Definition five_bytes : bytes := [xa1; xa2; xa3; xa4; xa5].

(** An 8x8 RGBA8 texture with 10 bytes of data, whose 4x4 streaming texture
    has 5 bytes. *)
Definition short_streaming_file : bytes :=
  container_file 298 8 8 ten_bytes 4 4 five_bytes.

(** An 8x8 ETC2_RGB8 texture with 10 bytes of data, whose 4x4 streaming
    texture has 16 bytes. *)
Definition small_streaming_file : bytes :=
  container_file 180 8 8 ten_bytes 4 4 sixteen_bytes.

(** Decoders that answer with the dimensions they were given, as one RGBA
    pixel [(Width, Height, 0, 0)]. *)
Definition decoder_records_size : Texture2DDecoder :=
  let answer := fun (W H : Z) => inr [byte_of W; byte_of H; x00; x00] in
  {| decode_astc := fun _ W H _ _ => answer W H;
     decode_etc1 := fun _ W H => answer W H;
     decode_etc2 := fun _ W H => answer W H;
     decode_etc2a1 := fun _ W H => answer W H;
     decode_eacr := fun _ W H _ => answer W H;
     decode_eacrg := fun _ W H _ => answer W H;
     decode_pvrtc := fun _ W H _ => answer W H |}.

(** A parsed container before the repair: an 8x8 main texture with 10 bytes
    of data and a 4x4 streaming texture with 16 bytes. *)
Definition unrepaired_SCTX : SCTX :=
  set_StreamingTexture
    (Some (texture_of (Enum ScPixel.ETC2_RGB8) 4 4 sixteen_bytes))
    (set_Texture (Some (texture_of (Enum ScPixel.ETC2_RGB8) 8 8 ten_bytes))
       blank_SCTX).

(** The ceiling [DecompressData] hands to the decompressor. *)
Definition decompression_budget (t : Texture) : Z :=
  let MaxExpected := CalculateExpectedSize t * 3 in
  if MaxExpected =? 0 then 100 * 1024 * 1024 else MaxExpected.

(** What the Payload Locator keeps true of the two payload attributes: a
    recorded compressed payload is a suffix of the file that starts with the
    magic number, and a recorded decompressed payload is what the
    decompressor, called without a ceiling, returned on it. *)
Definition payload_consistent (zstd : bytes -> option Z -> Exn + bytes)
    (s : SCTX) : Prop :=
  (forall p, CompressedPayload s = Some p ->
     exists k, 0 <= k /\ p = slice_from k (OriginalFileData s)
               /\ slice 0 4 p = ZstdMagic)
  /\ (forall out, DecompressedPayload s = Some out ->
        exists p, CompressedPayload s = Some p /\ zstd p None = inr out).

(** Two [SCTX] objects that differ at most in the payload attributes. *)
Definition same_container (s s' : SCTX) : Prop :=
  StreamingTextureId s' = StreamingTextureId s
  /\ TextureId s' = TextureId s
  /\ StreamingTexture s' = StreamingTexture s
  /\ Texture_ s' = Texture_ s
  /\ OriginalFileData s' = OriginalFileData s
  /\ StreamingId s' = StreamingId s.


(** A file with the magic number at offset 3, which is on no list, and the
    three-byte frame of [small_magic_file] at offset 512. *)
Definition offset_512_file : bytes :=
  [x00; x00; x00] ++ ZstdMagic ++ repeat x00 505 ++ small_magic_file.


(** The pixel format a format code stands for: the member of [ScPixel] with
    that value, or the bare code. *)
Definition pixel_of_code (n : Z) : Pixel :=
  match ScPixel.of_value n with
  | Some p => Enum p
  | None => Raw n
  end.

(** What the parser guarantees of a texture it has built: 16-bit
    dimensions, a 32-bit declared length, stored data that is not empty and
    not longer than declared, and nothing memoised yet. *)
Definition parsed_texture (t : Texture) : Prop :=
  0 <= Width t < 65536
  /\ 0 <= Height t < 65536
  /\ 0 <= DataLength t < 4294967296
  /\ (forall d, Data t = Some d -> 0 < len d <= DataLength t)
  /\ IsCompressedDataFlag t = None
  /\ DecompressedData t = None.

(** The same of a container: both textures are as above, and there is no
    streaming texture without a main texture. *)
Definition parsed_container (s : SCTX) : Prop :=
  (forall t, Texture_ s = Some t -> parsed_texture t)
  /\ (forall st, StreamingTexture s = Some st ->
        parsed_texture st /\ Texture_ s <> None).

(** Two [SCTX] objects that differ at most in what the parser assigns:
    the two textures and [StreamingId]. *)
Definition same_file (s s' : SCTX) : Prop :=
  StreamingTextureId s' = StreamingTextureId s
  /\ TextureId s' = TextureId s
  /\ OriginalFileData s' = OriginalFileData s
  /\ CompressedPayload s' = CompressedPayload s
  /\ DecompressedPayload s' = DecompressedPayload s.


(** A streaming texture block: 28 bytes, the size 4x4, the format code 6,
    four bytes, and 16 bytes of data behind their length. *)
Definition streaming_block_4x4 : bytes :=
  repeat x00 28 ++ u16 4 ++ u16 4 ++ u32 6 ++ u32 0 ++ u32 16 ++ sixteen_bytes.


(** The decoder library with another [decode_etc2a1]. *)
Definition with_decode_etc2a1 (f : bytes -> Z -> Z -> Exn + bytes)
    (dec : Texture2DDecoder) : Texture2DDecoder :=
  {| decode_astc := decode_astc dec;
     decode_etc1 := decode_etc1 dec;
     decode_etc2 := decode_etc2 dec;
     decode_etc2a1 := f;
     decode_eacr := decode_eacr dec;
     decode_eacrg := decode_eacrg dec;
     decode_pvrtc := decode_pvrtc dec |}.


(** The members with 16-bit integer channels. *)
Definition sixteen_bit_integer (p : ScPixel.t) : bool :=
  match p with
  | ScPixel.R16 | ScPixel.R16_SIGNED | ScPixel.RG16 | ScPixel.RG16_SIGNED
  | ScPixel.RGB16 | ScPixel.RGB16_SIGNED | ScPixel.RGBA16
  | ScPixel.RGBA16_SIGNED => true
  | _ => false
  end.

(** Whether one of the branches of the dispatch takes the texture: the
    conditions of its [if] chain, in their order. *)
Definition dispatch_takes (t : Texture) : bool :=
  let contains sub := str_in sub (GetFormatName t) in
  if IsAstc t then
    match re_search_dims (GetFormatName t) with
    | Some _ => true
    | None => false
    end
  else if IsEtc t then
    (contains "ETC1" || contains "ETC2_RGB8" || contains "ETC2_SRGB8")
    || (contains "ETC2_EAC_RGBA8" || contains "ETC2_EAC_SRGBA8")
    || (contains "ETC2_RGB8_PUNCHTHROUGH_ALPHA1"
        || contains "ETC2_SRGB8_PUNCHTHROUGH_ALPHA1")
    || (contains "EAC_R11" || contains "EAC_SIGNED_R11")
    || (contains "EAC_RG11" || contains "EAC_SIGNED_RG11")
  else if IsUncompressed t then
    contains "RGBA8Unorm"
    || (contains "RGBA8" && negb (contains "Unorm"))
    || (contains "BGRA8" || contains "BGRA8Unorm" || contains "BGRA8_SRGB")
    || (contains "RGB8" || contains "RGB8Unorm" || contains "RGB8_SRGB"
        || contains "RGB8Unorm_sRGB")
    || (contains "BGR8" || contains "BGR8Unorm")
    || (contains "RG8" || contains "RG8Unorm")
    || (contains "R8" || contains "R8Unorm")
    || (contains "R16F" || contains "R32F")
    || (contains "RG16F" || contains "RG32F")
    || (contains "RGB16F" || contains "RGB32F")
    || (contains "RGBA16F" || contains "RGBA32F")
  else IsPvrtc t.


(** The data cut into pieces of [k] bytes, the last one shorter when the
    length is no multiple of [k]. *)
Definition chunks (k : nat) (d : bytes) : list bytes :=
  map (fun i => firstn k (skipn (i * k) d))
      (seq 0 (Z.to_nat ((len d + Z.of_nat k - 1) / Z.of_nat k))).

(** One output pixel per input pixel of [k] bytes; nothing when the data
    do not divide into such pixels. *)
Definition per_pixel (k : nat) (f : bytes -> bytes) (d : bytes)
    : option bytes :=
  if len d mod Z.of_nat k =? 0 then Some (flat_map f (chunks k d)) else None.


(** The entry point of [texture2ddecoder] that serves an ETC or EAC member,
    with the [signed] flag where there is one. *)
Inductive EtcEntry : Set :=
| via_etc1
| via_etc2
| via_eacr (signed : bool)
| via_eacrg (signed : bool).

Definition etc_entry (p : ScPixel.t) : option EtcEntry :=
  match p with
  | ScPixel.ETC1_RGB8 | ScPixel.ETC2_RGB8 | ScPixel.ETC2_SRGB8
  | ScPixel.ETC2_RGB8_PUNCHTHROUGH_ALPHA1
  | ScPixel.ETC2_SRGB8_PUNCHTHROUGH_ALPHA1 => Some via_etc1
  | ScPixel.ETC2_EAC_RGBA8 | ScPixel.ETC2_EAC_SRGBA8 => Some via_etc2
  | ScPixel.EAC_R11 => Some (via_eacr false)
  | ScPixel.EAC_SIGNED_R11 => Some (via_eacr true)
  | ScPixel.EAC_RG11 => Some (via_eacrg false)
  | ScPixel.EAC_SIGNED_RG11 => Some (via_eacrg true)
  | _ => None
  end.

(** The image made from the answer of that entry point: red and blue
    exchanged for the two RGBA decoders, a grey opaque pixel per byte for
    the one-channel decoder, and a pixel (0, G, R, 255) per two bytes for
    the two-channel decoder. *)
Definition etc_image (dec : Texture2DDecoder) (d : bytes) (W H : Z)
    (e : EtcEntry) : Decoded :=
  match e with
  | via_etc1 => reordered (decode_etc1 dec d W H)
  | via_etc2 => reordered (decode_etc2 dec d W H)
  | via_eacr signed =>
      match decode_eacr dec d W H signed with
      | inl _ => None
      | inr MonoData =>
          Some (flat_map (fun i => [i; i; i; xff]) MonoData, "RGBA"%string)
      end
  | via_eacrg signed =>
      match decode_eacrg dec d W H signed with
      | inl _ => None
      | inr RgData =>
          match per_pixel 2 (fun c => match c with
                                      | [R; G] => [x00; G; R; xff]
                                      | _ => []
                                      end) RgData with
          | Some out => Some (out, "RGBA"%string)
          | None => None
          end
      end
  end.

(** The RGB image of the 8-bit members with one, two or three channels:
    the data as they are for the RGB members, each pixel reversed for the
    BGR members, a zero blue channel added for the two-channel members, and
    the one channel repeated three times for the one-channel members. *)
Definition eight_bit_image (p : ScPixel.t) (d : bytes) : option bytes :=
  match p with
  | ScPixel.RGB8 | ScPixel.RGB8_SIGNED | ScPixel.RGB8Unorm
  | ScPixel.RGB8Unorm_sRGB => per_pixel 3 (fun c => c) d
  | ScPixel.BGR8 | ScPixel.BGR8Unorm => per_pixel 3 (@rev byte) d
  | ScPixel.RG8 | ScPixel.RG8_SIGNED | ScPixel.RG8Unorm =>
      per_pixel 2 (fun c => c ++ [x00]) d
  | ScPixel.R8 | ScPixel.R8_SIGNED | ScPixel.R8Unorm =>
      Some (flat_map (fun r => [r; r; r]) d)
  | _ => None
  end.

Definition is_eight_bit_rgb (p : ScPixel.t) : bool :=
  match p with
  | ScPixel.RGB8 | ScPixel.RGB8_SIGNED | ScPixel.RGB8Unorm
  | ScPixel.RGB8Unorm_sRGB | ScPixel.BGR8 | ScPixel.BGR8Unorm
  | ScPixel.RG8 | ScPixel.RG8_SIGNED | ScPixel.RG8Unorm
  | ScPixel.R8 | ScPixel.R8_SIGNED | ScPixel.R8Unorm => true
  | _ => false
  end.


Definition eighteen_bytes : bytes := sixteen_bytes ++ [x11; x12].

(** The members with floating-point channels. *)
Definition is_float (p : ScPixel.t) : bool :=
  match p with
  | ScPixel.R16F | ScPixel.R32F | ScPixel.RG16F | ScPixel.RG32F
  | ScPixel.RGB16F | ScPixel.RGB32F | ScPixel.RGBA16F | ScPixel.RGBA32F =>
      true
  | _ => false
  end.

(** Bytes of one pixel of an uncompressed member. *)
Definition pixel_size (p : ScPixel.t) : Z :=
  match Catalogue.channels p with
  | Some c => c * Catalogue.bytes_per_channel p
  | None => 0
  end.

(** What the dispatcher makes of one pixel of a floating-point member: of
    each channel it keeps the first byte, and lays the channels out as
    (R, R, R), (R, G, 0), (R, G, B) or (B, G, R, A). *)
Definition float_sample (p : ScPixel.t) (px : bytes) : bytes :=
  let s := Z.to_nat (Catalogue.bytes_per_channel p) in
  let channel i := nth (i * s) px x00 in
  match Catalogue.channels p with
  | Some 1 => [channel 0%nat; channel 0%nat; channel 0%nat]
  | Some 2 => [channel 0%nat; channel 1%nat; x00]
  | Some 3 => [channel 0%nat; channel 1%nat; channel 2%nat]
  | _ => [channel 2%nat; channel 1%nat; channel 0%nat; channel 3%nat]
  end.

Definition float_mode (p : ScPixel.t) : string :=
  match Catalogue.channels p with
  | Some 4 => "RGBA"
  | _ => "RGB"
  end.


(** ** ProcessSingleFile *)

Section Processing.

Variable zstd_decompress : bytes -> option Z -> Exn + bytes.
Variable texture2ddecoder : Texture2DDecoder.

(** [os.path.getsize(path)] and [open(path, "rb").read()] in the
    constructor: the content of the file, or the message of the exception
    raised. *)
Variable read_file : string -> string + bytes.

(** [Image.frombytes(mode, size, data).save(path)]: done, or the message of
    the exception raised. *)
Variable Image_save : string -> Z * Z -> bytes -> string -> string + unit.

(** [ProcessSingleFile((InputFile, OutputFile))]: the triple returned and
    the records logged.  [TextureToDecode] is the object [Ctx.Texture] (or
    [Ctx.StreamingTexture]); both calls of [DecodeTexture] run on it. *)
Definition ProcessSingleFile (Args : string * string)
    : (bool * string * string) * list LogRecord :=
  let '(InputFile, OutputFile) := Args in
  match read_file InputFile with
  | inl msg => ((false, InputFile, msg), [])
  | inr FileData =>
      match SCTX__init__ zstd_decompress FileData 255 with
      | mkOutcome (inl E) _ l0 => ((false, InputFile, exn_str E), l0)
      | mkOutcome (inr _) Ctx l0 =>
          let '(TextureToDecode, l1) :=
            match Texture_ Ctx, StreamingTexture Ctx with
            | None, Some st =>
                (Some st,
                 [(INFO, ("[" ++ InputFile
                          ++ "] Using streaming texture for decoding")%string)])
            | t, _ => (t, [])
            end in
          match TextureToDecode with
          | None =>
              ((false, InputFile, "No texture found"%string),
               l0 ++ l1
               ++ [(ERROR, ("[" ++ InputFile
                            ++ "] No texture found in SCTX file")%string)])
          | Some t =>
              match (first <- DecodeTexture zstd_decompress texture2ddecoder
                                Ctx false ;;
                     match first with
                     | Some (_ :: _, _) => ret first
                     | _ =>
                         if truthy (DecompressedPayload Ctx) then
                           logging INFO
                             ("[" ++ InputFile
                              ++ "] Retrying with decompressed payload...")%string ;;
                           DecodeTexture zstd_decompress texture2ddecoder
                             Ctx true
                         else ret first
                     end) t with
              | mkOutcome (inl E) _ l2 =>
                  ((false, InputFile, exn_str E), l0 ++ l1 ++ l2)
              | mkOutcome (inr (Some ((_ :: _) as ImageData, ImageMode)))
                  t' l2 =>
                  match Image_save ImageMode (Width t', Height t') ImageData
                          OutputFile with
                  | inl msg => ((false, InputFile, msg), l0 ++ l1 ++ l2)
                  | inr _ => ((true, InputFile, OutputFile), l0 ++ l1 ++ l2)
                  end
              | mkOutcome (inr _) _ l2 =>
                  ((false, InputFile, "Failed to decode texture"%string),
                   l0 ++ l1 ++ l2)
              end
          end
      end
  end.

End Processing.

(** Stand-ins for the file system and for the image library in the concrete
    runs: every path holds the same file, and every image is saved. *)
Definition one_file (FileData : bytes) : string -> string + bytes :=
  fun _ => inr FileData.

Definition saves_all : string -> Z * Z -> bytes -> string -> string + unit :=
  fun _ _ _ _ => inr tt.

(** A streaming block length (200) that overruns the three bytes left. *)
Definition clamped_streaming_file : bytes := u32 200 ++ [x01; x02; x03].

(** A streaming block that announces a 4x4 RGBA8 texture (format code 298)
    with 16 bytes of data. *)
Definition announcing_block : bytes :=
  u32 0 ++ u32 298 ++ u16 4 ++ u16 4 ++ u32 0 ++ u32 16.

(** That block, a texture header block of two bytes, and five of the 16
    bytes announced. *)
Definition clamped_data_file : bytes :=
  u32 20 ++ announcing_block ++ u32 2 ++ [x00; x00] ++ five_bytes.

(** An empty streaming block and a texture header block length (100) that
    overruns the five bytes left. *)
Definition clamped_header_file : bytes := u32 0 ++ u32 100 ++ five_bytes.

(** The announcing block followed by three bytes only: a file of 27
    bytes. *)
Definition guarded_data_file : bytes :=
  u32 20 ++ announcing_block ++ [x01; x02; x03].

(** * Properties *)

(** ** The expected-size calculator *)

Lemma ceil_div_code a b : 0 < b -> (a + b - 1) / b = ceil_div a b.
Proof.
  intros Hb. unfold ceil_div.
  pose proof (Z.div_mod a b ltac:(lia)) as E.
  pose proof (Z.mod_pos_bound a b Hb) as Hm.
  destruct (Z.eqb_spec (a mod b) 0) as [H0|H0].
  - rewrite Z.add_0_r. symmetry. apply Z.div_unique with (r := b - 1); lia.
  - symmetry. apply Z.div_unique with (r := a mod b - 1); lia.
Qed.

(** [ceil_div] is the least number of blocks that cover the dimension. *)
Lemma ceil_div_least a b :
  0 < b -> a <= ceil_div a b * b /\ (ceil_div a b - 1) * b < a.
Proof.
  intros Hb. unfold ceil_div.
  pose proof (Z.div_mod a b ltac:(lia)) as E.
  pose proof (Z.mod_pos_bound a b Hb) as Hm.
  destruct (Z.eqb_spec (a mod b) 0); nia.
Qed.

(** The calculator reads the dimensions and the pixel type only. *)
Lemma CalculateExpectedSize_shape (t : Texture) :
  CalculateExpectedSize t
  = CalculateExpectedSize (Texture_init (PixelType t) (Width t) (Height t)).
Proof. reflexivity. Qed.

Lemma expected_size_blocks (p : ScPixel.t) (bw bh w h : Z) :
  Catalogue.block_footprint p = Some (bw, bh) -> 0 < w -> 0 < h ->
  CalculateExpectedSize (Texture_init (Enum p) w h)
  = (w + bw - 1) / bw * ((h + bh - 1) / bh) * Catalogue.bytes_per_block p.
Proof.
  intros Hp Hw Hh.
  destruct w as [|w|w]; try lia. destruct h as [|h|h]; try lia.
  destruct p; simpl in Hp; try discriminate Hp;
    injection Hp as <- <-; try reflexivity;
    replace (Z.pos w + 4 - 1) with (Z.pos w + 3) by lia;
    replace (Z.pos h + 4 - 1) with (Z.pos h + 3) by lia;
    reflexivity.
Qed.

Lemma expected_size_pvrtc (p : ScPixel.t) (w h : Z) :
  Catalogue.is_pvrtc p = true ->
  CalculateExpectedSize (Texture_init (Enum p) w h) = 0.
Proof.
  intros Hp. unfold CalculateExpectedSize.
  destruct ((Width (Texture_init (Enum p) w h) =? 0)
            || (Height (Texture_init (Enum p) w h) =? 0)); [reflexivity|].
  destruct p; simpl in Hp; try discriminate Hp; reflexivity.
Qed.

Lemma expected_size_channels (p : ScPixel.t) (c w h : Z) :
  Catalogue.channels p = Some c -> 0 < w -> 0 < h ->
  CalculateExpectedSize (Texture_init (Enum p) w h) = w * h * c.
Proof.
  intros Hp Hw Hh.
  destruct w as [|w|w]; try lia. destruct h as [|h|h]; try lia.
  destruct p; simpl in Hp; try discriminate Hp;
    injection Hp as <-; try reflexivity;
    rewrite Z.mul_1_r; reflexivity.
Qed.

Lemma block_footprint_pos (p : ScPixel.t) (bw bh : Z) :
  Catalogue.block_footprint p = Some (bw, bh) -> 0 < bw /\ 0 < bh.
Proof.
  destruct p; simpl; intros H; try discriminate H;
    injection H as <- <-; lia.
Qed.

Lemma channels_pos (p : ScPixel.t) (c : Z) :
  Catalogue.channels p = Some c -> 0 < c.
Proof.
  destruct p; simpl; intros H; try discriminate H; injection H as <-; lia.
Qed.

(** C9.  What the calculator does on an uncompressed texture with positive
    dimensions: it returns width x height x channels, whatever the storage
    width of a channel, so the value is width x height x channels x
    bytes-per-channel only for the 8-bit formats.  An RGBA16F texture yields
    width x height x 4 and an R32F texture width x height. *)
Theorem expected_size_uncompressed (t : Texture) (p : ScPixel.t) (c : Z) :
  PixelType t = Enum p -> Catalogue.channels p = Some c ->
  0 < Width t -> 0 < Height t ->
  CalculateExpectedSize t = Width t * Height t * c
  /\ (CalculateExpectedSize t
      = Width t * Height t * c * Catalogue.bytes_per_channel p
      <-> Catalogue.bytes_per_channel p = 1).
Proof.
  intros Hp Hc Hw Hh. rewrite CalculateExpectedSize_shape, Hp.
  rewrite (expected_size_channels p c) by assumption.
  pose proof (channels_pos p c Hc) as Hc0.
  split; [reflexivity|]. split; intros H.
  - assert (0 < Width t * Height t * c) by nia. nia.
  - rewrite H. lia.
Qed.

Lemma expected_size_uncompressed_witness :
  CalculateExpectedSize (Texture_init (Enum ScPixel.RGBA16F) 4 4) = 4 * 4 * 4
  /\ CalculateExpectedSize (Texture_init (Enum ScPixel.R32F) 4 4) = 4 * 4 * 1.
Proof.
  split.
  - exact (proj1 (expected_size_uncompressed
                    (Texture_init (Enum ScPixel.RGBA16F) 4 4)
                    ScPixel.RGBA16F 4 eq_refl eq_refl eq_refl eq_refl)).
  - exact (proj1 (expected_size_uncompressed
                    (Texture_init (Enum ScPixel.R32F) 4 4)
                    ScPixel.R32F 1 eq_refl eq_refl eq_refl eq_refl)).
Defined.

(** ** The byte cursor *)

Lemma len_nonneg {A : Type} (l : list A) : 0 <= len l.
Proof. unfold len. lia. Qed.

Lemma len_app {A : Type} (a b : list A) : len (a ++ b) = len a + len b.
Proof. unfold len. rewrite length_app. lia. Qed.

Lemma remaining_eq (r : BinaryReader) :
  0 <= tell r <= len (getvalue r) -> remaining r = len (getvalue r) - tell r.
Proof. unfold remaining. lia. Qed.

(** What [read] returns when it is asked for [N >= 0] bytes: the next
    [min N R] bytes, [R] being the number of bytes left. *)
Lemma read_spec (r : BinaryReader) (N : Z) :
  0 <= tell r <= len (getvalue r) -> 0 <= N ->
  let n := Z.min N (len (getvalue r) - tell r) in
  fst (read N r) = slice (tell r) (tell r + n) (getvalue r)
  /\ len (fst (read N r)) = n
  /\ getvalue (snd (read N r)) = getvalue r
  /\ tell (snd (read N r)) = tell r + n.
Proof.
  intros Hr HN n. unfold read, slice.
  destruct (Z.ltb_spec N 0) as [?|_]; [lia|].
  rewrite (remaining_eq r Hr). fold n. simpl.
  replace (tell r + n - tell r) with n by lia.
  assert (L : len (firstn (Z.to_nat n)
                     (skipn (Z.to_nat (tell r)) (getvalue r))) = n).
  { unfold len in *. rewrite length_firstn, length_skipn. lia. }
  rewrite L. auto.
Qed.

Lemma read_short (r : BinaryReader) (N : Z) :
  0 <= tell r <= len (getvalue r) -> len (getvalue r) - tell r < N ->
  read N r = (slice_from (tell r) (getvalue r),
              {| getvalue := getvalue r; tell := len (getvalue r) |}).
Proof.
  intros Hr HN. unfold read, slice_from.
  destruct (Z.ltb_spec N 0) as [?|_]; [lia|].
  rewrite (remaining_eq r Hr).
  rewrite Z.min_r by lia.
  rewrite firstn_all2.
  2:{ unfold len in *. rewrite length_skipn. lia. }
  f_equal. f_equal. unfold len in *. rewrite length_skipn. lia.
Qed.

(** C4 (counterexample).  With two bytes left, a read of four bytes returns
    the two bytes and [ReadUint] decodes them; nothing fails. *)
Lemma read_truncated_counterexample :
  remaining two_byte_reader < 4
  /\ read 4 two_byte_reader
     = ([x01; x02], {| getvalue := [x01; x02]; tell := 2 |})
  /\ ReadUint two_byte_reader
     = (513, {| getvalue := [x01; x02]; tell := 2 |}).
Proof. repeat split. Qed.

(** C4 (amended).  A cursor with fewer than [N] bytes left does not fail on a
    read of [N] bytes: it returns the bytes that are left, fewer than [N],
    and moves to the end of the buffer; the fixed-width integer readers
    decode those bytes as a little-endian integer of that shorter width. *)
Theorem read_past_end_is_short (r : BinaryReader) (N : Z) :
  0 <= tell r <= len (getvalue r) -> len (getvalue r) - tell r < N ->
  let rest := slice_from (tell r) (getvalue r) in
  let r' := {| getvalue := getvalue r; tell := len (getvalue r) |} in
  read N r = (rest, r')
  /\ len rest = len (getvalue r) - tell r
  /\ (N = 4 -> ReadUint r = (from_bytes_unsigned rest, r')
               /\ ReadInt r = (from_bytes_signed rest, r'))
  /\ (N = 2 -> ReadUshort r = (from_bytes_unsigned rest, r')
               /\ ReadShort r = (from_bytes_signed rest, r'))
  /\ (N = 1 -> ReadUchar r = (from_bytes_unsigned rest, r')
               /\ ReadChar r = (from_bytes_signed rest, r')).
Proof.
  intros Hr HN rest r'.
  pose proof (read_short r N Hr HN) as E. fold rest r' in E.
  split; [exact E|]. split.
  - unfold rest, slice_from, len in *. rewrite length_skipn. lia.
  - split; [|split]; intros ->; split;
      unfold ReadUint, ReadInt, ReadUshort, ReadShort, ReadUchar, ReadChar;
      rewrite E; reflexivity.
Qed.

Lemma read_past_end_is_short_witness :
  read 4 two_byte_reader
  = ([x01; x02], {| getvalue := [x01; x02]; tell := 2 |})
  /\ ReadUint two_byte_reader
     = (513, {| getvalue := [x01; x02]; tell := 2 |}).
Proof.
  assert (H0 : 0 <= tell two_byte_reader <= len (getvalue two_byte_reader))
    by (vm_compute; split; discriminate).
  assert (H1 : len (getvalue two_byte_reader) - tell two_byte_reader < 4)
    by reflexivity.
  pose proof (read_past_end_is_short two_byte_reader 4 H0 H1) as H.
  split.
  - exact (proj1 H).
  - exact (proj1 (proj1 (proj2 (proj2 H)) eq_refl)).
Defined.

(** ** Strings *)

Lemma str_in_unfold (sub s : string) :
  str_in sub s = if String.prefix sub s then true
                 else match s with
                      | EmptyString => false
                      | String _ s' => str_in sub s'
                      end.
Proof. destruct s; reflexivity. Qed.

Lemma prefix_app (p b : string) : String.prefix p (p ++ b)%string = true.
Proof.
  induction p as [|c p IH]; simpl.
  - destruct b; reflexivity.
  - destruct (ascii_dec c c); [exact IH | congruence].
Qed.

Lemma str_in_app_mid (p a b : string) : str_in p (a ++ p ++ b)%string = true.
Proof.
  induction a as [|c a IH]; simpl.
  - rewrite str_in_unfold, prefix_app. reflexivity.
  - rewrite IH.
    match goal with |- (if ?b then _ else _) = _ => destruct b end; reflexivity.
Qed.

Lemma str_in_absent (c : ascii) (p s : string) :
  char_in c s = false -> str_in (String c p) s = false.
Proof.
  induction s as [|a s IH]; simpl; intros H.
  - reflexivity.
  - apply orb_false_iff in H. destruct H as [Hca Hs].
    destruct (ascii_dec c a) as [E|E].
    + subst. rewrite Ascii.eqb_refl in Hca. discriminate.
    + auto.
Qed.

Lemma char_in_app (c : ascii) (a b : string) :
  char_in c (a ++ b)%string = char_in c a || char_in c b.
Proof.
  induction a as [|x a IH]; simpl; [reflexivity|].
  rewrite IH. apply orb_assoc.
Qed.

Lemma char_in_uint (c : ascii) (d : Decimal.uint) :
  is_digit c = false -> char_in c (NilEmpty.string_of_uint d) = false.
Proof.
  intros Hc. induction d; simpl; try reflexivity; rewrite IHd, orb_false_r;
    apply Ascii.eqb_neq; intros ->; discriminate Hc.
Qed.

(** The decimal form of an integer is made of digits and a sign. *)
Lemma char_in_str (c : ascii) (n : Z) :
  not_numeric c = true -> char_in c (str n) = false.
Proof.
  unfold not_numeric. intros H. apply andb_true_iff in H.
  destruct H as [Hd Hm].
  apply negb_true_iff in Hd. apply negb_true_iff in Hm.
  assert (U : forall d, char_in c (NilZero.string_of_uint d) = false).
  { intros d. destruct d; try apply (char_in_uint c _ Hd).
    simpl. rewrite orb_false_r. apply Ascii.eqb_neq.
    intros ->. discriminate Hd. }
  unfold str. destruct n; simpl.
  - rewrite orb_false_r. apply Ascii.eqb_neq. intros ->. discriminate Hd.
  - apply U.
  - rewrite Hm. apply U.
Qed.

(** ** Format codes outside the enumeration *)

Lemma int_in_spec (x : Z) (xs : list Z) : int_in x xs = true <-> In x xs.
Proof.
  unfold int_in. rewrite existsb_exists. split.
  - intros [y [Hy E]]. apply Z.eqb_eq in E. now subst.
  - intros H. exists x. split; [assumption | apply Z.eqb_refl].
Qed.

(** The ASTC bands hold two codes that are not members: 191 and 209. *)
Lemma unrecognized_in_band (n : Z) :
  ScPixel.of_value n = None ->
  (int_in n AstcFormatIds = true <-> n = 191 \/ n = 209).
Proof.
  intros Hn. split.
  - intros H. apply int_in_spec in H. cbv in H.
    repeat (destruct H as [<-|H]; [try discriminate Hn; auto|]).
    contradiction.
  - intros [->| ->]; reflexivity.
Qed.

Lemma unrecognized_not_70 (n : Z) : ScPixel.of_value n = None -> (n =? 70) = false.
Proof.
  intros Hn. destruct (Z.eqb_spec n 70) as [->|]; [discriminate Hn | reflexivity].
Qed.

Lemma GetFormatName_unknown (t : Texture) (n : Z) :
  PixelType t = Raw n -> ScPixel.of_value n = None ->
  int_in n AstcFormatIds = false ->
  GetFormatName t = ("UNKNOWN (" ++ str n ++ ")")%string.
Proof.
  intros Hp Hn Hb. unfold GetFormatName.
  rewrite Hp, Hb, (unrecognized_not_70 n Hn). reflexivity.
Qed.

Lemma absent_in_unknown (c : ascii) (n : Z) :
  not_numeric c = true -> char_in c "UNKNOWN ()" = false ->
  char_in c ("UNKNOWN (" ++ str n ++ ")")%string = false.
Proof.
  intros Hc Hu. rewrite !char_in_app, (char_in_str c n Hc).
  change "UNKNOWN ()" with ("UNKNOWN (" ++ ")")%string in Hu.
  rewrite char_in_app in Hu. apply orb_false_iff in Hu.
  destruct Hu as [-> ->]. reflexivity.
Qed.

Lemma str_in_unknown (c : ascii) (p : string) (n : Z) :
  not_numeric c = true -> char_in c "UNKNOWN ()" = false ->
  str_in (String c p) ("UNKNOWN (" ++ str n ++ ")")%string = false.
Proof. intros Hc Hu. apply str_in_absent, absent_in_unknown; assumption. Qed.

Lemma existsb_false {A : Type} (f : A -> bool) (l : list A) :
  Forall (fun x => f x = false) l -> existsb f l = false.
Proof.
  induction 1 as [|x l Hx _ IH]; simpl; [reflexivity|].
  rewrite Hx, IH. reflexivity.
Qed.

(** The classification of a texture whose code is not a member. *)
Lemma unrecognized_predicates (t : Texture) (n : Z) :
  PixelType t = Raw n -> ScPixel.of_value n = None ->
  IsEtc t = false /\ IsPvrtc t = false /\ IsUncompressed t = false
  /\ IsSrgb t = false /\ (IsAstc t = true <-> n = 191 \/ n = 209).
Proof.
  intros Hp Hn.
  destruct (int_in n AstcFormatIds) eqn:Hb.
  - apply (unrecognized_in_band n Hn) in Hb as Hn'.
    unfold IsEtc, IsPvrtc, IsUncompressed, IsSrgb, IsAstc, GetFormatName.
    rewrite Hp. destruct Hn' as [-> | ->]; repeat split; auto.
  - pose proof (GetFormatName_unknown t n Hp Hn Hb) as HN.
    assert (HA : IsAstc t = false).
    { unfold IsAstc. rewrite HN, Hp, Hb.
      rewrite str_in_unknown by reflexivity. reflexivity. }
    assert (HE : IsEtc t = false).
    { unfold IsEtc. rewrite HN, !str_in_unknown by reflexivity. reflexivity. }
    assert (HV : IsPvrtc t = false).
    { unfold IsPvrtc. rewrite HN. apply str_in_unknown; reflexivity. }
    split; [exact HE|]. split; [exact HV|]. split; [|split].
    + unfold IsUncompressed. rewrite HA, HE, HV, HN. cbn [orb].
      apply existsb_false.
      repeat constructor; apply str_in_unknown; reflexivity.
    + unfold IsSrgb. rewrite HN, !str_in_unknown by reflexivity. reflexivity.
    + rewrite HA. split; [discriminate|].
      intros H. apply (unrecognized_in_band n Hn) in H. congruence.
Qed.

(** The display name carries the raw code. *)
Lemma unrecognized_name (t : Texture) (n : Z) :
  PixelType t = Raw n -> ScPixel.of_value n = None ->
  str_in (str n) (GetFormatName t) = true.
Proof.
  intros Hp Hn. destruct (int_in n AstcFormatIds) eqn:Hb.
  - apply (unrecognized_in_band n Hn) in Hb.
    unfold GetFormatName. rewrite Hp. destruct Hb as [-> | ->]; reflexivity.
  - rewrite (GetFormatName_unknown t n Hp Hn Hb). apply str_in_app_mid.
Qed.

(** ** Running the methods *)

Ltac run_monad :=
  cbv beta iota zeta delta
    [bind ret get modify call logging raise try_except any_exception];
  cbn [result final logged].

Lemma same_texture_refl (t : Texture) : same_texture t t.
Proof. repeat split. Qed.

Lemma same_texture_trans (a b c : Texture) :
  same_texture a b -> same_texture b c -> same_texture a c.
Proof.
  unfold same_texture. intros (?&?&?&?&?) (?&?&?&?&?).
  repeat split; congruence.
Qed.

(** The classification reads the pixel type only. *)
Lemma GetFormatName_same (t t' : Texture) :
  PixelType t' = PixelType t -> GetFormatName t' = GetFormatName t.
Proof. unfold GetFormatName. now intros ->. Qed.

Lemma IsAstc_same (t t' : Texture) :
  PixelType t' = PixelType t -> IsAstc t' = IsAstc t.
Proof. unfold IsAstc, GetFormatName. now intros ->. Qed.

Lemma IsEtc_same (t t' : Texture) :
  PixelType t' = PixelType t -> IsEtc t' = IsEtc t.
Proof. unfold IsEtc, GetFormatName. now intros ->. Qed.

Lemma IsPvrtc_same (t t' : Texture) :
  PixelType t' = PixelType t -> IsPvrtc t' = IsPvrtc t.
Proof. unfold IsPvrtc, GetFormatName. now intros ->. Qed.

Lemma IsUncompressed_same (t t' : Texture) :
  PixelType t' = PixelType t -> IsUncompressed t' = IsUncompressed t.
Proof.
  intros H. unfold IsUncompressed.
  now rewrite (IsAstc_same _ _ H), (IsEtc_same _ _ H), (IsPvrtc_same _ _ H),
    (GetFormatName_same _ _ H).
Qed.

Ltac proj_red := cbn [result final logged negb andb orb].

Ltac texture_fields :=
  unfold same_texture;
  cbn [result final logged Width Height DataLength Data PixelType
       DecompressedData set_IsCompressedDataFlag set_DecompressedData];
  repeat apply conj; congruence.

(** [IsCompressedData] returns a flag and touches the memo only. *)
Lemma IsCompressedData_run zstd (t : Texture) :
  exists b t' l,
    IsCompressedData zstd t = mkOutcome (inr b) t' l
    /\ same_texture t t' /\ DecompressedData t' = DecompressedData t.
Proof.
  unfold IsCompressedData. run_monad.
  destruct (IsCompressedDataFlag t) as [flag|].
  - exists flag, t, []. split; [reflexivity|].
    split; [apply same_texture_refl | reflexivity].
  - destruct (Data t) as [[|x d]|] eqn:ED;
      repeat (match goal with
              | |- context [zstd ?a ?b] => destruct (zstd a b) eqn:?
              | |- context [if ?b then _ else _] => destruct b eqn:?
              end; proj_red);
      eexists _, _, _; (split; [reflexivity | texture_fields]).
Qed.

(** [DecompressData] returns [self.Data] or bytes that the decompressor
    produced from it (now or at an earlier call). *)
Lemma DecompressData_run zstd (t : Texture) :
  exists d t' l,
    DecompressData zstd t = mkOutcome (inr d) t' l
    /\ same_texture t t'
    /\ (d = Data t
        \/ exists out, d = Some out
             /\ (DecompressedData t = Some out
                 \/ exists data max, Data t = Some data
                      /\ zstd data (Some max) = inr out)).
Proof.
  unfold DecompressData. run_monad.
  destruct (DecompressedData t) as [m|] eqn:EM.
  - exists (Some m), t, []. split; [reflexivity|].
    split; [apply same_texture_refl|]. right. exists m. auto.
  - destruct (IsCompressedData_run zstd t) as (b & t1 & l1 & E1 & Hs & _).
    rewrite E1. destruct Hs as (Hw & Hh & Hl & Hd & Hp).
    destruct b; proj_red.
    + destruct (Data t) as [data|] eqn:ED; proj_red.
      * destruct (zstd data _) as [e|out] eqn:EZ; proj_red.
        -- eexists _, _, _. split; [reflexivity|].
           split; [texture_fields|]. left; reflexivity.
        -- eexists _, _, _. split; [reflexivity|].
           split; [texture_fields|].
           right. eexists. split; [reflexivity|]. right.
           eexists _, _. split; [reflexivity|]. exact EZ.
      * eexists _, _, _. split; [reflexivity|].
        split; [texture_fields|]. left; reflexivity.
    + eexists _, _, _. split; [reflexivity|].
      split; [texture_fields|]. left; reflexivity.
Qed.

(** The selection of the byte source never raises and leaves the texture's
    dimensions, format and data as they were.  Without the payload, the
    source is the texture's data, or bytes the decompressor produced from
    it. *)
Lemma decode_source_run zstd (self : SCTX) (use : bool) (t : Texture) :
  exists src t' l,
    decode_source zstd self use t = mkOutcome (inr src) t' l
    /\ same_texture t t'
    /\ (use = false ->
        (truthy (Data t) = false /\ src = None)
        \/ (truthy (Data t) = true
            /\ exists d, src = Some d
                 /\ (d = Data t
                     \/ exists out, d = Some out
                          /\ (DecompressedData t = Some out
                              \/ exists data max, Data t = Some data
                                   /\ zstd data (Some max) = inr out)))).
Proof.
  unfold decode_source. run_monad.
  destruct (use && truthy (DecompressedPayload self)) eqn:EU; proj_red.
  - eexists _, _, _. split; [reflexivity|].
    split; [apply same_texture_refl|].
    intros ->. discriminate EU.
  - destruct (truthy (Data t)) eqn:ET; proj_red.
    + destruct (IsCompressedData_run zstd t) as (b & t1 & l1 & E1 & Hs & HM).
      rewrite E1. destruct b; proj_red.
      * destruct (DecompressData_run zstd t1) as (d & t2 & l2 & E2 & Hs' & Hsrc).
        rewrite E2. eexists _, _, _. split; [reflexivity|].
        split; [eapply same_texture_trans; eassumption|].
        intros _. right. split; [reflexivity|]. exists d.
        split; [reflexivity|].
        pose proof Hs as (_ & _ & _ & HD & _). rewrite HD, HM in Hsrc.
        exact Hsrc.
      * eexists _, _, _. split; [reflexivity|]. split; [exact Hs|].
        intros _. right. split; [reflexivity|]. eexists.
        split; [reflexivity|]. left; reflexivity.
    + eexists _, _, _. split; [reflexivity|].
      split; [apply same_texture_refl|]. intros _. left. auto.
Qed.

(** ** The decode dispatcher *)

(** Once a source of at least 16 bytes is selected, [DecodeTexture] is the
    [try] block around the dispatch. *)
Lemma DecodeTexture_selected zstd dec (self : SCTX) (use : bool)
    (t t' : Texture) (d : bytes) (l : list LogRecord) :
  decode_source zstd self use t = mkOutcome (inr (Some (Some d))) t' l ->
  16 <= len d ->
  DecodeTexture zstd dec self use t
  = match decode_dispatch dec d t' with
    | mkOutcome (inl e) s1 l1 =>
        mkOutcome (inr None) s1
          (l ++ l1 ++ [(ERROR, ("Error decoding texture: " ++ exn_str e)%string)])
    | mkOutcome (inr v) s1 l1 => mkOutcome (inr v) s1 (l ++ l1)
    end.
Proof.
  intros E Hd. unfold DecodeTexture. unfold bind at 1. rewrite E.
  destruct d as [|x d]; [unfold len in Hd; simpl in Hd; lia|].
  cbn [truthy negb orb].
  destruct (Z.ltb_spec (len (x :: d)) 16) as [?|_]; [lia|].
  run_monad.
  destruct (decode_dispatch dec (x :: d) t') as [[e|v] s1 l1]; reflexivity.
Qed.

(** A selected source under 16 bytes ends the decode. *)
Lemma DecodeTexture_too_small zstd dec (self : SCTX) (use : bool)
    (t t' : Texture) (d : bytes) (l : list LogRecord) :
  decode_source zstd self use t = mkOutcome (inr (Some (Some d))) t' l ->
  len d < 16 ->
  DecodeTexture zstd dec self use t
  = mkOutcome (inr None) t'
      (l ++ [(ERROR, ("Texture data too small: " ++ str (len d) ++ " bytes")%string)]).
Proof.
  intros E Hd. unfold DecodeTexture. unfold bind at 1. rewrite E.
  destruct d as [|x d].
  - reflexivity.
  - cbn [truthy negb orb].
    destruct (Z.ltb_spec (len (x :: d)) 16) as [_|?]; [|lia].
    reflexivity.
Qed.

Lemma decode_dispatch_unsupported dec (d : bytes) (t : Texture) :
  IsAstc t = false -> IsEtc t = false -> IsUncompressed t = false ->
  IsPvrtc t = false ->
  decode_dispatch dec d t = mkOutcome (inr None) t [unsupported_record t].
Proof.
  intros HA HE HU HV. unfold decode_dispatch, unsupported. run_monad.
  rewrite HA, HE, HU, HV. reflexivity.
Qed.

Lemma decode_dispatch_astc_no_footprint dec (d : bytes) (t : Texture) :
  IsAstc t = true -> re_search_dims (GetFormatName t) = None ->
  decode_dispatch dec d t = mkOutcome (inr None) t [unsupported_record t].
Proof.
  intros HA HR. unfold decode_dispatch, unsupported. run_monad.
  rewrite HA, HR. reflexivity.
Qed.

Lemma decode_dispatch_pvrtc dec (d : bytes) (t : Texture) :
  IsAstc t = false -> IsEtc t = false -> IsUncompressed t = false ->
  IsPvrtc t = true ->
  decode_dispatch dec d t
  = match decode_pvrtc dec d (Width t) (Height t)
            (str_in "2" (GetFormatName t)) with
    | inl e => mkOutcome (inl e) t []
    | inr RgbaData =>
        match rgba_to_bgra RgbaData with
        | inl e => mkOutcome (inl e) t []
        | inr BgraData => mkOutcome (inr (Some (BgraData, "RGBA"))) t []
        end
    end.
Proof.
  intros HA HE HU HV. unfold decode_dispatch, unsupported. run_monad.
  rewrite HA, HE, HU, HV.
  destruct (decode_pvrtc dec d _ _ _) as [e|RgbaData]; [reflexivity|].
  destruct (rgba_to_bgra RgbaData); reflexivity.
Qed.

Lemma decode_dispatch_rgba8 dec (d : bytes) (t : Texture) :
  IsAstc t = false -> IsEtc t = false -> IsUncompressed t = true ->
  str_in "RGBA8Unorm" (GetFormatName t) = false ->
  str_in "RGBA8" (GetFormatName t) = true ->
  str_in "Unorm" (GetFormatName t) = false ->
  decode_dispatch dec d t
  = match rgba_to_bgra d with
    | inl e => mkOutcome (inl e) t []
    | inr BgraData => mkOutcome (inr (Some (BgraData, "RGBA"))) t []
    end.
Proof.
  intros HA HE HU H1 H2 H3. unfold decode_dispatch, unsupported. run_monad.
  rewrite HA, HE, HU, H1, H2, H3. cbn [negb andb].
  destruct (rgba_to_bgra d); reflexivity.
Qed.

Lemma decode_dispatch_rgba8unorm dec (d : bytes) (t : Texture) :
  IsAstc t = false -> IsEtc t = false -> IsUncompressed t = true ->
  str_in "RGBA8Unorm" (GetFormatName t) = true ->
  decode_dispatch dec d t
  = mkOutcome (inr (Some (d, "RGBA"))) t
      [(INFO, "RGBA8Unorm: treating as BGRA (no conversion)")].
Proof.
  intros HA HE HU H1. unfold decode_dispatch, unsupported. run_monad.
  rewrite HA, HE, HU, H1. reflexivity.
Qed.

Lemma decode_dispatch_bgra8 dec (d : bytes) (t : Texture) :
  IsAstc t = false -> IsEtc t = false -> IsUncompressed t = true ->
  str_in "RGBA8Unorm" (GetFormatName t) = false ->
  str_in "RGBA8" (GetFormatName t) = false ->
  str_in "BGRA8" (GetFormatName t) = true ->
  decode_dispatch dec d t = mkOutcome (inr (Some (d, "RGBA"))) t [].
Proof.
  intros HA HE HU H1 H2 H3. unfold decode_dispatch, unsupported. run_monad.
  rewrite HA, HE, HU, H1, H2, H3. reflexivity.
Qed.

Lemma for_extend_pixels (n : nat) :
  forall (m : nat) (pre d : bytes),
    List.length pre = (4 * m)%nat -> List.length d = (4 * n)%nat ->
    for_extend (map (fun k => Z.of_nat k * 4) (seq m n))
      (fun Idx => match slice Idx (Idx + 4) (pre ++ d) with
                  | [R; G; B; A] => inr [B; G; R; A]
                  | c => inl (unpack_error 4 (len c))
                  end)
    = inr (swap_red_blue d).
Proof.
  induction n as [|n IH]; intros m pre d Hpre Hd.
  - destruct d; [reflexivity | discriminate].
  - destruct d as [|R [|G [|B [|A d']]]]; try (simpl in Hd; lia).
    cbn [seq map for_extend].
    assert (E : slice (Z.of_nat m * 4) (Z.of_nat m * 4 + 4)
                  (pre ++ R :: G :: B :: A :: d') = [R; G; B; A]).
    { unfold slice.
      replace (Z.of_nat m * 4 + 4 - Z.of_nat m * 4) with 4 by lia.
      replace (Z.to_nat (Z.of_nat m * 4)) with (List.length pre)
        by (clear - Hpre; lia).
      rewrite skipn_app, skipn_all, Nat.sub_diag. reflexivity. }
    rewrite E.
    replace (pre ++ R :: G :: B :: A :: d')
      with ((pre ++ [R; G; B; A]) ++ d')
      by (rewrite <- app_assoc; reflexivity).
    rewrite (IH (S m)).
    + reflexivity.
    + rewrite length_app. simpl. lia.
    + simpl in Hd. lia.
Qed.

(** On a buffer of whole pixels the reordering loop is the (B,G,R,A)
    permutation. *)
Lemma rgba_to_bgra_swap (d : bytes) :
  len d mod 4 = 0 -> rgba_to_bgra d = inr (swap_red_blue d).
Proof.
  intros H. unfold rgba_to_bgra, range_step.
  pose proof (Z.div_mod (len d) 4 ltac:(lia)) as E. rewrite H in E.
  replace (Z.to_nat ((len d + 4 - 1) / 4)) with (Z.to_nat (len d / 4)).
  2:{ f_equal. apply Z.div_unique with (r := 3); lia. }
  apply (for_extend_pixels (Z.to_nat (len d / 4)) 0 [] d).
  - reflexivity.
  - unfold len in *. lia.
Qed.

(** The permutation moves bytes inside each pixel only. *)
Lemma swap_red_blue_pixel (pre post : bytes) (R G B A : byte) :
  (List.length pre mod 4 = 0)%nat ->
  swap_red_blue (pre ++ [R; G; B; A] ++ post)
  = swap_red_blue pre ++ [B; G; R; A] ++ swap_red_blue post.
Proof.
  remember (List.length pre) as k eqn:Hk. revert pre Hk.
  induction k as [k IH] using lt_wf_ind. intros pre Hk Hm.
  destruct pre as [|a [|b [|c [|e pre']]]].
  - reflexivity.
  - simpl in Hk. subst k. discriminate Hm.
  - simpl in Hk. subst k. discriminate Hm.
  - simpl in Hk. subst k. discriminate Hm.
  - simpl. f_equal. f_equal. f_equal. f_equal.
    apply (IH (List.length pre')).
    + simpl in Hk. lia.
    + reflexivity.
    + simpl in Hk. subst k.
      replace (S (S (S (S (List.length pre')))))
        with (List.length pre' + 1 * 4)%nat in Hm by lia.
      rewrite Nat.Div0.mod_add in Hm. exact Hm.
Qed.

Ltac by_format Hp :=
  unfold IsUncompressed, IsAstc, IsEtc, IsPvrtc, GetFormatName;
  rewrite Hp; reflexivity.

(** The texture the dispatch runs on has the format and the dimensions of
    the texture the decode was asked for. *)
Lemma decode_source_same zstd (self : SCTX) (use : bool) (t t' : Texture)
    (src : option (option bytes)) (l : list LogRecord) :
  decode_source zstd self use t = mkOutcome (inr src) t' l ->
  same_texture t t'.
Proof.
  intros E.
  destruct (decode_source_run zstd self use t) as (s2 & t2 & l2 & E2 & Hs & _).
  rewrite E in E2. injection E2 as _ <- _. exact Hs.
Qed.

(** C5 (counterexample).  An RGBA8Unorm texture of four pixels is decoded to
    its own bytes, which are not their (B,G,R,A) permutation. *)
Lemma decode_RGBA8Unorm_counterexample :
  result (DecodeTexture zstd_rejects decoder_double blank_SCTX false
            (texture_of (Enum ScPixel.RGBA8Unorm) 2 2 sixteen_bytes))
  = inr (Some (sixteen_bytes, "RGBA"))
  /\ sixteen_bytes <> swap_red_blue sixteen_bytes.
Proof. split; [reflexivity | discriminate]. Qed.

(** C5 (amended).  When the selected data has at least 16 bytes: for RGBA8
    and RGBA8_SIGNED, and a length that is a multiple of 4, the dispatcher
    returns the per-pixel (B,G,R,A) permutation of the data tagged RGBA; for
    the Unorm variants (RGBA8Unorm, RGBA8Unorm_sRGB, the legacy code 70) and
    for the 8-bit BGRA formats it returns the data unchanged, tagged RGBA,
    whatever the length. *)
Theorem decode_rgba8_layouts zstd dec (self : SCTX) (use : bool)
    (t t' : Texture) (d : bytes) (l : list LogRecord) (p : ScPixel.t) :
  decode_source zstd self use t = mkOutcome (inr (Some (Some d))) t' l ->
  16 <= len d -> PixelType t = Enum p ->
  (Catalogue.reordered_rgba8 p = true -> len d mod 4 = 0 ->
   result (DecodeTexture zstd dec self use t)
   = inr (Some (swap_red_blue d, "RGBA")))
  /\ (Catalogue.passed_through p = true ->
      result (DecodeTexture zstd dec self use t) = inr (Some (d, "RGBA"))).
Proof.
  intros E Hd Hp.
  pose proof (decode_source_same _ _ _ _ _ _ _ E) as (_ & _ & _ & _ & Hp').
  rewrite Hp in Hp'.
  rewrite (DecodeTexture_selected zstd dec self use t t' d l E Hd).
  split; [intros Hk H4|intros Hk].
  - rewrite decode_dispatch_rgba8;
      [ rewrite (rgba_to_bgra_swap d H4); reflexivity | .. ];
      destruct p; try discriminate Hk; by_format Hp'.
  - destruct p; try discriminate Hk;
      first [ rewrite decode_dispatch_rgba8unorm;
              [ reflexivity | by_format Hp' .. ]
            | rewrite decode_dispatch_bgra8;
              [ reflexivity | by_format Hp' .. ] ].
Qed.

Lemma decode_rgba8_layouts_witness :
  result (DecodeTexture zstd_rejects decoder_double blank_SCTX false
            (texture_of (Enum ScPixel.RGBA8) 2 2 sixteen_bytes))
  = inr (Some (swap_red_blue sixteen_bytes, "RGBA"))
  /\ result (DecodeTexture zstd_rejects decoder_double blank_SCTX false
               (texture_of (Enum ScPixel.BGRA8) 2 2 sixteen_bytes))
     = inr (Some (sixteen_bytes, "RGBA"))
  /\ result (DecodeTexture zstd_rejects decoder_double blank_SCTX false
               (texture_of (Enum ScPixel.RGBA8Unorm) 2 2
                  (sixteen_bytes ++ [x00])))
     = inr (Some (sixteen_bytes ++ [x00], "RGBA")).
Proof.
  split; [|split].
  - exact (proj1 (decode_rgba8_layouts zstd_rejects decoder_double blank_SCTX
                    false (texture_of (Enum ScPixel.RGBA8) 2 2 sixteen_bytes)
                    _ sixteen_bytes _ ScPixel.RGBA8
                    eq_refl ltac:(discriminate) eq_refl) eq_refl eq_refl).
  - exact (proj2 (decode_rgba8_layouts zstd_rejects decoder_double blank_SCTX
                    false (texture_of (Enum ScPixel.BGRA8) 2 2 sixteen_bytes)
                    _ sixteen_bytes _ ScPixel.BGRA8
                    eq_refl ltac:(discriminate) eq_refl) eq_refl).
  - exact (proj2 (decode_rgba8_layouts zstd_rejects decoder_double blank_SCTX
                    false
                    (texture_of (Enum ScPixel.RGBA8Unorm) 2 2
                       (sixteen_bytes ++ [x00]))
                    _ (sixteen_bytes ++ [x00]) _ ScPixel.RGBA8Unorm
                    eq_refl ltac:(discriminate) eq_refl) eq_refl).
Defined.

(** C6.  The flag the dispatcher hands to the PVRTC decoder: it says 2 bpp
    for the 2-bpp formats, and also for PVRTC2_RGBA4 and PVRTC2_SRGBA4, which
    are stored at 4 bpp; for the PVRTC1 4-bpp formats it says 4 bpp. *)
Theorem decode_pvrtc_flag zstd dec (self : SCTX) (use : bool)
    (t t' : Texture) (d : bytes) (l : list LogRecord) (p : ScPixel.t) :
  decode_source zstd self use t = mkOutcome (inr (Some (Some d))) t' l ->
  16 <= len d -> PixelType t = Enum p -> Catalogue.is_pvrtc p = true ->
  result (DecodeTexture zstd dec self use t)
  = inr (reordered
           (decode_pvrtc dec d (Width t) (Height t)
              (Catalogue.two_bpp p || Catalogue.pvrtc2_four_bpp p))).
Proof.
  intros E Hd Hp Hk.
  pose proof (decode_source_same _ _ _ _ _ _ _ E) as (Hw & Hh & _ & _ & Hp').
  rewrite Hp in Hp'.
  rewrite (DecodeTexture_selected zstd dec self use t t' d l E Hd).
  rewrite decode_dispatch_pvrtc;
    [ | destruct p; try discriminate Hk; by_format Hp' .. ].
  rewrite Hw, Hh.
  replace (str_in "2" (GetFormatName t'))
    with (Catalogue.two_bpp p || Catalogue.pvrtc2_four_bpp p)
    by (destruct p; try discriminate Hk; by_format Hp').
  unfold reordered.
  destruct (decode_pvrtc dec d _ _ _) as [e|RgbaData]; [reflexivity|].
  destruct (rgba_to_bgra RgbaData); reflexivity.
Qed.

Lemma decode_pvrtc_flag_witness :
  result (DecodeTexture zstd_rejects decoder_double blank_SCTX false
            (texture_of (Enum ScPixel.PVRTC2_RGBA4) 4 4 sixteen_bytes))
  = inr (Some ([x02; x02; x02; x02], "RGBA")).
Proof.
  exact (decode_pvrtc_flag zstd_rejects decoder_double blank_SCTX false
           (texture_of (Enum ScPixel.PVRTC2_RGBA4) 4 4 sixteen_bytes)
           _ sixteen_bytes _ ScPixel.PVRTC2_RGBA4
           eq_refl ltac:(discriminate) eq_refl eq_refl).
Defined.

Lemma DecodeTexture_unselected zstd dec (self : SCTX) (use : bool)
    (t t' : Texture) (l : list LogRecord) :
  decode_source zstd self use t = mkOutcome (inr None) t' l ->
  DecodeTexture zstd dec self use t
  = mkOutcome (inr None) t' (l ++ [(ERROR, "No texture data available")]).
Proof.
  intros E. unfold DecodeTexture. unfold bind at 1. rewrite E. reflexivity.
Qed.

Lemma DecodeTexture_no_bytes zstd dec (self : SCTX) (use : bool)
    (t t' : Texture) (l : list LogRecord) :
  decode_source zstd self use t = mkOutcome (inr (Some None)) t' l ->
  DecodeTexture zstd dec self use t
  = mkOutcome (inr None) t'
      (l ++ [(ERROR, "Texture data too small: 0 bytes")]).
Proof.
  intros E. unfold DecodeTexture. unfold bind at 1. rewrite E. reflexivity.
Qed.

(** The dispatch on a texture whose code is not a member finds no decode
    path. *)
Lemma decode_dispatch_unrecognized dec (d : bytes) (t : Texture) (n : Z) :
  PixelType t = Raw n -> ScPixel.of_value n = None ->
  decode_dispatch dec d t = mkOutcome (inr None) t [unsupported_record t].
Proof.
  intros Hp Hn.
  destruct (unrecognized_predicates t n Hp Hn) as (HE & HV & HU & _ & HA).
  destruct (IsAstc t) eqn:EA.
  - apply decode_dispatch_astc_no_footprint; [exact EA|].
    destruct (proj1 HA eq_refl) as [-> | ->];
      unfold GetFormatName; rewrite Hp; reflexivity.
  - apply decode_dispatch_unsupported; assumption.
Qed.

Lemma new_Texture_unrecognized (n W H : Z) (s : SCTX) :
  ScPixel.of_value n = None ->
  exists l,
    ReadStreamingData_new_Texture n W H s
    = mkOutcome (inr tt) (set_Texture (Some (Texture_init (Raw n) W H)) s) l.
Proof.
  intros Hn. unfold ReadStreamingData_new_Texture, ScPixel_call.
  rewrite Hn, (unrecognized_not_70 n Hn).
  destruct (int_in n AstcFormatIds); run_monad; eexists; reflexivity.
Qed.

Lemma new_StreamingTexture_unrecognized (n W H : Z) (s : SCTX) :
  ScPixel.of_value n = None ->
  ReadStreamingTexture_new_Texture n W H s
  = mkOutcome (inr tt)
      (set_StreamingTexture (Some (Texture_init (Raw n) W H)) s) [].
Proof.
  intros Hn. unfold ReadStreamingTexture_new_Texture, ScPixel_call.
  rewrite Hn, (unrecognized_not_70 n Hn).
  destruct (int_in n AstcFormatIds); reflexivity.
Qed.

(** C8 (counterexample).  The code 191 lies in the first ASTC band and is not
    a member of the enumeration; the texture built from it is classified as
    ASTC. *)
Lemma unrecognized_191_counterexample :
  ScPixel.of_value 191 = None
  /\ GetFormatName (Texture_init (Raw 191) 4 4) = "ASTC_UNKNOWN_191"
  /\ IsAstc (Texture_init (Raw 191) 4 4) = true.
Proof. repeat split. Qed.

(** C8 (amended).  For every format code that is not a member of the
    enumeration: building the texture in the parser does not raise and keeps
    the raw code; the display name contains the code; [IsEtc], [IsPvrtc],
    [IsUncompressed] and [IsSrgb] are false, and [IsAstc] is false unless the
    code is 191 or 209 (the two gaps of the ASTC bands, named
    ASTC_UNKNOWN_<code>); the dispatcher returns no image and raises nothing,
    and when the selected data has at least 16 bytes it reports the format as
    unsupported. *)
Theorem unrecognized_format_code (n : Z) :
  ScPixel.of_value n = None ->
  (forall (W H : Z) (s : SCTX),
      (exists l, ReadStreamingData_new_Texture n W H s
                 = mkOutcome (inr tt)
                     (set_Texture (Some (Texture_init (Raw n) W H)) s) l)
      /\ ReadStreamingTexture_new_Texture n W H s
         = mkOutcome (inr tt)
             (set_StreamingTexture (Some (Texture_init (Raw n) W H)) s) [])
  /\ forall t : Texture, PixelType t = Raw n ->
       str_in (str n) (GetFormatName t) = true
       /\ IsEtc t = false /\ IsPvrtc t = false /\ IsUncompressed t = false
       /\ IsSrgb t = false
       /\ (IsAstc t = true <-> n = 191 \/ n = 209)
       /\ forall zstd dec (self : SCTX) (use : bool),
            result (DecodeTexture zstd dec self use t) = inr None
            /\ forall (d : bytes) (t' : Texture) (l : list LogRecord),
                 decode_source zstd self use t
                 = mkOutcome (inr (Some (Some d))) t' l ->
                 16 <= len d ->
                 logged (DecodeTexture zstd dec self use t)
                 = l ++ [unsupported_record t].
Proof.
  intros Hn. split.
  - intros W H s. split.
    + apply new_Texture_unrecognized; exact Hn.
    + apply new_StreamingTexture_unrecognized; exact Hn.
  - intros t Hp.
    split; [apply unrecognized_name; assumption|].
    destruct (unrecognized_predicates t n Hp Hn) as (HE & HV & HU & HS & HA).
    repeat (split; [assumption|]).
    intros zstd dec self use.
    assert (D : forall d t' l,
               decode_source zstd self use t
               = mkOutcome (inr (Some (Some d))) t' l ->
               16 <= len d ->
               DecodeTexture zstd dec self use t
               = mkOutcome (inr None) t' (l ++ [unsupported_record t])).
    { intros d t' l E Hd.
      pose proof (decode_source_same _ _ _ _ _ _ _ E) as (_ & _ & _ & _ & Hp').
      rewrite (DecodeTexture_selected zstd dec self use t t' d l E Hd).
      rewrite (decode_dispatch_unrecognized dec d t' n) by congruence.
      unfold unsupported_record.
      rewrite (GetFormatName_same t t' Hp'). reflexivity. }
    split.
    + destruct (decode_source_run zstd self use t)
        as (src & t' & l & E & _ & _).
      destruct src as [[d|]|].
      * destruct (Z.lt_ge_cases (len d) 16) as [Hd|Hd].
        -- rewrite (DecodeTexture_too_small _ dec _ _ _ _ _ _ E Hd).
           reflexivity.
        -- rewrite (D d t' l E Hd). reflexivity.
      * rewrite (DecodeTexture_no_bytes _ dec _ _ _ _ _ E). reflexivity.
      * rewrite (DecodeTexture_unselected _ dec _ _ _ _ _ E). reflexivity.
    + intros d t' l E Hd. rewrite (D d t' l E Hd). reflexivity.
Qed.

Lemma unrecognized_format_code_witness :
  GetFormatName (Texture_init (Raw 9999) 4 4) = "UNKNOWN (9999)"
  /\ IsUncompressed (Texture_init (Raw 9999) 4 4) = false
  /\ result (DecodeTexture zstd_rejects decoder_double blank_SCTX false
               (texture_of (Raw 9999) 4 4 sixteen_bytes))
     = inr None
  /\ logged (DecodeTexture zstd_rejects decoder_double blank_SCTX false
               (texture_of (Raw 9999) 4 4 sixteen_bytes))
     = [(ERROR, "Unsupported texture format: UNKNOWN (9999)")].
Proof.
  pose proof (proj2 (unrecognized_format_code 9999 eq_refl)
                (texture_of (Raw 9999) 4 4 sixteen_bytes) eq_refl)
    as (_ & _ & _ & _ & _ & _ & H).
  split; [reflexivity|].
  split; [exact (proj1 (proj2 (proj2 (proj2
                  (proj2 (unrecognized_format_code 9999 eq_refl)
                     (Texture_init (Raw 9999) 4 4) eq_refl)))))|].
  destruct (H zstd_rejects decoder_double blank_SCTX false) as [H1 H2].
  split; [exact H1|].
  exact (H2 sixteen_bytes _ _ eq_refl ltac:(discriminate)).
Defined.

(** ** The container parser *)

(** [ReadTexture] on a header block of 34 bytes or more assigns to
    [self.Texture.Width] first: without a main texture it raises. *)
Lemma ReadTexture_without_Texture (Data : bytes) (s : SCTX) :
  Texture_ s = None -> 34 <= len Data ->
  ReadTexture Data s = mkOutcome (inl (NoneType_has_no "Width")) s [].
Proof.
  intros Hs Hd. unfold ReadTexture.
  destruct (Z.ltb_spec (len Data) (24 + 10)) as [?|_]; [lia|].
  destruct (ReadUshort (Skip 24 (BinaryReader_init Data))) as [v r1].
  unfold setattr_Texture. run_monad. rewrite Hs. reflexivity.
Qed.

(** C2.  The parse does not run to completion on [headerless_file] nor on
    [overrun_then_header_file]: the streaming block (too short in the first,
    with an overrunning header length in the second) creates no main
    texture, the texture header block has 34 bytes, and [ReadTexture] raises
    [AttributeError] out of the constructor. *)
Theorem parse_raises_without_main_texture zstd (StreamingIdOverride : Z) :
  result (SCTX__init__ zstd headerless_file StreamingIdOverride)
  = inl (AttributeError "'NoneType' object has no attribute 'Width'")
  /\ Texture_ (final (SCTX__init__ zstd headerless_file StreamingIdOverride))
     = None
  /\ result (SCTX__init__ zstd overrun_then_header_file StreamingIdOverride)
     = inl (AttributeError "'NoneType' object has no attribute 'Width'").
Proof. repeat split; vm_compute; reflexivity. Qed.

Lemma bytes_eqb_refl (b : bytes) : bytes_eqb b b = true.
Proof.
  induction b as [|x b IH]; simpl; [reflexivity|].
  rewrite IH, andb_true_r. destruct x; reflexivity.
Qed.

(** With the magic number at offset 0 the locator hands the whole file to
    the decompressor, with no [max_output_size], and keeps whatever comes
    back. *)
Lemma FindAndDecompressPayload_at_0 zstd (self : SCTX) (out : bytes) :
  4 < len (OriginalFileData self) ->
  slice 0 4 (OriginalFileData self) = ZstdMagic ->
  zstd (OriginalFileData self) None = inr out ->
  exists l,
    FindAndDecompressPayload zstd self
    = mkOutcome (inr tt)
        (set_DecompressedPayload (Some out)
           (set_CompressedPayload (Some (OriginalFileData self)) self)) l.
Proof.
  intros Hl Hm Hz. unfold FindAndDecompressPayload.
  cbn [scan_offsets]. unfold decompress_payload. run_monad.
  destruct (Z.ltb_spec 0 (len (OriginalFileData self) - 4)) as [_|?]; [|lia].
  change (0 + 4) with 4. rewrite Hm.
  change (bytes_eqb ZstdMagic ZstdMagic) with true. cbv iota.
  cbn [CompressedPayload set_CompressedPayload OriginalFileData].
  change (slice_from 0 (OriginalFileData self)) with (OriginalFileData self).
  rewrite Hz. eexists. reflexivity.
Qed.

(** C1.  What the Payload Locator does when the magic number is at offset 0
    of a file of more than four bytes: it calls the decompressor on the whole
    file without any output-size ceiling and records the output, whatever its
    size. *)
Theorem payload_locator_has_no_ceiling zstd (self : SCTX) (out : bytes) :
  4 < len (OriginalFileData self) ->
  slice 0 4 (OriginalFileData self) = ZstdMagic ->
  zstd (OriginalFileData self) None = inr out ->
  result (FindAndDecompressPayload zstd self) = inr tt
  /\ CompressedPayload (final (FindAndDecompressPayload zstd self))
     = Some (OriginalFileData self)
  /\ DecompressedPayload (final (FindAndDecompressPayload zstd self))
     = Some out.
Proof.
  intros Hl Hm Hz.
  destruct (FindAndDecompressPayload_at_0 zstd self out Hl Hm Hz) as [l E].
  rewrite E. repeat split.
Qed.

Lemma payload_locator_has_no_ceiling_witness :
  result (FindAndDecompressPayload zstd_zeros (fresh_SCTX small_magic_file 255))
  = inr tt
  /\ DecompressedPayload
       (final (FindAndDecompressPayload zstd_zeros
                 (fresh_SCTX small_magic_file 255)))
     = Some [x00; x00; x00].
Proof.
  pose proof (payload_locator_has_no_ceiling zstd_zeros
                (fresh_SCTX small_magic_file 255) [x00; x00; x00]
                eq_refl eq_refl eq_refl) as H.
  split; [exact (proj1 H) | exact (proj2 (proj2 H))].
Defined.

(** With a decompressor that needs no ceiling, an 8-byte file makes the
    locator record a payload of 100 MiB + 1 bytes. *)
Lemma payload_locator_exceeds_100_MiB :
  exists out,
    DecompressedPayload
      (final (FindAndDecompressPayload zstd_zeros (fresh_SCTX magic_file 255)))
    = Some out
    /\ 100 * 1024 * 1024 < len out.
Proof.
  destruct (FindAndDecompressPayload_at_0 zstd_zeros
              (fresh_SCTX magic_file 255)
              (repeat x00 (Z.to_nat 104857601))) as [l E].
  - reflexivity.
  - reflexivity.
  - unfold zstd_zeros. cbn [OriginalFileData fresh_SCTX].
    change (from_bytes_unsigned (slice 4 8 magic_file)) with 104857601.
    reflexivity.
  - rewrite E. eexists. split; [reflexivity|].
    unfold len. rewrite repeat_length, Z2Nat.id by lia. reflexivity.
Qed.

Lemma from_bytes_unsigned_nonneg (b : bytes) : 0 <= from_bytes_unsigned b.
Proof.
  induction b as [|x b IH]; cbn [from_bytes_unsigned]; [lia|].
  pose proof (N2Z.is_nonneg (Byte.to_N x)). lia.
Qed.

Lemma ReadUint_spec (r : BinaryReader) :
  0 <= tell r <= len (getvalue r) ->
  0 <= fst (ReadUint r)
  /\ getvalue (snd (ReadUint r)) = getvalue r
  /\ tell (snd (ReadUint r)) = tell r + Z.min 4 (len (getvalue r) - tell r).
Proof.
  intros Hr. unfold ReadUint.
  destruct (read_spec r 4 Hr ltac:(lia)) as (_ & _ & Hg & Ht).
  destruct (read 4 r) as [b r1]. cbn [fst snd] in *.
  split; [apply from_bytes_unsigned_nonneg | auto].
Qed.

Lemma read_0 (r : BinaryReader) : read 0 r = ([], r).
Proof.
  unfold read, remaining. cbn [Z.ltb Z.compare].
  rewrite Z.min_l by lia. destruct r as [b p].
  cbn [Z.to_nat firstn getvalue tell len List.length Z.of_nat].
  now rewrite Z.add_0_r.
Qed.

(** A length field read at the top level of the file, with [R] bytes left
    after it: clamping makes the length [min L R], and the read takes just
    the next [min L R] bytes. *)
Lemma clamped_read (r1 : BinaryReader) (L : Z) (data : bytes) :
  getvalue r1 = data -> 0 <= tell r1 <= len data -> 0 <= L ->
  let R := len data - tell r1 in
  (if L >? R then Z.min L R else L) = Z.min L R
  /\ fst (read (Z.min L R) r1) = slice (tell r1) (tell r1 + Z.min L R) data
  /\ len (fst (read (Z.min L R) r1)) = Z.min L R
  /\ getvalue (snd (read (Z.min L R) r1)) = data
  /\ tell (snd (read (Z.min L R) r1)) = tell r1 + Z.min L R
  /\ tell (snd (read (Z.min L R) r1)) <= len data.
Proof.
  intros Hg Hr HL R. subst data.
  destruct (read_spec r1 (Z.min L R) Hr ltac:(unfold R; lia))
    as (H1 & H2 & H3 & H4).
  fold R in H1, H2, H4.
  rewrite (Z.min_l (Z.min L R) R) in H1, H2, H4 by lia.
  split; [destruct (Z.gtb_spec L R); lia|].
  repeat split; try assumption. rewrite H4. unfold R. lia.
Qed.

Lemma init_streaming_block_spec (r : BinaryReader) (s : SCTX) :
  getvalue r = OriginalFileData s -> 0 <= tell r <= len (getvalue r) ->
  let L := fst (ReadUint r) in
  let r1 := snd (ReadUint r) in
  let R := len (OriginalFileData s) - tell r1 in
  exists block r2,
    init_streaming_block r s
    = mkOutcome (inr (block, r2)) s
        (if L >? R
         then [(WARNING, ("Invalid streaming length " ++ str L)%string)]
         else [])
    /\ block = slice (tell r1) (tell r1 + Z.min L R) (OriginalFileData s)
    /\ len block = Z.min L R
    /\ getvalue r2 = OriginalFileData s
    /\ tell r2 = tell r1 + Z.min L R
    /\ tell r2 <= len (OriginalFileData s).
Proof.
  intros Hg Hr L r1 R.
  destruct (ReadUint_spec r Hr) as (HL & Hg1 & Ht1).
  fold L r1 in HL, Hg1, Ht1.
  assert (Hr1 : 0 <= tell r1 <= len (OriginalFileData s)).
  { rewrite <- Hg. lia. }
  assert (Hg1' : getvalue r1 = OriginalFileData s) by congruence.
  destruct (clamped_read r1 L (OriginalFileData s) Hg1' Hr1 HL)
    as (En & H1 & H2 & H3 & H4 & H5).
  fold R in En, H1, H2, H3, H4, H5.
  exists (fst (read (Z.min L R) r1)), (snd (read (Z.min L R) r1)).
  split; [|repeat split; assumption].
  unfold init_streaming_block. run_monad.
  rewrite (surjective_pairing (ReadUint r)). fold L r1 R.
  rewrite <- En.
  destruct (L >? R); proj_red; rewrite <- surjective_pairing; reflexivity.
Qed.

Lemma init_texture_block_spec (r : BinaryReader) (s : SCTX) :
  getvalue r = OriginalFileData s -> 0 <= tell r <= len (getvalue r) ->
  let L := fst (ReadUint r) in
  let r1 := snd (ReadUint r) in
  let R := len (OriginalFileData s) - tell r1 in
  exists block r2,
    init_texture_block r s
    = mkOutcome (inr (block, r2)) s
        (if L >? R
         then [(WARNING, ("Invalid data length " ++ str L)%string)]
         else [])
    /\ block = slice (tell r1) (tell r1 + Z.min L R) (OriginalFileData s)
    /\ len block = Z.min L R
    /\ getvalue r2 = OriginalFileData s
    /\ tell r2 = tell r1 + Z.min L R
    /\ tell r2 <= len (OriginalFileData s).
Proof.
  intros Hg Hr L r1 R.
  destruct (ReadUint_spec r Hr) as (HL & Hg1 & Ht1).
  fold L r1 in HL, Hg1, Ht1.
  assert (Hr1 : 0 <= tell r1 <= len (OriginalFileData s)).
  { rewrite <- Hg. lia. }
  assert (Hg1' : getvalue r1 = OriginalFileData s) by congruence.
  destruct (clamped_read r1 L (OriginalFileData s) Hg1' Hr1 HL)
    as (En & H1 & H2 & H3 & H4 & H5).
  fold R in En, H1, H2, H3, H4, H5.
  exists (fst (read (Z.min L R) r1)), (snd (read (Z.min L R) r1)).
  split; [|repeat split; assumption].
  unfold init_texture_block. run_monad.
  rewrite (surjective_pairing (ReadUint r)). fold L r1 R.
  rewrite <- En.
  destruct (L >? R); proj_red; rewrite <- surjective_pairing; reflexivity.
Qed.

Lemma init_texture_data_spec (r : BinaryReader) (s : SCTX) (t : Texture) :
  getvalue r = OriginalFileData s -> 0 <= tell r <= len (getvalue r) ->
  Texture_ s = Some t -> 0 < DataLength t ->
  let L := DataLength t in
  let R := len (OriginalFileData s) - tell r in
  let d := slice (tell r) (tell r + Z.min L R) (OriginalFileData s) in
  exists r2,
    init_texture_data r s
    = mkOutcome (inr r2)
        (if 0 <? Z.min L R then set_Texture (Some (set_Data (Some d) t)) s
         else s)
        (if L >? R
         then [(WARNING, ("Texture data length " ++ str L
                          ++ " exceeds file size")%string)]
         else [])
    /\ len d = Z.min L R
    /\ tell r2 = tell r + Z.min L R
    /\ tell r2 <= len (OriginalFileData s).
Proof.
  intros Hg Hr Ht HL L R d.
  assert (Hr' : 0 <= tell r <= len (OriginalFileData s)) by (rewrite <- Hg; lia).
  destruct (clamped_read r L (OriginalFileData s) Hg Hr' ltac:(unfold L; lia))
    as (_ & H1 & H2 & H3 & H4 & H5).
  fold R in H1, H2, H3, H4, H5. fold d in H1.
  exists (snd (read (Z.min L R) r)).
  split; [|rewrite <- H1; repeat split; assumption].
  unfold init_texture_data, setattr_Texture. run_monad. rewrite Ht.
  fold L. destruct (Z.gtb_spec L 0) as [_|?]; [|lia].
  fold R.
  destruct (Z.leb_spec (tell r + L) (len (OriginalFileData s))) as [Hfit|Hfit].
  - assert (E : Z.min L R = L) by (unfold R; lia).
    rewrite E in *.
    destruct (Z.gtb_spec L R) as [?|_]; [unfold R in *; lia|].
    destruct (Z.ltb_spec 0 L) as [_|?]; [|lia].
    rewrite (surjective_pairing (read L r)). rewrite Ht. proj_red.
    rewrite H1. reflexivity.
  - assert (E : Z.min L R = R) by (unfold R; lia).
    rewrite E in *.
    destruct (Z.gtb_spec L R) as [_|?]; [|unfold R in *; lia].
    destruct (Z.gtb_spec R 0) as [Hpos|Hzero].
    + destruct (Z.ltb_spec 0 R) as [_|?]; [|lia].
      rewrite (surjective_pairing (read R r)). rewrite Ht. proj_red.
      rewrite H1. reflexivity.
    + destruct (Z.ltb_spec 0 R) as [?|_]; [lia|].
      assert (R0 : R = 0) by (unfold R in *; lia).
      rewrite R0, read_0. reflexivity.
Qed.

(** A streaming-block header length that overruns the block is not clamped:
    [ReadStreamingData] returns at once, having logged nothing and created
    no texture. *)
Lemma ReadStreamingData_header_overrun (Data : bytes) (s : SCTX) :
  4 <= len Data ->
  len Data - 4 < fst (ReadUint (BinaryReader_init Data)) ->
  ReadStreamingData Data s = mkOutcome (inr tt) s [].
Proof.
  intros Hl Hh. unfold ReadStreamingData.
  destruct (Z.ltb_spec (len Data) 4) as [?|_]; [lia|].
  destruct (ReadUint (BinaryReader_init Data)) as [HeaderLength r1].
  cbn [fst] in Hh.
  destruct (Z.gtb_spec HeaderLength (len Data - 4)) as [_|?]; [|lia].
  reflexivity.
Qed.

(** ** The repair after the parse *)

Lemma init_repair_run (s : SCTX) (t st : Texture) :
  Texture_ s = Some t -> StreamingTexture s = Some st ->
  (forall d, Data t = Some d -> len d < 16) ->
  truthy (Data st) = true ->
  init_repair s
  = mkOutcome (inr tt)
      (set_Texture
         (Some (set_DataLength (DataLength st) (set_Data (Data st) t))) s)
      [(INFO, "Main texture data is too small, checking streaming texture...");
       (INFO, "Using streaming texture data instead")].
Proof.
  intros Ht Hst Hsmall Hdata.
  unfold init_repair, setattr_Texture. run_monad. rewrite Ht.
  assert (C : negb (truthy (Data t))
              || (len match Data t with Some d => d | None => [] end <? 16)
              = true).
  { destruct (Data t) as [d|] eqn:ED; [|reflexivity].
    specialize (Hsmall d eq_refl).
    destruct (Z.ltb_spec (len d) 16); [apply orb_true_r | lia]. }
  rewrite C. rewrite Hst, Hdata.
  cbn [Texture_ StreamingTexture set_Texture]. rewrite Ht. reflexivity.
Qed.

(** C7 (counterexample).  After the parse of [short_streaming_file] the main
    texture (10 bytes of data) holds the five bytes of the streaming
    texture, and its decode fails for want of data. *)
Lemma repair_decode_counterexample :
  exists t st,
    Texture_ (final (SCTX__init__ zstd_rejects short_streaming_file 255))
    = Some t
    /\ StreamingTexture
         (final (SCTX__init__ zstd_rejects short_streaming_file 255))
       = Some st
    /\ Data st = Some five_bytes
    /\ Data t = Some five_bytes
    /\ DecodeTexture zstd_rejects decoder_double
         (final (SCTX__init__ zstd_rejects short_streaming_file 255))
         false t
       = mkOutcome (inr None)
           (set_IsCompressedDataFlag (Some false) t)
           [(ERROR, "Texture data too small: 5 bytes")].
Proof.
  eexists _, _. split; [vm_compute; reflexivity|].
  split; [vm_compute; reflexivity|]. repeat split.
Qed.

(** The repair copies the data and the declared length, nothing else: after
    the parse of [small_streaming_file] the main texture holds the 16 bytes
    of the 4x4 streaming texture beside its own 8x8 size, and the decoder is
    called with 8x8; [ProcessSingleFile] decodes the streaming texture
    itself with 4x4. *)
Lemma repair_keeps_main_dimensions :
  exists t st,
    Texture_ (final (SCTX__init__ zstd_rejects small_streaming_file 255))
    = Some t
    /\ StreamingTexture
         (final (SCTX__init__ zstd_rejects small_streaming_file 255))
       = Some st
    /\ Data t = Data st
    /\ (Width st, Height st) = (4, 4)
    /\ (Width t, Height t) = (8, 8)
    /\ result (DecodeTexture zstd_rejects decoder_records_size
                 (final (SCTX__init__ zstd_rejects small_streaming_file 255))
                 false t)
       = inr (Some ([x00; byte_of 8; byte_of 8; x00], "RGBA"))
    /\ result (DecodeTexture zstd_rejects decoder_records_size
                 (final (SCTX__init__ zstd_rejects small_streaming_file 255))
                 false st)
       = inr (Some ([x00; byte_of 4; byte_of 4; x00], "RGBA")).
Proof.
  eexists _, _. split; [vm_compute; reflexivity|].
  split; [vm_compute; reflexivity|]. repeat split.
Qed.

(** C7 (amended).  When the main texture exists with data absent or shorter
    than 16 bytes and the streaming texture has data, the repair puts the
    streaming texture's data and declared length into the main texture.  A
    decode of the main texture then takes its bytes from the streaming
    texture's data (as they are, or decompressed); it fails for want of data
    when these bytes are fewer than 16, and goes on to the format dispatch
    on them otherwise. *)
Theorem repair_uses_streaming_data (s : SCTX) (t st : Texture) :
  Texture_ s = Some t -> StreamingTexture s = Some st ->
  (forall d, Data t = Some d -> len d < 16) ->
  truthy (Data st) = true ->
  exists t1 : Texture,
    init_repair s
    = mkOutcome (inr tt) (set_Texture (Some t1) s)
        [(INFO, "Main texture data is too small, checking streaming texture...");
         (INFO, "Using streaming texture data instead")]
    /\ Data t1 = Data st /\ DataLength t1 = DataLength st
    /\ (DecompressedData t = None ->
        forall zstd dec,
        exists src t' l,
          decode_source zstd (set_Texture (Some t1) s) false t1
          = mkOutcome (inr (Some (Some src))) t' l
          /\ (Data st = Some src
              \/ exists sd max, Data st = Some sd
                   /\ zstd sd (Some max) = inr src)
          /\ (len src < 16 ->
              DecodeTexture zstd dec (set_Texture (Some t1) s) false t1
              = mkOutcome (inr None) t'
                  (l ++ [(ERROR, ("Texture data too small: "
                                  ++ str (len src) ++ " bytes")%string)]))
          /\ (16 <= len src ->
              DecodeTexture zstd dec (set_Texture (Some t1) s) false t1
              = match decode_dispatch dec src t' with
                | mkOutcome (inl e) s2 l2 =>
                    mkOutcome (inr None) s2
                      (l ++ l2 ++ [(ERROR, ("Error decoding texture: "
                                            ++ exn_str e)%string)])
                | mkOutcome (inr v) s2 l2 => mkOutcome (inr v) s2 (l ++ l2)
                end)).
Proof.
  intros Ht Hst Hsmall Hdata.
  set (t1 := set_DataLength (DataLength st) (set_Data (Data st) t)).
  set (s1 := set_Texture (Some t1) s).
  exists t1.
  split; [apply init_repair_run; assumption|].
  split; [reflexivity|]. split; [reflexivity|].
  intros Hmemo zstd dec.
  destruct (decode_source_run zstd s1 false t1)
    as (src & t' & l & E & Hs & Hsrc).
  assert (Hd1 : Data t1 = Data st) by reflexivity.
  assert (Hm1 : DecompressedData t1 = None) by exact Hmemo.
  destruct (Hsrc eq_refl) as [[Hf _] | (_ & d & -> & Hd)].
  { rewrite Hd1, Hdata in Hf. discriminate Hf. }
  assert (Hsome : exists b, d = Some b
                    /\ (Data st = Some b
                        \/ exists sd max, Data st = Some sd
                             /\ zstd sd (Some max) = inr b)).
  { destruct Hd as [-> | (out & -> & [Hm | (data & max & Hdt & Hz)])].
    - rewrite Hd1. destruct (Data st) as [b|]; [|discriminate Hdata].
      exists b. auto.
    - rewrite Hm1 in Hm. discriminate Hm.
    - exists out. split; [reflexivity|]. right. exists data, max.
      rewrite <- Hd1. auto. }
  destruct Hsome as (b & -> & Hb).
  exists b, t', l. split; [exact E|].
  split; [exact Hb|]. split.
  - intros Hlt. exact (DecodeTexture_too_small zstd dec s1 false t1 t' b l E Hlt).
  - intros Hge. exact (DecodeTexture_selected zstd dec s1 false t1 t' b l E Hge).
Qed.

Lemma repair_uses_streaming_data_witness :
  exists t1 : Texture,
    Texture_ (final (init_repair unrepaired_SCTX)) = Some t1
    /\ Data t1 = Some sixteen_bytes /\ DataLength t1 = 0.
Proof.
  destruct (repair_uses_streaming_data unrepaired_SCTX
              (texture_of (Enum ScPixel.ETC2_RGB8) 8 8 ten_bytes)
              (texture_of (Enum ScPixel.ETC2_RGB8) 4 4 sixteen_bytes)
              eq_refl eq_refl
              ltac:(intros d H; injection H as <-; reflexivity)
              eq_refl) as (t1 & Hrun & Hd & Hl & _).
  exists t1. rewrite Hrun. split; [reflexivity|]. split; assumption.
Defined.

(** * Further properties *)

(** ** The byte cursor, continued *)

(** X1.  A read of any size, negative sizes included, keeps the buffer,
    never moves the cursor backwards nor past the end of the buffer, and
    returns the bytes between the old and the new position. *)
Theorem read_stays_in_buffer (r : BinaryReader) (Size : Z) :
  0 <= tell r <= len (getvalue r) ->
  getvalue (snd (read Size r)) = getvalue r
  /\ tell r <= tell (snd (read Size r)) <= len (getvalue r)
  /\ tell (snd (read Size r)) = tell r + len (fst (read Size r))
  /\ fst (read Size r)
     = slice (tell r) (tell (snd (read Size r))) (getvalue r).
Proof.
  intros Hr. unfold read, slice. cbn [fst snd getvalue tell].
  rewrite (remaining_eq r Hr).
  set (n := if Size <? 0 then len (getvalue r) - tell r
            else Z.min Size (len (getvalue r) - tell r)).
  assert (Hn : n <= len (getvalue r) - tell r).
  { unfold n. destruct (Size <? 0); lia. }
  set (out := firstn (Z.to_nat n) (skipn (Z.to_nat (tell r)) (getvalue r))).
  assert (L : len out = Z.max 0 n).
  { unfold out, len in *. rewrite length_firstn, length_skipn. lia. }
  split; [reflexivity|]. split; [lia|]. split; [reflexivity|].
  rewrite L. replace (tell r + Z.max 0 n - tell r) with (Z.max 0 n) by lia.
  unfold out. f_equal. lia.
Qed.

Lemma read_stays_in_buffer_witness :
  tell (snd (read (-1) two_byte_reader)) = 2
  /\ fst (read (-1) two_byte_reader) = [x01; x02].
Proof.
  pose proof (read_stays_in_buffer two_byte_reader (-1)
                ltac:(vm_compute; split; discriminate)) as (_ & _ & H3 & H4).
  split; [exact H3 | exact H4].
Defined.

(** X2.  When at least [N] bytes are left, a read of [N] bytes returns
    exactly [N] bytes and advances the cursor by [N]; a read of negative size
    returns all the bytes left and moves the cursor to the end. *)
Theorem read_in_bounds_is_exact (r : BinaryReader) (N : Z) :
  0 <= tell r <= len (getvalue r) ->
  (0 <= N <= len (getvalue r) - tell r ->
   len (fst (read N r)) = N /\ tell (snd (read N r)) = tell r + N)
  /\ (N < 0 ->
      fst (read N r) = slice_from (tell r) (getvalue r)
      /\ tell (snd (read N r)) = len (getvalue r)).
Proof.
  intros Hr. split.
  - intros HN. destruct (read_spec r N Hr ltac:(lia)) as (_ & H2 & _ & H4).
    rewrite Z.min_l in H2, H4 by lia. auto.
  - intros HN. unfold read, slice_from. cbn [fst snd tell].
    destruct (Z.ltb_spec N 0) as [_|?]; [|lia].
    rewrite (remaining_eq r Hr).
    rewrite firstn_all2.
    2:{ unfold len in *. rewrite length_skipn. lia. }
    split; [reflexivity|]. unfold len in *. rewrite length_skipn. lia.
Qed.

Lemma read_in_bounds_is_exact_witness :
  len (fst (read 1 two_byte_reader)) = 1
  /\ tell (snd (read 1 two_byte_reader)) = 0 + 1.
Proof.
  exact (proj1 (read_in_bounds_is_exact two_byte_reader 1
                  ltac:(vm_compute; split; discriminate))
               ltac:(vm_compute; split; discriminate)).
Defined.

Lemma firstn_plus {A : Type} (n m : nat) (l : list A) :
  firstn (n + m) l = firstn n l ++ firstn m (skipn n l).
Proof.
  revert l. induction n as [|n IH]; intros l; [reflexivity|].
  destruct l as [|x l]; simpl.
  - now rewrite firstn_nil.
  - now rewrite IH.
Qed.

Lemma slice_split (a n1 n2 : Z) (b : bytes) :
  0 <= a -> 0 <= n1 -> 0 <= n2 ->
  slice a (a + (n1 + n2)) b
  = slice a (a + n1) b ++ slice (a + n1) (a + n1 + n2) b.
Proof.
  intros Ha H1 H2. unfold slice.
  replace (a + (n1 + n2) - a) with (n1 + n2) by lia.
  replace (a + n1 - a) with n1 by lia.
  replace (a + n1 + n2 - (a + n1)) with n2 by lia.
  rewrite Z2Nat.inj_add by lia. rewrite firstn_plus.
  rewrite skipn_skipn. do 3 f_equal. lia.
Qed.

(** X3.  Two consecutive reads of [N] and [M] bytes return, together, what
    one read of [N + M] bytes returns, and leave the cursor at the same
    place; so [Skip N] followed by a read is a longer read with its first
    [N] bytes dropped. *)
Theorem read_then_read (r : BinaryReader) (N M : Z) :
  0 <= tell r <= len (getvalue r) -> 0 <= N -> 0 <= M ->
  read (N + M) r
  = (fst (read N r) ++ fst (read M (snd (read N r))),
     snd (read M (snd (read N r)))).
Proof.
  intros Hr HN HM.
  destruct (read_spec r N Hr HN) as (S1 & _ & G1 & T1).
  assert (Hr1 : 0 <= tell (snd (read N r)) <= len (getvalue (snd (read N r)))).
  { rewrite G1, T1. lia. }
  destruct (read_spec (snd (read N r)) M Hr1 HM) as (S2 & _ & G2 & T2).
  destruct (read_spec r (N + M) Hr ltac:(lia)) as (S3 & _ & G3 & T3).
  rewrite G1, T1 in S2, T2. rewrite G1 in G2.
  set (R := len (getvalue r) - tell r) in *.
  set (n1 := Z.min N R) in *.
  set (n2 := Z.min M (len (getvalue r) - (tell r + n1))) in *.
  assert (E3 : Z.min (N + M) R = n1 + n2) by (unfold n1, n2, R; lia).
  rewrite E3 in S3, T3.
  rewrite (surjective_pairing (read (N + M) r)). f_equal.
  - rewrite S1, S2, S3. apply slice_split; unfold n1, n2, R; lia.
  - destruct (snd (read (N + M) r)) as [b3 p3].
    destruct (snd (read M (snd (read N r)))) as [b2 p2].
    cbn [getvalue tell] in *. subst b3 b2. f_equal. lia.
Qed.

Lemma read_then_read_witness :
  read (1 + 1) two_byte_reader
  = (fst (read 1 two_byte_reader)
     ++ fst (read 1 (snd (read 1 two_byte_reader))),
     snd (read 1 (snd (read 1 two_byte_reader)))).
Proof.
  exact (read_then_read two_byte_reader 1 1
           ltac:(vm_compute; split; discriminate)
           ltac:(discriminate) ltac:(discriminate)).
Defined.

Lemma from_bytes_unsigned_bound (b : bytes) :
  0 <= from_bytes_unsigned b < 2 ^ (8 * len b).
Proof.
  induction b as [|x b IH].
  - cbn. lia.
  - cbn [from_bytes_unsigned].
    replace (len (x :: b)) with (1 + len b)
      by (unfold len; cbn [List.length]; lia).
    replace (8 * (1 + len b)) with (8 + 8 * len b) by lia.
    rewrite Z.pow_add_r by (pose proof (len_nonneg b); lia).
    pose proof (Byte.to_N_bounded x) as Hx.
    change (2 ^ 8) with 256. lia.
Qed.

Lemma from_bytes_signed_bound (b : bytes) :
  b <> [] ->
  - 2 ^ (8 * len b - 1) <= from_bytes_signed b < 2 ^ (8 * len b - 1)
  /\ (from_bytes_signed b) mod 2 ^ (8 * len b) = from_bytes_unsigned b.
Proof.
  intros Hb. pose proof (from_bytes_unsigned_bound b) as Hu.
  assert (Hl : 1 <= len b).
  { destruct b; [congruence|]. unfold len. cbn [List.length]. lia. }
  assert (E : 2 ^ (8 * len b) = 2 * 2 ^ (8 * len b - 1)).
  { replace (8 * len b) with (1 + (8 * len b - 1)) at 1 by lia.
    rewrite Z.pow_add_r by lia. reflexivity. }
  unfold from_bytes_signed. destruct b as [|x b']; [congruence|].
  set (b := x :: b') in *.
  destruct (Z.leb_spec (2 ^ (8 * len b - 1)) (from_bytes_unsigned b)).
  - split; [lia|].
    symmetry. apply Z.mod_unique with (q := -1); lia.
  - split; [lia|]. apply Z.mod_small. lia.
Qed.

Lemma read_length_le (N : Z) (r : BinaryReader) :
  0 <= N -> len (fst (read N r)) <= N.
Proof.
  intros HN. unfold read, remaining. cbn [fst].
  destruct (Z.ltb_spec N 0) as [?|_]; [lia|].
  unfold len. rewrite length_firstn. lia.
Qed.

(** X4.  Whatever the cursor and however few bytes are left, the unsigned
    readers return a value below 2^8, 2^16 and 2^32, and the signed readers
    a value in the two's-complement range of 8, 16 and 32 bits. *)
Theorem integer_readers_ranges (r : BinaryReader) :
  0 <= fst (ReadUchar r) < 2 ^ 8
  /\ 0 <= fst (ReadUshort r) < 2 ^ 16
  /\ 0 <= fst (ReadUint r) < 2 ^ 32
  /\ - 2 ^ 7 <= fst (ReadChar r) < 2 ^ 7
  /\ - 2 ^ 15 <= fst (ReadShort r) < 2 ^ 15
  /\ - 2 ^ 31 <= fst (ReadInt r) < 2 ^ 31.
Proof.
  assert (U : forall N, 0 <= N ->
              0 <= from_bytes_unsigned (fst (read N r)) < 2 ^ (8 * N)).
  { intros N HN. pose proof (from_bytes_unsigned_bound (fst (read N r))) as H.
    pose proof (read_length_le N r HN) as HL.
    pose proof (len_nonneg (fst (read N r))).
    assert (2 ^ (8 * len (fst (read N r))) <= 2 ^ (8 * N))
      by (apply Z.pow_le_mono_r; lia).
    lia. }
  assert (S : forall N, 1 <= N ->
              - 2 ^ (8 * N - 1) <= from_bytes_signed (fst (read N r))
              < 2 ^ (8 * N - 1)).
  { intros N HN. pose proof (read_length_le N r ltac:(lia)) as HL.
    destruct (fst (read N r)) as [|x b'] eqn:Eb.
    - change (from_bytes_signed []) with 0.
      assert (0 < 2 ^ (8 * N - 1)) by (apply Z.pow_pos_nonneg; lia). lia.
    - destruct (from_bytes_signed_bound (x :: b') ltac:(discriminate))
        as [H _].
      assert (1 <= len (x :: b'))
        by (unfold len; cbn [List.length]; lia).
      assert (2 ^ (8 * len (x :: b') - 1) <= 2 ^ (8 * N - 1))
        by (apply Z.pow_le_mono_r; lia).
      lia. }
  unfold ReadUchar, ReadUshort, ReadUint, ReadChar, ReadShort, ReadInt.
  pose proof (U 1 ltac:(lia)) as U1. pose proof (U 2 ltac:(lia)) as U2.
  pose proof (U 4 ltac:(lia)) as U4.
  pose proof (S 1 ltac:(lia)) as S1. pose proof (S 2 ltac:(lia)) as S2.
  pose proof (S 4 ltac:(lia)) as S4.
  destruct (read 1 r), (read 2 r), (read 4 r). cbn [fst] in *.
  change (8 * 1) with 8 in *. change (8 * 2) with 16 in *.
  change (8 * 4) with 32 in *. change (8 - 1) with 7 in *.
  change (16 - 1) with 15 in *. change (32 - 1) with 31 in *.
  repeat split; lia.
Qed.

(** X5.  On the same bytes the signed reading and the unsigned reading of a
    reader agree modulo 2^(8k), [k] being the number of bytes read; so
    [ReadInt] is [ReadUint] wrapped to 32 bits when four bytes are left. *)
Theorem signed_is_unsigned_wrapped (r : BinaryReader) :
  4 <= len (getvalue r) - tell r -> 0 <= tell r ->
  fst (ReadInt r) mod 2 ^ 32 = fst (ReadUint r)
  /\ (fst (ReadInt r) = fst (ReadUint r)
      \/ fst (ReadInt r) = fst (ReadUint r) - 2 ^ 32)
  /\ snd (ReadInt r) = snd (ReadUint r).
Proof.
  intros H4 H0.
  destruct (read_spec r 4 ltac:(lia) ltac:(lia)) as (_ & HL & _ & _).
  rewrite Z.min_l in HL by lia.
  unfold ReadInt, ReadUint. destruct (read 4 r) as [b r'] eqn:E.
  cbn [fst snd] in *.
  assert (Hb : b <> []) by (intros ->; discriminate HL).
  destruct (from_bytes_signed_bound b Hb) as [_ Hm]. rewrite HL in Hm.
  change (8 * 4) with 32 in Hm.
  split; [exact Hm|]. split; [|reflexivity].
  unfold from_bytes_signed. destruct b; [congruence|].
  rewrite HL. change (8 * 4) with 32.
  destruct (_ <=? _); auto.
Qed.

Lemma signed_is_unsigned_wrapped_witness :
  fst (ReadInt (BinaryReader_init [xff; xff; xff; xff])) mod 2 ^ 32
  = fst (ReadUint (BinaryReader_init [xff; xff; xff; xff])).
Proof.
  exact (proj1 (signed_is_unsigned_wrapped
                  (BinaryReader_init [xff; xff; xff; xff])
                  ltac:(vm_compute; discriminate)
                  ltac:(vm_compute; discriminate))).
Defined.

(** ** The catalogue, continued *)

(** X6.  No two members of [ScPixel] share a value: looking a member's value
    up gives the member back, and a successful lookup of [n] gives a member
    of value [n].  The parser stores a recognised code as that member (the
    code 70 as [RGBA8Unorm_70]). *)
Theorem ScPixel_lookup_round_trip :
  (forall p : ScPixel.t, ScPixel.of_value (ScPixel.value p) = Some p)
  /\ (forall (n : Z) (p : ScPixel.t),
        ScPixel.of_value n = Some p ->
        ScPixel.value p = n
        /\ forall (W H : Z) (s : SCTX),
             (exists l,
                 ReadStreamingData_new_Texture n W H s
                 = mkOutcome (inr tt)
                     (set_Texture (Some (Texture_init (Enum p) W H)) s) l)
             /\ ReadStreamingTexture_new_Texture n W H s
                = mkOutcome (inr tt)
                    (set_StreamingTexture (Some (Texture_init (Enum p) W H)) s)
                    []).
Proof.
  split.
  - intros p. destruct p; reflexivity.
  - intros n p Hn.
    assert (Hv : ScPixel.value p = n).
    { unfold ScPixel.of_value in Hn. apply find_some in Hn.
      destruct Hn as [_ Hn]. now apply Z.eqb_eq in Hn. }
    split; [exact Hv|]. clear Hv. intros W H s.
    unfold ReadStreamingData_new_Texture, ReadStreamingTexture_new_Texture,
      ScPixel_call.
    rewrite Hn.
    destruct (int_in n AstcFormatIds).
    + split; [eexists|]; reflexivity.
    + destruct (Z.eqb_spec n 70) as [E|E].
      * subst n.
        change (ScPixel.of_value 70) with (Some ScPixel.RGBA8Unorm_70) in Hn.
        injection Hn as <-. split; [eexists|]; reflexivity.
      * split; [eexists|]; reflexivity.
Qed.

Lemma ScPixel_lookup_round_trip_witness :
  ScPixel.value ScPixel.RGBA8Unorm_70 = 70.
Proof.
  exact (proj1 (proj2 ScPixel_lookup_round_trip 70 ScPixel.RGBA8Unorm_70
                  eq_refl)).
Defined.

(** The classification of a raw code outside the ASTC bands and other than
    70, member of the enumeration or not. *)
Lemma raw_code_predicates (t : Texture) (n : Z) :
  PixelType t = Raw n -> int_in n AstcFormatIds = false -> (n =? 70) = false ->
  GetFormatName t = ("UNKNOWN (" ++ str n ++ ")")%string
  /\ IsAstc t = false /\ IsEtc t = false /\ IsPvrtc t = false
  /\ IsUncompressed t = false.
Proof.
  intros Hp Hb H70.
  assert (HN : GetFormatName t = ("UNKNOWN (" ++ str n ++ ")")%string).
  { unfold GetFormatName. rewrite Hp, Hb, H70. reflexivity. }
  assert (HA : IsAstc t = false).
  { unfold IsAstc. rewrite HN, Hp, Hb.
    rewrite str_in_unknown by reflexivity. reflexivity. }
  assert (HE : IsEtc t = false).
  { unfold IsEtc. rewrite HN, !str_in_unknown by reflexivity. reflexivity. }
  assert (HV : IsPvrtc t = false).
  { unfold IsPvrtc. rewrite HN. apply str_in_unknown; reflexivity. }
  repeat (split; [assumption|]).
  unfold IsUncompressed. rewrite HA, HE, HV, HN. cbn [orb].
  apply existsb_false.
  repeat constructor; apply str_in_unknown; reflexivity.
Qed.

(** X7.  No texture, whatever its pixel type (member or raw integer), is
    classified in two of the four families ASTC, ETC/EAC, PVRTC and
    uncompressed; and every member of the enumeration is classified in
    one. *)
Theorem families_are_exclusive (t : Texture) :
  IsAstc t && IsEtc t = false
  /\ IsAstc t && IsPvrtc t = false
  /\ IsEtc t && IsPvrtc t = false
  /\ IsUncompressed t && (IsAstc t || IsEtc t || IsPvrtc t) = false
  /\ (forall p, PixelType t = Enum p ->
        IsAstc t || IsEtc t || IsPvrtc t || IsUncompressed t = true).
Proof.
  assert (U : IsUncompressed t && (IsAstc t || IsEtc t || IsPvrtc t) = false).
  { unfold IsUncompressed.
    destruct (IsAstc t || IsEtc t || IsPvrtc t); [reflexivity|].
    apply andb_false_r. }
  destruct (PixelType t) as [p|n] eqn:Hp.
  - assert (E : forall f : Texture -> bool,
               (forall a b, PixelType a = PixelType b -> f a = f b) ->
               f t = f (Texture_init (Enum p) 0 0)).
    { intros f Hf. apply Hf. exact Hp. }
    rewrite (E IsAstc) in * by (intros; now apply IsAstc_same).
    rewrite (E IsEtc) in * by (intros; now apply IsEtc_same).
    rewrite (E IsPvrtc) in * by (intros; now apply IsPvrtc_same).
    rewrite (E IsUncompressed) in * by (intros; now apply IsUncompressed_same).
    repeat split; try (destruct p; reflexivity).
  - split; [|split; [|split; [|split; [exact U | discriminate]]]].
    all: destruct (int_in n AstcFormatIds) eqn:Hb;
      [ apply int_in_spec in Hb; cbv in Hb;
        unfold IsAstc, IsEtc, IsPvrtc, GetFormatName; rewrite Hp;
        repeat (destruct Hb as [<-|Hb]; [reflexivity|]); contradiction
      | destruct (n =? 70) eqn:H70;
        [ apply Z.eqb_eq in H70; subst n;
          unfold IsAstc, IsEtc, IsPvrtc, GetFormatName; rewrite Hp;
          reflexivity
        | destruct (raw_code_predicates t n Hp Hb H70)
            as (_ & HA & HE & HV & _);
          rewrite ?HA, ?HE, ?HV; reflexivity ] ].
Qed.

Lemma families_are_exclusive_witness :
  IsAstc (Texture_init (Enum ScPixel.RGBA8) 1 1)
  || IsEtc (Texture_init (Enum ScPixel.RGBA8) 1 1)
  || IsPvrtc (Texture_init (Enum ScPixel.RGBA8) 1 1)
  || IsUncompressed (Texture_init (Enum ScPixel.RGBA8) 1 1) = true.
Proof.
  exact (proj2 (proj2 (proj2 (proj2
           (families_are_exclusive (Texture_init (Enum ScPixel.RGBA8) 1 1)))))
           ScPixel.RGBA8 eq_refl).
Defined.

Lemma expected_size_blocks_nonzero (p : ScPixel.t) (bw bh w h : Z) :
  Catalogue.block_footprint p = Some (bw, bh) -> w <> 0 -> h <> 0 ->
  CalculateExpectedSize (Texture_init (Enum p) w h)
  = (w + bw - 1) / bw * ((h + bh - 1) / bh) * Catalogue.bytes_per_block p.
Proof.
  intros Hp Hw Hh.
  destruct w as [|w|w]; try contradiction; destruct h as [|h|h];
    try contradiction;
    destruct p; simpl in Hp; try discriminate Hp;
    injection Hp as <- <-; try reflexivity;
    match goal with
    | |- _ = (?a + 4 - 1) / 4 * ((?b + 4 - 1) / 4) * _ =>
        replace (a + 4 - 1) with (a + 3) by lia;
        replace (b + 4 - 1) with (b + 3) by lia
    end; reflexivity.
Qed.

Lemma enum_block_families (p : ScPixel.t) (w h : Z) :
  IsAstc (Texture_init (Enum p) w h) || IsEtc (Texture_init (Enum p) w h)
  = match Catalogue.block_footprint p with
       | Some _ => true
       | None => false
       end
  /\ IsPvrtc (Texture_init (Enum p) w h) = Catalogue.is_pvrtc p.
Proof. destruct p; split; reflexivity. Qed.

Lemma expected_size_raw_astc (n w h : Z) :
  int_in n AstcFormatIds = true ->
  match ScPixel.of_value n with
  | Some p =>
      exists bw bh, Catalogue.block_footprint p = Some (bw, bh)
        /\ (w <> 0 -> h <> 0 ->
            CalculateExpectedSize (Texture_init (Raw n) w h)
            = (w + bw - 1) / bw * ((h + bh - 1) / bh) * 16)
  | None =>
      (n = 191 \/ n = 209)
      /\ CalculateExpectedSize (Texture_init (Raw n) w h) = 0
  end.
Proof.
  intros Hb. apply int_in_spec in Hb. cbv in Hb.
  repeat (destruct Hb as [<-|Hb];
          [ match goal with
            | |- context [ScPixel.of_value ?k] =>
                let v := eval vm_compute in (ScPixel.of_value k) in
                change (ScPixel.of_value k) with v; cbv beta iota
            end;
            first [ do 2 eexists; split; [reflexivity|];
                    intros Hw Hh;
                    destruct w as [|w|w]; try contradiction;
                    destruct h as [|h|h]; try contradiction; reflexivity
                  | split; [auto|];
                    unfold CalculateExpectedSize;
                    destruct ((Width (Texture_init _ w h) =? 0)
                              || (Height (Texture_init _ w h) =? 0));
                    reflexivity ] | ]);
    contradiction.
Qed.

Lemma raw_block_families (t : Texture) (n : Z) :
  PixelType t = Raw n ->
  IsAstc t = int_in n AstcFormatIds /\ IsEtc t = false /\ IsPvrtc t = false.
Proof.
  intros Hp. destruct (int_in n AstcFormatIds) eqn:Hb.
  - apply int_in_spec in Hb; cbv in Hb.
    unfold IsAstc, IsEtc, IsPvrtc, GetFormatName; rewrite Hp.
    repeat (destruct Hb as [<-|Hb]; [repeat split; reflexivity|]).
    contradiction.
  - destruct (n =? 70) eqn:H70.
    + apply Z.eqb_eq in H70; subst n.
      unfold IsAstc, IsEtc, IsPvrtc, GetFormatName; rewrite Hp.
      repeat split; reflexivity.
    + destruct (raw_code_predicates t n Hp Hb H70) as (_ & HA & HE & HV & _).
      repeat split; assumption.
Qed.

Lemma predicates_shape (t : Texture) :
  IsAstc t = IsAstc (Texture_init (PixelType t) (Width t) (Height t))
  /\ IsEtc t = IsEtc (Texture_init (PixelType t) (Width t) (Height t))
  /\ IsPvrtc t = IsPvrtc (Texture_init (PixelType t) (Width t) (Height t)).
Proof. repeat split; reflexivity. Qed.

(** C10 (counterexample).  An 8x8 EAC_RG11 texture has 2 x 2 blocks; the
    calculator charges 8 bytes for each and returns 32, not the 64 bytes that
    16 bytes per block would give.  An 8x8 texture of raw code 191, which
    [IsAstc] accepts, and an 8x8 PVRTC texture get 0. *)
Lemma expected_size_block_compressed_counterexample :
  (CalculateExpectedSize (Texture_init (Enum ScPixel.EAC_RG11) 8 8) = 32
   /\ CalculateExpectedSize (Texture_init (Enum ScPixel.EAC_RG11) 8 8)
      <> ceil_div 8 4 * ceil_div 8 4 * 16)
  /\ (IsAstc (Texture_init (Raw 191) 8 8) = true
      /\ CalculateExpectedSize (Texture_init (Raw 191) 8 8) = 0)
  /\ (IsPvrtc (Texture_init (Enum ScPixel.PVRTC1_RGBA4) 8 8) = true
      /\ CalculateExpectedSize (Texture_init (Enum ScPixel.PVRTC1_RGBA4) 8 8)
         = 0).
Proof.
  split; [split; [reflexivity | discriminate]|].
  split; split; reflexivity.
Qed.

(** C10 (amended).  When the pixel type of a texture is a member of the
    enumeration: it is classified ASTC or ETC/EAC exactly when the member
    has a block footprint, and then, for nonzero dimensions, the calculator
    returns ceil(width / blockWidth) x ceil(height / blockHeight) x
    bytes-per-block, where bytes-per-block is 16 for ASTC and for the
    RGBA-bearing ETC2 formats (ETC2_EAC_RGBA8, ETC2_EAC_SRGBA8) and 8 for
    every other ETC/EAC format, the dual-channel EAC_RG11 and
    EAC_SIGNED_RG11 included; it is classified PVRTC exactly when the member
    is a PVRTC format, and then the calculator returns 0.  When the pixel
    type is a raw code: it is never ETC/EAC or PVRTC, it is ASTC exactly
    when the code is in the ASTC bands, and then the calculator returns,
    for nonzero dimensions, the same product with 16 bytes per block and
    the footprint of the member of that value, or 0 for the two codes of
    the bands that name no member, 191 and 209. *)
Theorem expected_size_block_compressed (t : Texture) :
  (forall p : ScPixel.t, PixelType t = Enum p ->
     IsAstc t || IsEtc t
     = match Catalogue.block_footprint p with
       | Some _ => true
       | None => false
       end
     /\ IsPvrtc t = Catalogue.is_pvrtc p
     /\ (forall bw bh : Z,
           Catalogue.block_footprint p = Some (bw, bh) ->
           Width t <> 0 -> Height t <> 0 ->
           CalculateExpectedSize t
           = ceil_div (Width t) bw * ceil_div (Height t) bh
             * Catalogue.bytes_per_block p)
     /\ (Catalogue.is_pvrtc p = true -> CalculateExpectedSize t = 0))
  /\ (forall n : Z, PixelType t = Raw n ->
        IsAstc t = int_in n AstcFormatIds
        /\ IsEtc t = false /\ IsPvrtc t = false
        /\ (int_in n AstcFormatIds = true ->
            match ScPixel.of_value n with
            | Some p =>
                exists bw bh : Z,
                  Catalogue.block_footprint p = Some (bw, bh)
                  /\ (Width t <> 0 -> Height t <> 0 ->
                      CalculateExpectedSize t
                      = ceil_div (Width t) bw * ceil_div (Height t) bh * 16)
            | None =>
                (n = 191 \/ n = 209) /\ CalculateExpectedSize t = 0
            end)).
Proof.
  split.
  - intros p Hp.
    destruct (predicates_shape t) as (EA & EE & EV).
    rewrite EA, EE, EV, CalculateExpectedSize_shape, Hp.
    destruct (enum_block_families p (Width t) (Height t)) as [Hf Hv].
    split; [exact Hf|]. split; [exact Hv|]. split.
    + intros bw bh Hb Hw Hh.
      destruct (block_footprint_pos p bw bh Hb) as [Hbw Hbh].
      rewrite (expected_size_blocks_nonzero p bw bh) by assumption.
      rewrite !ceil_div_code by assumption. reflexivity.
    + apply expected_size_pvrtc.
  - intros n Hp.
    destruct (raw_block_families t n Hp) as (HA & HE & HV).
    split; [exact HA|]. split; [exact HE|]. split; [exact HV|].
    intros Hb. rewrite CalculateExpectedSize_shape, Hp.
    pose proof (expected_size_raw_astc n (Width t) (Height t) Hb) as R.
    destruct (ScPixel.of_value n) as [p|]; [|exact R].
    destruct R as (bw & bh & Hf & R). exists bw, bh. split; [exact Hf|].
    intros Hw Hh.
    destruct (block_footprint_pos p bw bh Hf) as [Hbw Hbh].
    rewrite (R Hw Hh), !ceil_div_code by assumption. reflexivity.
Qed.

Lemma expected_size_block_compressed_witness :
  CalculateExpectedSize (Texture_init (Enum ScPixel.ASTC_RGBA8_6x5) 260 130)
  = 18304
  /\ CalculateExpectedSize (Texture_init (Enum ScPixel.EAC_RG11) 260 130)
     = ceil_div 260 4 * ceil_div 130 4 * 8
  /\ CalculateExpectedSize (Texture_init (Enum ScPixel.PVRTC1_RGBA4) 8 8) = 0
  /\ (exists bw bh : Z,
        Catalogue.block_footprint ScPixel.ASTC_SRGBA8_4x4 = Some (bw, bh)
        /\ CalculateExpectedSize (Texture_init (Raw 186) 8 8)
           = ceil_div 8 bw * ceil_div 8 bh * 16)
  /\ CalculateExpectedSize (Texture_init (Raw 191) 8 8) = 0.
Proof.
  split; [|split; [|split; [|split]]].
  - exact (proj1 (proj2 (proj2 (proj1 (expected_size_block_compressed
                    (Texture_init (Enum ScPixel.ASTC_RGBA8_6x5) 260 130))
                    ScPixel.ASTC_RGBA8_6x5 eq_refl)))
                 6 5 eq_refl ltac:(discriminate) ltac:(discriminate)).
  - exact (proj1 (proj2 (proj2 (proj1 (expected_size_block_compressed
                    (Texture_init (Enum ScPixel.EAC_RG11) 260 130))
                    ScPixel.EAC_RG11 eq_refl)))
                 4 4 eq_refl ltac:(discriminate) ltac:(discriminate)).
  - exact (proj2 (proj2 (proj2 (proj1 (expected_size_block_compressed
                    (Texture_init (Enum ScPixel.PVRTC1_RGBA4) 8 8))
                    ScPixel.PVRTC1_RGBA4 eq_refl)))
                 eq_refl).
  - destruct (proj2 (proj2 (proj2 (proj2 (expected_size_block_compressed
                       (Texture_init (Raw 186) 8 8))
                       186 eq_refl))) eq_refl)
      as (bw & bh & Hf & Hsize).
    exists bw, bh. split; [exact Hf|]. apply Hsize; discriminate.
  - exact (proj2 (proj2 (proj2 (proj2 (proj2 (expected_size_block_compressed
                    (Texture_init (Raw 191) 8 8))
                    191 eq_refl))) eq_refl)).
Defined.

Lemma AstcBlockSizes_positive (item : string * (Z * Z)) :
  In item AstcBlockSizes -> 0 < fst (snd item) /\ 0 < snd (snd item).
Proof.
  intros H. cbv [AstcBlockSizes In] in H.
  repeat (destruct H as [<-|H]; [cbn; lia|]). contradiction.
Qed.

Lemma CalculateExpectedSize_nonneg (t : Texture) :
  0 <= Width t -> 0 <= Height t -> 0 <= CalculateExpectedSize t.
Proof.
  intros Hw Hh. unfold CalculateExpectedSize.
  destruct ((Width t =? 0) || (Height t =? 0)); [lia|].
  destruct (IsAstc t).
  - destruct (find _ AstcBlockSizes) as [[pat [Bw Bh]]|] eqn:F; [|lia].
    apply find_some in F. destruct F as [F _].
    apply AstcBlockSizes_positive in F. cbn [fst snd] in F.
    assert (0 <= (Width t + Bw - 1) / Bw) by (apply Z.div_pos; lia).
    assert (0 <= (Height t + Bh - 1) / Bh) by (apply Z.div_pos; lia).
    nia.
  - assert (0 <= (Width t + 3) / 4) by (apply Z.div_pos; lia).
    assert (0 <= (Height t + 3) / 4) by (apply Z.div_pos; lia).
    repeat match goal with
           | |- context [if ?b then _ else _] => destruct b
           end; nia.
Qed.

(** X8.  For non-negative dimensions the expected size is never negative;
    it is 0 when a dimension is 0 and for every code that is not a member of
    the enumeration. *)
Theorem expected_size_nonnegative (t : Texture) :
  0 <= Width t -> 0 <= Height t ->
  0 <= CalculateExpectedSize t
  /\ (Width t = 0 \/ Height t = 0 -> CalculateExpectedSize t = 0)
  /\ (forall n, PixelType t = Raw n -> ScPixel.of_value n = None ->
        CalculateExpectedSize t = 0).
Proof.
  intros Hw Hh. split; [|split].
  - apply CalculateExpectedSize_nonneg; assumption.
  - intros H0. unfold CalculateExpectedSize.
    destruct H0 as [-> | ->]; [reflexivity|].
    rewrite Z.eqb_refl, orb_true_r. reflexivity.
  - intros n Hp Hn. unfold CalculateExpectedSize.
    destruct ((Width t =? 0) || (Height t =? 0)); [reflexivity|].
    destruct (unrecognized_predicates t n Hp Hn) as (HE & HV & HU & _ & HA).
    destruct (IsAstc t) eqn:EA.
    + destruct (proj1 HA eq_refl) as [-> | ->];
        unfold GetFormatName; rewrite Hp; reflexivity.
    + rewrite HE, HU. reflexivity.
Qed.

Lemma expected_size_nonnegative_witness :
  0 <= CalculateExpectedSize (Texture_init (Raw 9999) 4 4)
  /\ CalculateExpectedSize (Texture_init (Raw 9999) 4 4) = 0.
Proof.
  pose proof (expected_size_nonnegative (Texture_init (Raw 9999) 4 4)
                ltac:(discriminate) ltac:(discriminate)) as (H1 & _ & H3).
  split; [exact H1 | exact (H3 9999 eq_refl eq_refl)].
Defined.

(** ** The memoised methods of [Texture] *)

(** X9.  [IsCompressedData] is memoised: after a first call the flag holds
    the answer, and a second call returns the same answer, leaves the
    texture as it is, logs nothing and does not depend on the decompressor
    (it makes no trial decompression). *)
Theorem IsCompressedData_memoised zstd zstd' (t : Texture) :
  exists b,
    result (IsCompressedData zstd t) = inr b
    /\ IsCompressedDataFlag (final (IsCompressedData zstd t)) = Some b
    /\ IsCompressedData zstd' (final (IsCompressedData zstd t))
       = mkOutcome (inr b) (final (IsCompressedData zstd t)) [].
Proof.
  assert (M : forall t0 b, IsCompressedDataFlag t0 = Some b ->
              IsCompressedData zstd' t0 = mkOutcome (inr b) t0 []).
  { intros t0 b H. unfold IsCompressedData. run_monad. rewrite H.
    reflexivity. }
  assert (K : exists b, result (IsCompressedData zstd t) = inr b
              /\ IsCompressedDataFlag (final (IsCompressedData zstd t))
                 = Some b).
  { unfold IsCompressedData. run_monad.
    destruct (IsCompressedDataFlag t) as [flag|] eqn:EF.
    - exists flag. split; [reflexivity | exact EF].
    - destruct (Data t) as [[|x d]|] eqn:ED;
        repeat (match goal with
                | |- context [zstd ?a ?b] => destruct (zstd a b) eqn:?
                | |- context [if ?b then _ else _] => destruct b eqn:?
                end; proj_red);
        eexists; split; reflexivity. }
  destruct K as (b & H1 & H2). exists b. auto.
Qed.

(** X10.  Detection by signature: on a texture not yet examined, data of at
    least four bytes that starts with the Zstandard magic number is reported
    compressed, and absent data or data under four bytes is reported not
    compressed, in both cases without calling the decompressor. *)
Theorem IsCompressedData_by_signature zstd (t : Texture) :
  IsCompressedDataFlag t = None ->
  (forall d, Data t = Some d -> 4 <= len d -> slice 0 4 d = ZstdMagic ->
     IsCompressedData zstd t
     = mkOutcome (inr true) (set_IsCompressedDataFlag (Some true) t) [])
  /\ ((forall d, Data t = Some d -> len d < 4) ->
      IsCompressedData zstd t
      = mkOutcome (inr false) (set_IsCompressedDataFlag (Some false) t) []).
Proof.
  intros HF. split.
  - intros d HD Hl Hm. unfold IsCompressedData. run_monad. rewrite HF, HD.
    destruct d as [|x d]; [discriminate Hm|].
    destruct (Z.ltb_spec (len (x :: d)) 4) as [?|_]; [lia|].
    rewrite Hm. reflexivity.
  - intros Hs. unfold IsCompressedData. run_monad. rewrite HF.
    destruct (Data t) as [[|x d]|] eqn:ED; try reflexivity.
    specialize (Hs _ eq_refl).
    destruct (Z.ltb_spec (len (x :: d)) 4) as [_|?]; [reflexivity | lia].
Qed.

Lemma IsCompressedData_by_signature_witness :
  IsCompressedData zstd_rejects
    (texture_of (Enum ScPixel.RGBA8) 2 2 small_magic_file)
  = mkOutcome (inr true)
      (set_IsCompressedDataFlag (Some true)
         (texture_of (Enum ScPixel.RGBA8) 2 2 small_magic_file)) [].
Proof.
  exact (proj1 (IsCompressedData_by_signature zstd_rejects
                  (texture_of (Enum ScPixel.RGBA8) 2 2 small_magic_file)
                  eq_refl)
               small_magic_file eq_refl ltac:(discriminate) eq_refl).
Defined.

(** X11.  [DecompressData] never raises and changes nothing but the two
    memos.  A memoised value is returned as it is.  Otherwise
    [IsCompressedData] is asked: for data it reports as not compressed the
    method returns and memoises the data themselves; for data it reports as
    compressed the decompressor is called on them under the ceiling 3 x the
    expected size (100 MiB when that is 0), and its output is returned,
    memoised and logged, or, when it raises, the data themselves are
    returned and memoised.  For non-negative dimensions the ceiling is
    positive. *)
Theorem DecompressData_under_budget zstd (t : Texture) :
  (0 <= Width t -> 0 <= Height t -> 0 < decompression_budget t)
  /\ (forall m, DecompressedData t = Some m ->
        DecompressData zstd t = mkOutcome (inr (Some m)) t [])
  /\ (DecompressedData t = None ->
      exists (b : bool) (t1 : Texture) (l1 : list LogRecord),
        IsCompressedData zstd t = mkOutcome (inr b) t1 l1
        /\ same_texture t t1
        /\ (b = false ->
            DecompressData zstd t
            = mkOutcome (inr (Data t)) (set_DecompressedData (Data t) t1) l1)
        /\ (b = true -> Data t = None ->
            DecompressData zstd t
            = mkOutcome (inr None) (set_DecompressedData None t1) l1)
        /\ (b = true -> forall data, Data t = Some data ->
            DecompressData zstd t
            = match zstd data (Some (decompression_budget t)) with
              | inr out =>
                  mkOutcome (inr (Some out))
                    (set_DecompressedData (Some out) t1)
                    (l1 ++ [(INFO, ("Successfully decompressed: "
                                    ++ str (len data) ++ " -> "
                                    ++ str (len out) ++ " bytes")%string)])
              | inl _ =>
                  mkOutcome (inr (Some data))
                    (set_DecompressedData (Some data) t1) l1
              end)).
Proof.
  split; [|split].
  - intros Hw Hh. unfold decompression_budget.
    pose proof (CalculateExpectedSize_nonneg t Hw Hh) as H0.
    destruct (Z.eqb_spec (CalculateExpectedSize t * 3) 0); lia.
  - intros m EM. unfold DecompressData. run_monad. rewrite EM. reflexivity.
  - intros EM.
    destruct (IsCompressedData_run zstd t) as (b & t1 & l1 & E1 & Hs & _).
    exists b, t1, l1. split; [exact E1|]. split; [exact Hs|].
    unfold DecompressData. run_monad. rewrite EM, E1.
    split; [|split].
    + intros ->. proj_red. rewrite app_nil_r. reflexivity.
    + intros -> ED. proj_red. rewrite ED. proj_red.
      rewrite ?app_nil_r. reflexivity.
    + intros -> data ED. proj_red. rewrite ED. proj_red.
      fold (decompression_budget t).
      destruct (zstd data (Some (decompression_budget t))) as [e|out];
        proj_red; rewrite ?app_nil_r; reflexivity.
Qed.

Lemma DecompressData_under_budget_witness :
  0 < decompression_budget
        (texture_of (Enum ScPixel.PVRTC1_RGB2) 4 4 small_magic_file)
  /\ result (DecompressData zstd_zeros
               (texture_of (Enum ScPixel.PVRTC1_RGB2) 4 4 small_magic_file))
     = inr (Some [x00; x00; x00]).
Proof.
  destruct (DecompressData_under_budget zstd_zeros
              (texture_of (Enum ScPixel.PVRTC1_RGB2) 4 4 small_magic_file))
    as (Hb & _ & H).
  split; [apply Hb; discriminate|].
  destruct (H eq_refl) as (b & t1 & l1 & E & _ & _ & _ & Hz).
  assert (Eb : b = true) by (vm_compute in E; congruence).
  rewrite (Hz Eb small_magic_file eq_refl). reflexivity.
Defined.

(** ** The payload locator, continued *)

Lemma bytes_eqb_eq (a b : bytes) : bytes_eqb a b = true <-> a = b.
Proof.
  split.
  - revert b. induction a as [|x a IH]; intros [|y b] H;
      try reflexivity; try discriminate H.
    cbn [bytes_eqb] in H. apply andb_true_iff in H. destruct H as [Hx Hb].
    apply Byte.byte_dec_bl in Hx. f_equal; auto.
  - intros ->. apply bytes_eqb_refl.
Qed.

Lemma slice_as_firstn (i : Z) (b : bytes) :
  slice i (i + 4) b = firstn 4 (skipn (Z.to_nat i) b).
Proof. unfold slice. replace (i + 4 - i) with 4 by lia. reflexivity. Qed.

Lemma slice_of_suffix (i : Z) (b : bytes) :
  slice 0 4 (slice_from i b) = slice i (i + 4) b.
Proof.
  unfold slice, slice_from.
  change (Z.to_nat (4 - 0)) with 4%nat. change (Z.to_nat 0) with 0%nat.
  replace (i + 4 - i) with 4 by lia. reflexivity.
Qed.

(** [find_from] answers [-1] only when [sub] starts nowhere, and otherwise
    a place where it starts. *)
Lemma find_from_spec (sub data : bytes) (i : Z) :
  0 <= i ->
  (find_from sub data i = -1 ->
   forall k : nat, firstn (List.length sub) (skipn k data) <> sub)
  /\ (find_from sub data i <> -1 ->
      i <= find_from sub data i
      /\ firstn (List.length sub)
           (skipn (Z.to_nat (find_from sub data i - i)) data) = sub).
Proof.
  revert i. induction data as [|x data IH]; intros i Hi.
  - cbn [find_from].
    destruct (bytes_eqb sub (firstn (List.length sub) [])) eqn:E.
    + split; [lia|]. intros _. split; [lia|].
      apply bytes_eqb_eq in E. rewrite Z.sub_diag. symmetry. exact E.
    + split; [|congruence]. intros _ k. rewrite skipn_nil.
      intros H. rewrite H, bytes_eqb_refl in E. discriminate.
  - cbn [find_from].
    destruct (bytes_eqb sub (firstn (List.length sub) (x :: data))) eqn:E.
    + split; [lia|]. intros _. split; [lia|].
      apply bytes_eqb_eq in E. rewrite Z.sub_diag. symmetry. exact E.
    + destruct (IH (i + 1) ltac:(lia)) as [IH1 IH2]. split.
      * intros H [|k].
        -- intros H'. cbn [skipn] in H'. rewrite H', bytes_eqb_refl in E.
           discriminate.
        -- cbn [skipn]. apply IH1. exact H.
      * intros H. destruct (IH2 H) as [Hle Hf]. split; [lia|].
        replace (Z.to_nat (find_from sub data (i + 1) - i))
          with (S (Z.to_nat (find_from sub data (i + 1) - (i + 1)))) by lia.
        exact Hf.
Qed.

Ltac container_fields :=
  unfold same_container;
  cbn [StreamingTextureId TextureId StreamingTexture Texture_ OriginalFileData
       StreamingId CompressedPayload DecompressedPayload
       set_CompressedPayload set_DecompressedPayload];
  repeat apply conj; congruence.

(** An offset of the prioritised list that does not qualify is passed
    over. *)
Lemma scan_offsets_skip zstd (Offset : Z) (rest : list Z) (s : SCTX) :
  (Offset <? len (OriginalFileData s) - 4)
  && bytes_eqb (slice Offset (Offset + 4) (OriginalFileData s)) ZstdMagic
  = false ->
  scan_offsets zstd (Offset :: rest) s = scan_offsets zstd rest s.
Proof.
  intros H. cbn [scan_offsets]. run_monad.
  destruct (Offset <? len (OriginalFileData s) - 4);
    [cbn [andb] in H; rewrite H|];
    destruct (scan_offsets zstd rest s) as [[e|b] s' l]; reflexivity.
Qed.

(** An offset that qualifies: the rest of the file from there on becomes the
    compressed payload and is handed to the decompressor. *)
Lemma scan_offsets_hit zstd (Offset : Z) (rest : list Z) (s : SCTX) :
  (Offset <? len (OriginalFileData s) - 4)
  && bytes_eqb (slice Offset (Offset + 4) (OriginalFileData s)) ZstdMagic
  = true ->
  let p := slice_from Offset (OriginalFileData s) in
  let found := (INFO, ("Found Zstd compressed data at offset "
                       ++ str Offset)%string) in
  scan_offsets zstd (Offset :: rest) s
  = match zstd p None with
    | inr out =>
        mkOutcome (inr true)
          (set_DecompressedPayload (Some out)
             (set_CompressedPayload (Some p) s))
          [found;
           (INFO, ("Decompressed payload: " ++ str (len p) ++ " -> "
                   ++ str (len out) ++ " bytes")%string)]
    | inl e =>
        match scan_offsets zstd rest (set_CompressedPayload (Some p) s) with
        | mkOutcome r s' l =>
            mkOutcome r s'
              (found :: (ERROR, ("Failed to decompress payload: "
                                 ++ exn_str e)%string) :: l)
        end
    end.
Proof.
  intros H p found. apply andb_true_iff in H. destruct H as [H1 H2].
  cbn [scan_offsets]. unfold decompress_payload. run_monad.
  rewrite H1, H2.
  cbn [CompressedPayload set_CompressedPayload OriginalFileData].
  fold p. destruct (zstd p None) as [e|out]; [|reflexivity].
  cbn [app].
  destruct (scan_offsets zstd rest (set_CompressedPayload (Some p) s))
    as [[e'|b] s' l]; reflexivity.
Qed.

(** The scan of the prioritised offsets never raises and touches the
    payload attributes only.  When it returns from inside the loop both
    payloads are recorded; when it runs to its end the decompressed payload
    is as before. *)
Lemma scan_offsets_invariant zstd (Offsets : list Z) :
  Forall (fun o => 0 <= o) Offsets ->
  forall s : SCTX,
  exists b s' l,
    scan_offsets zstd Offsets s = mkOutcome (inr b) s' l
    /\ same_container s s'
    /\ (if b : bool
        then exists k out, 0 <= k
               /\ slice 0 4 (slice_from k (OriginalFileData s)) = ZstdMagic
               /\ CompressedPayload s'
                  = Some (slice_from k (OriginalFileData s))
               /\ zstd (slice_from k (OriginalFileData s)) None = inr out
               /\ DecompressedPayload s' = Some out
        else DecompressedPayload s' = DecompressedPayload s
             /\ (CompressedPayload s' = CompressedPayload s
                 \/ exists k, 0 <= k
                      /\ slice 0 4 (slice_from k (OriginalFileData s))
                         = ZstdMagic
                      /\ CompressedPayload s'
                         = Some (slice_from k (OriginalFileData s)))).
Proof.
  induction 1 as [|Offset rest Hpos _ IH]; intros s.
  - exists false, s, []. repeat split. left. reflexivity.
  - destruct ((Offset <? len (OriginalFileData s) - 4)
              && bytes_eqb (slice Offset (Offset + 4) (OriginalFileData s))
                   ZstdMagic) eqn:Hq.
    + rewrite (scan_offsets_hit zstd Offset rest s Hq).
      apply andb_true_iff in Hq. destruct Hq as [_ Hm].
      apply bytes_eqb_eq in Hm. rewrite <- slice_of_suffix in Hm.
      destruct (zstd (slice_from Offset (OriginalFileData s)) None)
        as [e|out] eqn:Hz.
      * destruct (IH (set_CompressedPayload
                        (Some (slice_from Offset (OriginalFileData s))) s))
          as (b & s' & l & Hrun & Hsame & Hb).
        rewrite Hrun. eexists b, s', _. split; [reflexivity|].
        unfold same_container in *.
        cbn [StreamingTextureId TextureId StreamingTexture Texture_
             OriginalFileData StreamingId CompressedPayload
             DecompressedPayload set_CompressedPayload] in Hsame, Hb.
        split; [exact Hsame|]. destruct b.
        -- exact Hb.
        -- destruct Hb as [Hd [Hc|Hc]].
           ++ split; [exact Hd|]. right. exists Offset. auto.
           ++ split; [exact Hd|]. right. exact Hc.
      * eexists true, _, _. split; [reflexivity|]. split; [container_fields|].
        exists Offset, out.
        cbn [CompressedPayload DecompressedPayload set_CompressedPayload
             set_DecompressedPayload]. auto.
    + rewrite (scan_offsets_skip zstd Offset rest s Hq). apply IH.
Qed.

(** The fallback of [FindAndDecompressPayload], run after a scan that did
    not return. *)
Lemma locator_fallback (s : SCTX) :
  let Pos := bytes_find (OriginalFileData s) ZstdMagic in
  (Pos = -1 \/
   (0 <= Pos
    /\ slice 0 4 (slice_from Pos (OriginalFileData s)) = ZstdMagic)).
Proof.
  intros Pos. destruct (Z.eq_dec Pos (-1)) as [E|E]; [left; exact E|right].
  destruct (find_from_spec ZstdMagic (OriginalFileData s) 0 ltac:(lia))
    as [_ H]. destruct (H E) as [Hle Hf]. split; [exact Hle|].
  unfold slice, slice_from. change (Z.to_nat (4 - 0)) with 4%nat.
  change (Z.to_nat 0) with 0%nat. cbn [skipn].
  fold (bytes_find (OriginalFileData s) ZstdMagic) in Hf. fold Pos in Hf.
  rewrite Z.sub_0_r in Hf. exact Hf.
Qed.

(** X12. [FindAndDecompressPayload], called as [__init__] calls it (no
    payload recorded yet), never raises, whatever the file holds and
    whatever the decompressor does; it changes the two payload attributes
    only; a compressed payload it records is the file from some offset to
    its end and starts with the magic number; a decompressed payload it
    records is what the decompressor, called with no ceiling, returned on
    the recorded compressed payload. *)
Theorem FindAndDecompressPayload_never_raises zstd (s : SCTX) :
  CompressedPayload s = None ->
  DecompressedPayload s = None ->
  exists s' l,
    FindAndDecompressPayload zstd s = mkOutcome (inr tt) s' l
    /\ same_container s s'
    /\ payload_consistent zstd s'.
Proof.
  intros Hc Hd. unfold FindAndDecompressPayload.
  destruct (scan_offsets_invariant zstd [0; 512; 536; 584; 768; 1024]
              ltac:(repeat constructor; lia) s)
    as (b & s1 & l1 & Hrun & Hsame & Hb).
  unfold decompress_payload. run_monad. rewrite Hrun.
  assert (Hdata : OriginalFileData s1 = OriginalFileData s)
    by (destruct Hsame as (_ & _ & _ & _ & H & _); exact H).
  destruct b.
  - eexists s1, _. split; [reflexivity|]. split; [exact Hsame|].
    destruct Hb as (k & out & Hk & Hm & Hcp & Hz & Hdp).
    unfold payload_consistent. rewrite Hdata, Hcp, Hdp. split.
    + intros p [= <-]. exists k. auto.
    + intros o [= <-]. eexists. split; [reflexivity|exact Hz].
  - destruct Hb as [Hdp Hcp]. rewrite Hdata.
    destruct (locator_fallback s) as [E|[Hle Hm]].
    + rewrite E. cbn [Z.eqb negb].
      eexists s1, _. split; [reflexivity|]. split; [exact Hsame|].
      unfold payload_consistent. rewrite Hdata, Hdp, Hd. split.
      * intros p Hp. destruct Hcp as [Hcp|(k & Hk & Hm & Hcp)].
        -- congruence.
        -- exists k. rewrite Hcp in Hp. injection Hp as <-. auto.
      * discriminate.
    + set (Pos := bytes_find (OriginalFileData s) ZstdMagic) in *.
      replace (Pos =? -1) with false by (symmetry; apply Z.eqb_neq; lia).
      cbn [negb CompressedPayload set_CompressedPayload].
      destruct (zstd (slice_from Pos (OriginalFileData s)) None)
        as [e|out] eqn:Hz.
      * eexists _, _. split; [reflexivity|].
        split; [destruct Hsame as (?&?&?&?&?&?); container_fields|].
        unfold payload_consistent.
        cbn [CompressedPayload DecompressedPayload OriginalFileData
             set_CompressedPayload]. rewrite Hdata, Hdp, Hd. split.
        -- intros p [= <-]. exists Pos. auto.
        -- discriminate.
      * eexists _, _. split; [reflexivity|].
        split; [destruct Hsame as (?&?&?&?&?&?); container_fields|].
        unfold payload_consistent.
        cbn [CompressedPayload DecompressedPayload OriginalFileData
             set_CompressedPayload set_DecompressedPayload].
        rewrite Hdata. split.
        -- intros p [= <-]. exists Pos. auto.
        -- intros o [= <-]. eexists. split; [reflexivity|exact Hz].
Qed.

Lemma FindAndDecompressPayload_never_raises_witness :
  exists s' l,
    FindAndDecompressPayload zstd_rejects (fresh_SCTX magic_file 255)
    = mkOutcome (inr tt) s' l
    /\ same_container (fresh_SCTX magic_file 255) s'
    /\ payload_consistent zstd_rejects s'.
Proof.
  apply (FindAndDecompressPayload_never_raises zstd_rejects
           (fresh_SCTX magic_file 255)); reflexivity.
Defined.

Lemma scan_offsets_pass zstd (before rest : list Z) (s : SCTX) :
  (forall o, In o before ->
     slice o (o + 4) (OriginalFileData s) <> ZstdMagic) ->
  scan_offsets zstd (before ++ rest) s = scan_offsets zstd rest s.
Proof.
  induction before as [|o before IH]; intros H; [reflexivity|].
  cbn [app]. rewrite scan_offsets_skip.
  - apply IH. intros o' Ho'. apply H. right. exact Ho'.
  - apply andb_false_iff. right.
    destruct (bytes_eqb (slice o (o + 4) (OriginalFileData s)) ZstdMagic)
      eqn:E; [|reflexivity].
    apply bytes_eqb_eq in E. exfalso. apply (H o); [left; reflexivity|exact E].
Qed.

(** X13. A file in which the magic number occurs nowhere leaves the object
    as it was and logs nothing; a file in which it occurs somewhere always
    gets a compressed payload recorded, whether or not the decompressor
    accepts it. *)
Theorem locator_records_iff_magic_occurs zstd (s : SCTX) :
  (bytes_find (OriginalFileData s) ZstdMagic = -1 ->
   FindAndDecompressPayload zstd s = mkOutcome (inr tt) s [])
  /\ (bytes_find (OriginalFileData s) ZstdMagic <> -1 ->
      CompressedPayload (final (FindAndDecompressPayload zstd s)) <> None).
Proof.
  split.
  - intros Hnone.
    destruct (find_from_spec ZstdMagic (OriginalFileData s) 0 ltac:(lia))
      as [Hno _]. specialize (Hno Hnone).
    unfold FindAndDecompressPayload.
    change [0; 512; 536; 584; 768; 1024]
      with ([0; 512; 536; 584; 768; 1024] ++ []).
    run_monad. rewrite scan_offsets_pass.
    + cbn [scan_offsets]. run_monad. rewrite Hnone. reflexivity.
    + intros o _. rewrite slice_as_firstn. apply Hno.
  - intros Hsome. unfold FindAndDecompressPayload.
    destruct (scan_offsets_invariant zstd [0; 512; 536; 584; 768; 1024]
                ltac:(repeat constructor; lia) s)
      as (b & s1 & l1 & Hrun & Hsame & Hb).
    unfold decompress_payload. run_monad. rewrite Hrun.
    destruct b.
    + destruct Hb as (k & out & _ & _ & Hcp & _). proj_red.
      rewrite Hcp. discriminate.
    + destruct Hsame as (_ & _ & _ & _ & Hdata & _). rewrite Hdata.
      replace (bytes_find (OriginalFileData s) ZstdMagic =? -1) with false
        by (symmetry; apply Z.eqb_neq; exact Hsome).
      cbn [negb CompressedPayload set_CompressedPayload].
      destruct (zstd (slice_from (bytes_find (OriginalFileData s) ZstdMagic)
                        (OriginalFileData s)) None); proj_red;
        cbn [CompressedPayload set_CompressedPayload
             set_DecompressedPayload]; discriminate.
Qed.

Lemma locator_records_iff_magic_occurs_witness :
  FindAndDecompressPayload zstd_rejects (fresh_SCTX sixteen_bytes 255)
  = mkOutcome (inr tt) (fresh_SCTX sixteen_bytes 255) []
  /\ CompressedPayload
       (final (FindAndDecompressPayload zstd_rejects
                 (fresh_SCTX magic_file 255))) <> None.
Proof.
  split.
  - apply (locator_records_iff_magic_occurs zstd_rejects
             (fresh_SCTX sixteen_bytes 255)). reflexivity.
  - apply (locator_records_iff_magic_occurs zstd_rejects
             (fresh_SCTX magic_file 255)). discriminate.
Defined.

(** X14. The prioritised offsets are tried in their order: when the magic
    number stands at one of them, at none of those before it, and the
    decompressor accepts the file from there on, that offset's payload is
    the one recorded, even if the magic number also occurs earlier in the
    file at a place that is not on the list. *)
Theorem first_prioritised_offset_wins zstd (s : SCTX)
    (before after : list Z) (Offset : Z) (out : bytes) :
  [0; 512; 536; 584; 768; 1024] = before ++ Offset :: after ->
  (forall o, In o before ->
     slice o (o + 4) (OriginalFileData s) <> ZstdMagic) ->
  Offset < len (OriginalFileData s) - 4 ->
  slice Offset (Offset + 4) (OriginalFileData s) = ZstdMagic ->
  zstd (slice_from Offset (OriginalFileData s)) None = inr out ->
  FindAndDecompressPayload zstd s
  = mkOutcome (inr tt)
      (set_DecompressedPayload (Some out)
         (set_CompressedPayload
            (Some (slice_from Offset (OriginalFileData s))) s))
      [(INFO, ("Found Zstd compressed data at offset "
               ++ str Offset)%string);
       (INFO, ("Decompressed payload: "
               ++ str (len (slice_from Offset (OriginalFileData s)))
               ++ " -> " ++ str (len out) ++ " bytes")%string)].
Proof.
  intros Hsplit Hbefore Hlt Hm Hz. unfold FindAndDecompressPayload.
  rewrite Hsplit. run_monad. rewrite (scan_offsets_pass _ _ _ _ Hbefore).
  rewrite scan_offsets_hit.
  - cbv zeta. rewrite Hz. reflexivity.
  - apply andb_true_iff. split; [apply Z.ltb_lt; exact Hlt|].
    apply bytes_eqb_eq. exact Hm.
Qed.

Lemma first_prioritised_offset_wins_witness :
  FindAndDecompressPayload zstd_zeros (fresh_SCTX offset_512_file 255)
  = mkOutcome (inr tt)
      (set_DecompressedPayload (Some [x00; x00; x00])
         (set_CompressedPayload (Some small_magic_file)
            (fresh_SCTX offset_512_file 255)))
      [(INFO, "Found Zstd compressed data at offset 512"%string);
       (INFO, "Decompressed payload: 8 -> 3 bytes"%string)].
Proof.
  apply (first_prioritised_offset_wins zstd_zeros
           (fresh_SCTX offset_512_file 255) [0] [536; 584; 768; 1024] 512
           [x00; x00; x00]).
  - reflexivity.
  - intros o [<-|[]]. vm_compute. discriminate.
  - vm_compute. reflexivity.
  - vm_compute. reflexivity.
  - vm_compute. reflexivity.
Defined.

(** ** The container parser, continued *)

Lemma read_exact (b : bytes) (p N : Z) :
  0 <= p -> 0 <= N -> p + N <= len b ->
  read N {| getvalue := b; tell := p |}
  = (slice p (p + N) b, {| getvalue := b; tell := p + N |}).
Proof.
  intros Hp HN Hb. unfold read, remaining, slice. cbn [getvalue tell].
  destruct (Z.ltb_spec N 0) as [?|_]; [lia|].
  rewrite Z.min_l by lia. replace (p + N - p) with N by lia.
  f_equal. f_equal. f_equal. unfold len in *.
  rewrite length_firstn, length_skipn. lia.
Qed.

Lemma slice_length (b : bytes) (p N : Z) :
  0 <= p -> 0 <= N -> p + N <= len b -> len (slice p (p + N) b) = N.
Proof.
  intros Hp HN Hb. unfold slice, len in *.
  rewrite length_firstn, length_skipn. lia.
Qed.

Lemma Skip_exact (b : bytes) (p N : Z) :
  0 <= p -> 0 <= N -> p + N <= len b ->
  Skip N {| getvalue := b; tell := p |} = {| getvalue := b; tell := p + N |}.
Proof. intros. unfold Skip. rewrite read_exact by assumption. reflexivity. Qed.

Lemma ReadUshort_exact (b : bytes) (p : Z) :
  0 <= p -> p + 2 <= len b ->
  ReadUshort {| getvalue := b; tell := p |}
  = (from_bytes_unsigned (slice p (p + 2) b),
     {| getvalue := b; tell := p + 2 |}).
Proof. intros. unfold ReadUshort. rewrite read_exact by lia. reflexivity. Qed.

Lemma ReadUint_exact (b : bytes) (p : Z) :
  0 <= p -> p + 4 <= len b ->
  ReadUint {| getvalue := b; tell := p |}
  = (from_bytes_unsigned (slice p (p + 4) b),
     {| getvalue := b; tell := p + 4 |}).
Proof. intros. unfold ReadUint. rewrite read_exact by lia. reflexivity. Qed.

Lemma ReadInt_exact (b : bytes) (p : Z) :
  0 <= p -> p + 4 <= len b ->
  ReadInt {| getvalue := b; tell := p |}
  = (from_bytes_signed (slice p (p + 4) b),
     {| getvalue := b; tell := p + 4 |}).
Proof. intros. unfold ReadInt. rewrite read_exact by lia. reflexivity. Qed.

Lemma ushort_range (b : bytes) (p : Z) :
  0 <= p -> p + 2 <= len b ->
  0 <= from_bytes_unsigned (slice p (p + 2) b) < 65536.
Proof.
  intros Hp Hb. pose proof (from_bytes_unsigned_bound (slice p (p + 2) b)) as H.
  rewrite slice_length in H by lia. exact H.
Qed.

Lemma uint_range (b : bytes) (p : Z) :
  0 <= p -> p + 4 <= len b ->
  0 <= from_bytes_unsigned (slice p (p + 4) b) < 4294967296.
Proof.
  intros Hp Hb. pose proof (from_bytes_unsigned_bound (slice p (p + 4) b)) as H.
  rewrite slice_length in H by lia. exact H.
Qed.

Lemma new_Texture_run (n W H : Z) (s : SCTX) :
  exists l,
    ReadStreamingData_new_Texture n W H s
    = mkOutcome (inr tt)
        (set_Texture (Some (Texture_init (pixel_of_code n) W H)) s) l.
Proof.
  unfold ReadStreamingData_new_Texture, pixel_of_code, ScPixel_call.
  destruct (int_in n AstcFormatIds).
  - run_monad. destruct (ScPixel.of_value n); eexists; reflexivity.
  - destruct (Z.eqb_spec n 70) as [->|_].
    + eexists. reflexivity.
    + run_monad. destruct (ScPixel.of_value n); eexists; reflexivity.
Qed.

Lemma new_StreamingTexture_run (n W H : Z) (s : SCTX) :
  ReadStreamingTexture_new_Texture n W H s
  = mkOutcome (inr tt)
      (set_StreamingTexture (Some (Texture_init (pixel_of_code n) W H)) s) [].
Proof.
  unfold ReadStreamingTexture_new_Texture, pixel_of_code, ScPixel_call.
  destruct (int_in n AstcFormatIds).
  - run_monad. destruct (ScPixel.of_value n); reflexivity.
  - destruct (Z.eqb_spec n 70) as [->|_].
    + reflexivity.
    + run_monad. destruct (ScPixel.of_value n); reflexivity.
Qed.

Ltac file_fields :=
  unfold same_file in *;
  cbn [StreamingTextureId TextureId StreamingTexture Texture_ OriginalFileData
       StreamingId CompressedPayload DecompressedPayload
       set_Texture set_StreamingTexture set_StreamingId] in *;
  repeat apply conj; congruence.

Ltac parsed_fields :=
  unfold parsed_texture;
  cbn [Width Height DataLength Data IsCompressedDataFlag DecompressedData
       PixelType Texture_init set_DataLength set_Data set_Width set_Height].

(** [ReadStreamingTexture]: it returns, logs nothing and assigns nothing but
    [StreamingTexture]; a block of fewer than 40 bytes is ignored, any other
    yields a well-formed texture. *)
Lemma ReadStreamingTexture_run (Data : bytes) (s : SCTX) :
  exists s',
    ReadStreamingTexture Data s = mkOutcome (inr tt) s' []
    /\ same_file s s'
    /\ Texture_ s' = Texture_ s
    /\ StreamingId s' = StreamingId s
    /\ (len Data < 40 -> s' = s)
    /\ (40 <= len Data ->
        exists st, StreamingTexture s' = Some st /\ parsed_texture st
          /\ Width st = from_bytes_unsigned (slice 28 30 Data)
          /\ Height st = from_bytes_unsigned (slice 30 32 Data)
          /\ PixelType st
             = pixel_of_code (from_bytes_unsigned (slice 32 36 Data))).
Proof.
  unfold ReadStreamingTexture.
  destruct (Z.ltb_spec (len Data) (28 + 12)) as [Hs|Hl].
  - exists s. repeat split; lia.
  - unfold BinaryReader_init. cbv zeta.
    rewrite Skip_exact by lia.
    rewrite ReadUshort_exact by lia. cbv iota beta.
    rewrite ReadUshort_exact by lia. cbv iota beta.
    rewrite ReadUint_exact by lia. cbv iota beta.
    rewrite ReadInt_exact by lia. cbv iota beta.
    replace (0 + 28) with 28 by lia. replace (28 + 2) with 30 by lia.
    replace (30 + 2) with 32 by lia. replace (32 + 4) with 36 by lia.
    replace (36 + 4) with 40 by lia.
    pose proof (ushort_range Data 28 ltac:(lia) ltac:(lia)) as HW.
    pose proof (ushort_range Data 30 ltac:(lia) ltac:(lia)) as HH.
    replace (28 + 2) with 30 in HW by lia.
    replace (30 + 2) with 32 in HH by lia.
    set (W := from_bytes_unsigned (slice 28 30 Data)) in *.
    set (H := from_bytes_unsigned (slice 30 32 Data)) in *.
    set (n := from_bytes_unsigned (slice 32 36 Data)) in *.
    unfold setattr_StreamingTexture. run_monad.
    rewrite new_StreamingTexture_run. cbv iota beta.
    cbn [tell].
    destruct (Z.geb_spec (len Data - 40) 4) as [H4|H4].
    + rewrite ReadUint_exact by lia. cbv iota beta.
      pose proof (uint_range Data 40 ltac:(lia) ltac:(lia)) as HL.
      set (v := from_bytes_unsigned (slice 40 (40 + 4) Data)) in *.
      cbn [StreamingTexture set_StreamingTexture tell].
      destruct (Z.gtb_spec v 0) as [Hv|Hv];
        [destruct (Z.geb_spec (len Data - (40 + 4)) v) as [Hfit|Hfit]|];
        cbn [andb].
      * rewrite read_exact by lia. cbv iota beta.
        cbn [StreamingTexture set_StreamingTexture].
        eexists. split; [reflexivity|].
        split; [file_fields|]. split; [reflexivity|]. split; [reflexivity|].
        split; [lia|]. intros _. eexists. split; [reflexivity|].
        split; [|repeat split]. parsed_fields.
        repeat split; try lia.
        all: match goal with Hd : Some ?X = Some ?d |- _ =>
               assert (E : d = X) by congruence; rewrite E end;
             rewrite slice_length by lia; lia.
      * eexists. split; [reflexivity|].
        split; [file_fields|]. split; [reflexivity|]. split; [reflexivity|].
        split; [lia|]. intros _. eexists. split; [reflexivity|].
        split; [|repeat split]. parsed_fields.
        repeat split; try lia; discriminate.
      * eexists. split; [reflexivity|].
        split; [file_fields|]. split; [reflexivity|]. split; [reflexivity|].
        split; [lia|]. intros _. eexists. split; [reflexivity|].
        split; [|repeat split]. parsed_fields.
        repeat split; try lia; discriminate.
    + eexists. split; [reflexivity|].
      split; [file_fields|]. split; [reflexivity|]. split; [reflexivity|].
      split; [lia|]. intros _. eexists. split; [reflexivity|].
      split; [|repeat split]. parsed_fields.
      repeat split; try lia; discriminate.
Qed.

(** The ends of the paths through [ReadStreamingData]. *)
Ltac rsd_texture :=
  right; eexists; split; [reflexivity|];
  split; [parsed_fields; repeat split; try lia; discriminate|];
  split; [reflexivity|].

Ltac rsd_done :=
  cbv iota beta;
  eexists _, _; split; [reflexivity|]; split; [file_fields|];
  split; [rsd_texture; left; reflexivity|];
  first [ intros _; split; reflexivity
        | intros ?; exfalso; congruence ].

Ltac rsd_after_streaming Hrun Hsf HT HSid Hsmall Hbig Sub :=
  rewrite Hrun; cbv iota beta; cbn [tell];
  unfold same_file in Hsf; destruct Hsf as (? & ? & ? & ? & ?);
  match goal with
  | |- context [?a >=? 4] =>
      destruct (Z.geb_spec a 4);
      [rewrite ReadUint_exact by lia|]; cbv iota beta
  end;
  (eexists _, _; split; [reflexivity|];
   split; [file_fields|];
   split;
   [ right;
     cbn [Texture_ StreamingTexture StreamingId set_StreamingId];
     rewrite HT; cbn [Texture_ set_Texture];
     eexists; split; [reflexivity|];
     split; [parsed_fields; repeat split; try lia; discriminate|];
     split; [reflexivity|];
     destruct (Z.lt_ge_cases (len Sub) 40) as [Hlt|Hge];
     [ left; rewrite (Hsmall Hlt); reflexivity
     | right; destruct (Hbig Hge) as (st & Hst & Hps & _);
       exists st; split; assumption ]
   | intros ?; exfalso; congruence ]).

Ltac rsd_no_streaming :=
  cbn [tell];
  match goal with
  | |- context [?a >=? 4] =>
      destruct (Z.geb_spec a 4);
      [rewrite ReadUint_exact by lia|]; cbv iota beta
  end;
  (eexists _, _; split; [reflexivity|]; split; [file_fields|];
   split; [rsd_texture; left; reflexivity|];
   intros ?; exfalso; congruence).

Ltac rsd_call_streaming :=
  rewrite read_exact by lia; cbv iota beta;
  match goal with
  | |- context [ReadStreamingTexture ?Sub ?s2] =>
      let s3 := fresh "s3" in
      let Hrun := fresh "Hrun" in
      let Hsf := fresh "Hsf" in
      let HT := fresh "HT" in
      let HSid := fresh "HSid" in
      let Hsmall := fresh "Hsmall" in
      let Hbig := fresh "Hbig" in
      destruct (ReadStreamingTexture_run Sub s2)
        as (s3 & Hrun & Hsf & HT & HSid & Hsmall & Hbig);
      rsd_after_streaming Hrun Hsf HT HSid Hsmall Hbig Sub
  end.

Ltac rsd_streaming :=
  rewrite Skip_exact by lia; cbn [tell];
  match goal with
  | |- context [?a >=? 4] =>
      destruct (Z.geb_spec a 4) as [_|?]; [|lia]
  end;
  rewrite ReadUint_exact by lia; cbv iota beta; cbn [tell];
  match goal with
  | |- context [from_bytes_unsigned (slice ?q (?q + 4) ?B) >? 0] =>
      pose proof (uint_range B q ltac:(lia) ltac:(lia));
      let SL := fresh "SL" in
      set (SL := from_bytes_unsigned (slice q (q + 4) B)) in *;
      destruct (Z.gtb_spec SL 0);
      [ match goal with
        | |- context [?a >=? SL] => destruct (Z.geb_spec a SL)
        end |];
      cbn [andb];
      [ rsd_call_streaming | rsd_no_streaming | rsd_no_streaming ]
  end.

(** [ReadStreamingData]: it returns and assigns nothing but the two textures
    and [StreamingId]; when it does not return early the main texture is
    new, well-formed and without data. *)
Lemma ReadStreamingData_run (Block : bytes) (s : SCTX) :
  exists s' l,
    ReadStreamingData Block s = mkOutcome (inr tt) s' l
    /\ same_file s s'
    /\ (s' = s
        \/ exists t, Texture_ s' = Some t /\ parsed_texture t
             /\ Data t = None
             /\ (StreamingTexture s' = StreamingTexture s
                 \/ exists st, StreamingTexture s' = Some st
                      /\ parsed_texture st))
    /\ (StreamingTextureId s = 0 ->
        StreamingTexture s' = StreamingTexture s
        /\ StreamingId s' = StreamingId s).
Proof.
  unfold ReadStreamingData.
  destruct (Z.ltb_spec (len Block) 4) as [Hs|Hl].
  { exists s, []. repeat split; auto. }
  unfold BinaryReader_init. cbv zeta.
  rewrite ReadUint_exact by lia. cbv iota beta.
  pose proof (uint_range Block 0 ltac:(lia) ltac:(lia)) as Hh.
  set (h := from_bytes_unsigned (slice 0 (0 + 4) Block)) in *.
  destruct (Z.gtb_spec h (len Block - 4)) as [Hover|Hfit].
  { exists s, []. repeat split; auto. }
  rewrite Skip_exact by lia. cbn [tell].
  destruct (Z.ltb_spec (len Block - (0 + 4 + h)) 14) as [Hshort|Hlong].
  { exists s, []. repeat split; auto. }
  rewrite ReadUint_exact by lia. cbv iota beta.
  rewrite ReadUshort_exact by lia. cbv iota beta.
  rewrite ReadUshort_exact by lia. cbv iota beta.
  rewrite ReadInt_exact by lia. cbv iota beta.
  pose proof (ushort_range Block (0 + 4 + h + 4) ltac:(lia) ltac:(lia)) as HW.
  pose proof (ushort_range Block (0 + 4 + h + 4 + 2) ltac:(lia) ltac:(lia))
    as HH.
  set (n := from_bytes_unsigned (slice (0 + 4 + h) (0 + 4 + h + 4) Block)) in *.
  set (W := from_bytes_unsigned _) in HW.
  set (H := from_bytes_unsigned _) in HH.
  fold W H.
  set (p := 0 + 4 + h + 4 + 2 + 2 + 4) in *.
  assert (Hp : 0 <= p <= len Block) by (unfold p; lia).
  clearbody p W H n. clear Hlong Hfit.
  destruct (new_Texture_run n W H s) as [l0 Hnew].
  unfold setattr_Texture. run_monad. rewrite Hnew. cbv iota beta.
  cbn [tell Texture_ set_Texture StreamingTextureId].
  destruct (Z.geb_spec (len Block - p) 4) as [H4|H4].
  - rewrite ReadUint_exact by lia. cbv iota beta.
    pose proof (uint_range Block p ltac:(lia) ltac:(lia)) as Hv.
    set (v := from_bytes_unsigned (slice p (p + 4) Block)) in *.
    cbn [tell Texture_ set_Texture StreamingTextureId].
    destruct (Z.eqb_spec (StreamingTextureId s) 0) as [Hid|Hid];
      cbn [negb andb]; [rsd_done|].
    destruct (Z.geb_spec (len Block - (p + 4)) 20) as [H20|H20];
      [|rsd_done].
    rsd_streaming.
  - cbn [tell Texture_ set_Texture StreamingTextureId].
    destruct (Z.eqb_spec (StreamingTextureId s) 0) as [Hid|Hid];
      cbn [negb andb]; [rsd_done|].
    destruct (Z.geb_spec (len Block - p) 20) as [H20|H20];
      [|rsd_done].
    rsd_streaming.
Qed.

Lemma ReadStreamingData_parsed (Block : bytes) (s : SCTX) :
  parsed_container s ->
  exists s' l,
    ReadStreamingData Block s = mkOutcome (inr tt) s' l
    /\ same_file s s' /\ parsed_container s'
    /\ (StreamingTextureId s = 0 ->
        StreamingTexture s' = StreamingTexture s).
Proof.
  intros [HT HS].
  destruct (ReadStreamingData_run Block s)
    as (s' & l & Hrun & Hsf & [E|(t & Ht & Hpt & _ & Hst)] & Hz);
    exists s', l; (split; [exact Hrun|]); (split; [exact Hsf|]);
    (split; [|intros E0; apply (Hz E0)]).
  - rewrite E. split; assumption.
  - split.
    + intros t' Ht'. rewrite Ht in Ht'. injection Ht' as <-. exact Hpt.
    + intros st' Hst'. split; [|congruence].
      destruct Hst as [E|(st & E & Hps)].
      * rewrite E in Hst'. apply (HS st' Hst').
      * rewrite E in Hst'. injection Hst' as <-. exact Hps.
Qed.

(** [ReadTexture] with a main texture: it returns, and overwrites the two
    dimensions with the 16-bit values at offsets 24 and 26 of the block. *)
Lemma ReadTexture_with_Texture (Block : bytes) (s : SCTX) (t : Texture) :
  Texture_ s = Some t ->
  ReadTexture Block s
  = mkOutcome (inr tt)
      (if len Block <? 34 then s
       else set_Texture
              (Some (set_Height (from_bytes_unsigned (slice 26 28 Block))
                       (set_Width (from_bytes_unsigned (slice 24 26 Block))
                          t))) s)
      [].
Proof.
  intros Ht. unfold ReadTexture. change (24 + 10) with 34.
  destruct (Z.ltb_spec (len Block) 34) as [Hs|Hl]; [reflexivity|].
  unfold BinaryReader_init. cbv zeta.
  rewrite Skip_exact by lia.
  rewrite ReadUshort_exact by lia. cbv iota beta.
  rewrite ReadUshort_exact by lia. cbv iota beta.
  rewrite ReadUint_exact by lia. cbv iota beta.
  replace (0 + 24) with 24 by lia. replace (24 + 2) with 26 by lia.
  replace (26 + 2) with 28 by lia.
  unfold setattr_Texture. run_monad. rewrite Ht.
  cbn [Texture_ set_Texture tell].
  destruct (len Block - (28 + 4) >=? 4); [|reflexivity].
  destruct (ReadUint {| getvalue := Block; tell := 28 + 4 |}) as [HashLength r].
  destruct ((HashLength >? 0) && (len Block - tell r >=? HashLength));
    [|reflexivity].
  destruct (read HashLength r). reflexivity.
Qed.

Lemma same_file_refl (s : SCTX) : same_file s s.
Proof. unfold same_file. repeat split; reflexivity. Qed.

Lemma same_file_trans (a b c : SCTX) :
  same_file a b -> same_file b c -> same_file a c.
Proof.
  unfold same_file. intros (?&?&?&?&?) (?&?&?&?&?).
  repeat split; congruence.
Qed.

Lemma ReadTexture_parsed (Block : bytes) (s : SCTX) :
  parsed_container s ->
  exists r s',
    ReadTexture Block s = mkOutcome r s' []
    /\ same_file s s' /\ parsed_container s'
    /\ StreamingTexture s' = StreamingTexture s
    /\ (r = inr tt
        \/ (r = inl (NoneType_has_no "Width") /\ Texture_ s' = None)).
Proof.
  intros Hpc. pose proof Hpc as [HT HS].
  destruct (Texture_ s) as [t|] eqn:Ht.
  - rewrite (ReadTexture_with_Texture Block s t Ht).
    eexists _, _. split; [reflexivity|].
    destruct (Z.ltb_spec (len Block) 34) as [Hs|Hl].
    + split; [apply same_file_refl|]. split; [exact Hpc|].
      split; [reflexivity|left; reflexivity].
    + split; [file_fields|]. split; [|split; [reflexivity|left; reflexivity]].
      pose proof (ushort_range Block 24 ltac:(lia) ltac:(lia)) as HW.
      pose proof (ushort_range Block 26 ltac:(lia) ltac:(lia)) as HH.
      replace (24 + 2) with 26 in HW by lia.
      replace (26 + 2) with 28 in HH by lia.
      destruct (HT t eq_refl) as (_ & _ & HL & HD & HF & HDD).
      split; cbn [Texture_ StreamingTexture set_Texture].
      * intros t' Ht'.
        assert (E : t' = set_Height (from_bytes_unsigned (slice 26 28 Block))
                           (set_Width (from_bytes_unsigned (slice 24 26 Block))
                              t)) by congruence.
        rewrite E. parsed_fields. repeat apply conj; auto; lia.
      * intros st Hst. split; [apply (HS st Hst)|discriminate].
  - destruct (Z.lt_ge_cases (len Block) 34) as [Hs|Hl].
    + exists (inr tt), s. unfold ReadTexture. change (24 + 10) with 34.
      destruct (Z.ltb_spec (len Block) 34) as [_|?]; [|lia].
      split; [reflexivity|]. split; [apply same_file_refl|].
      split; [exact Hpc|]. split; [reflexivity|left; reflexivity].
    + rewrite (ReadTexture_without_Texture Block s Ht Hl).
      eexists _, _. split; [reflexivity|].
      split; [apply same_file_refl|]. split; [exact Hpc|].
      split; [reflexivity|right; split; [reflexivity|exact Ht]].
Qed.

(** The texture data stage of the constructor: the data it stores are not
    empty and not longer than the declared length. *)
Lemma init_texture_data_parsed (r : BinaryReader) (s : SCTX) :
  getvalue r = OriginalFileData s -> 0 <= tell r <= len (getvalue r) ->
  parsed_container s ->
  exists r2 s' l,
    init_texture_data r s = mkOutcome (inr r2) s' l
    /\ same_file s s' /\ StreamingTexture s' = StreamingTexture s
    /\ parsed_container s'.
Proof.
  intros Hg Hr Hpc. pose proof Hpc as [HT HS].
  destruct (Texture_ s) as [t|] eqn:Ht.
  - destruct (Z.lt_ge_cases 0 (DataLength t)) as [Hpos|Hzero].
    + destruct (init_texture_data_spec r s t Hg Hr Ht Hpos)
        as (r2 & Hrun & Hlen & _).
      rewrite Hrun. eexists _, _, _. split; [reflexivity|].
      destruct (Z.ltb_spec 0 (Z.min (DataLength t)
                                (len (OriginalFileData s) - tell r)))
        as [Hmin|Hmin].
      * split; [file_fields|]. split; [reflexivity|].
        destruct (HT t eq_refl) as (HW & HH & HL & HD & HF & HDD).
        split; cbn [Texture_ StreamingTexture set_Texture].
        -- intros t' Ht'.
           match type of Ht' with Some ?X = _ =>
             assert (E : t' = X) by congruence end.
           rewrite E. parsed_fields. repeat apply conj; auto; try lia.
           intros d Hd.
           match type of Hd with Some ?X = _ =>
             assert (E' : d = X) by congruence end.
           rewrite E', Hlen. lia.
        -- intros st Hst. split; [apply (HS st Hst)|discriminate].
      * split; [apply same_file_refl|split; [reflexivity|exact Hpc]].
    + exists r, s, []. unfold init_texture_data. run_monad. rewrite Ht.
      destruct (Z.gtb_spec (DataLength t) 0) as [?|_]; [lia|].
      split; [reflexivity|]. split; [apply same_file_refl|split; [reflexivity|exact Hpc]].
  - exists r, s, []. unfold init_texture_data. run_monad. rewrite Ht.
    split; [reflexivity|]. split; [apply same_file_refl|split; [reflexivity|exact Hpc]].
Qed.

(** The repair keeps the container well-formed: the data it copies come
    with their declared length. *)
Lemma init_repair_parsed (s : SCTX) :
  parsed_container s ->
  exists s' l,
    init_repair s = mkOutcome (inr tt) s' l
    /\ same_file s s' /\ StreamingTexture s' = StreamingTexture s
    /\ parsed_container s'.
Proof.
  intros Hpc. pose proof Hpc as [HT HS].
  unfold init_repair, setattr_Texture. run_monad.
  destruct (Texture_ s) as [t|] eqn:Ht.
  - destruct (negb (truthy (Data t))
              || (len match Data t with Some d => d | None => [] end <? 16)).
    + destruct (StreamingTexture s) as [st|] eqn:Hst.
      * destruct (truthy (Data st)) eqn:Htr.
        -- cbn [Texture_ StreamingTexture set_Texture]. rewrite Ht.
           cbn [Texture_ StreamingTexture set_Texture].
           eexists _, _. split; [reflexivity|]. split; [file_fields|].
           split; [cbn [StreamingTexture set_Texture]; congruence|].
           destruct (HT t eq_refl) as (HW & HH & HL & HD & HF & HDD).
           destruct (HS st eq_refl) as [(HW' & HH' & HL' & HD' & _) _].
           split; cbn [Texture_ StreamingTexture set_Texture].
           ++ intros t' Ht'.
              match type of Ht' with Some ?X = _ =>
                assert (E : t' = X) by congruence end.
              rewrite E. parsed_fields. repeat apply conj; auto; lia.
           ++ intros st' Hst'. rewrite Hst in Hst'.
              split; [|discriminate].
              assert (E : st' = st) by congruence. rewrite E.
              apply (HS st eq_refl).
        -- eexists _, _. split; [reflexivity|].
           split; [apply same_file_refl|split; [congruence|exact Hpc]].
      * eexists _, _. split; [reflexivity|].
        split; [apply same_file_refl|split; [congruence|exact Hpc]].
    + eexists _, _. split; [reflexivity|].
      split; [apply same_file_refl|split; [congruence|exact Hpc]].
  - eexists _, _. split; [reflexivity|].
    split; [apply same_file_refl|split; [congruence|exact Hpc]].
Qed.

(** X16. [ReadStreamingTexture] on any block and any object: it returns,
    logs nothing, and leaves the main texture alone.  A block of fewer than
    40 bytes changes nothing.  Any other block yields a streaming texture
    whose width, height and format are the fields at offsets 28, 30 and 32,
    and which is well-formed: data are stored only when the declared length
    is positive and fits, and then have exactly that length. *)
Theorem streaming_texture_block (Block : bytes) (s : SCTX) :
  exists s',
    ReadStreamingTexture Block s = mkOutcome (inr tt) s' []
    /\ Texture_ s' = Texture_ s
    /\ (len Block < 40 -> s' = s)
    /\ (40 <= len Block ->
        exists st, StreamingTexture s' = Some st /\ parsed_texture st
          /\ Width st = from_bytes_unsigned (slice 28 30 Block)
          /\ Height st = from_bytes_unsigned (slice 30 32 Block)
          /\ PixelType st
             = pixel_of_code (from_bytes_unsigned (slice 32 36 Block))).
Proof.
  destruct (ReadStreamingTexture_run Block s)
    as (s' & Hrun & _ & HT & _ & Hsmall & Hbig).
  exists s'. auto.
Qed.

Lemma streaming_texture_block_witness :
  (exists s',
     ReadStreamingTexture (repeat x00 39) blank_SCTX
     = mkOutcome (inr tt) s' [] /\ s' = blank_SCTX)
  /\ (exists s' st,
        ReadStreamingTexture streaming_block_4x4 blank_SCTX
        = mkOutcome (inr tt) s' []
        /\ StreamingTexture s' = Some st /\ parsed_texture st).
Proof.
  split.
  - destruct (streaming_texture_block (repeat x00 39) blank_SCTX)
      as (s' & Hrun & _ & Hsmall & _).
    exists s'. split; [exact Hrun|]. apply Hsmall. reflexivity.
  - destruct (streaming_texture_block streaming_block_4x4 blank_SCTX)
      as (s' & Hrun & _ & _ & Hbig).
    destruct (Hbig ltac:(vm_compute; discriminate)) as (st & Hst & Hp & _).
    exists s', st. auto.
Defined.

(** The early returns of [ReadStreamingData]. *)
Lemma ReadStreamingData_cut_short (Block : bytes) (s : SCTX) :
  let h := from_bytes_unsigned (slice 0 4 Block) in
  len Block < 4 \/ len Block - 4 < h \/ len Block - (4 + h) < 14 ->
  ReadStreamingData Block s = mkOutcome (inr tt) s [].
Proof.
  intros h Hcut. unfold ReadStreamingData.
  destruct (Z.ltb_spec (len Block) 4) as [Hs|Hl]; [reflexivity|].
  unfold BinaryReader_init. cbv zeta.
  rewrite ReadUint_exact by lia. cbv iota beta.
  change (0 + 4) with 4. fold h.
  pose proof (from_bytes_unsigned_nonneg (slice 0 4 Block)) as Hh. fold h in Hh.
  destruct (Z.gtb_spec h (len Block - 4)) as [Hover|Hfit]; [reflexivity|].
  rewrite Skip_exact by lia. cbn [tell].
  destruct (Z.ltb_spec (len Block - (4 + h)) 14) as [Hshort|Hlong];
    [reflexivity|lia].
Qed.

(** The main texture [ReadStreamingData] builds from a block that is not cut
    short. *)
Lemma ReadStreamingData_main_texture (Block : bytes) (s : SCTX) :
  let h := from_bytes_unsigned (slice 0 4 Block) in
  4 <= len Block -> h <= len Block - 4 -> 14 <= len Block - (4 + h) ->
  Texture_ (final (ReadStreamingData Block s))
  = Some (set_DataLength
            (if len Block - (4 + h + 12) >=? 4
             then from_bytes_unsigned (slice (4 + h + 12) (4 + h + 16) Block)
             else 0)
            (Texture_init
               (pixel_of_code
                  (from_bytes_unsigned (slice (4 + h) (4 + h + 4) Block)))
               (from_bytes_unsigned (slice (4 + h + 4) (4 + h + 6) Block))
               (from_bytes_unsigned (slice (4 + h + 6) (4 + h + 8) Block)))).
Proof.
  intros h Hl Hfit Hlong. unfold ReadStreamingData.
  destruct (Z.ltb_spec (len Block) 4) as [?|_]; [lia|].
  unfold BinaryReader_init. cbv zeta.
  rewrite ReadUint_exact by lia. cbv iota beta.
  change (0 + 4) with 4. fold h.
  pose proof (from_bytes_unsigned_nonneg (slice 0 4 Block)) as Hh. fold h in Hh.
  destruct (Z.gtb_spec h (len Block - 4)) as [?|_]; [lia|].
  rewrite Skip_exact by lia. cbn [tell].
  destruct (Z.ltb_spec (len Block - (4 + h)) 14) as [?|_]; [lia|].
  rewrite ReadUint_exact by lia. cbv iota beta.
  rewrite ReadUshort_exact by lia. cbv iota beta.
  rewrite ReadUshort_exact by lia. cbv iota beta.
  rewrite ReadInt_exact by lia. cbv iota beta.
  replace (4 + h + 4 + 2) with (4 + h + 6) by lia.
  replace (4 + h + 6 + 2) with (4 + h + 8) by lia.
  replace (4 + h + 8 + 4) with (4 + h + 12) by lia.
  set (n := from_bytes_unsigned (slice (4 + h) (4 + h + 4) Block)).
  set (W := from_bytes_unsigned (slice (4 + h + 4) (4 + h + 6) Block)).
  set (H := from_bytes_unsigned (slice (4 + h + 6) (4 + h + 8) Block)).
  set (p := 4 + h + 12) in *.
  assert (Hp : 0 <= p <= len Block) by (unfold p; lia).
  replace (4 + h + 16) with (p + 4) by (unfold p; lia).
  clearbody p.
  destruct (new_Texture_run n W H s) as [l0 Hnew].
  unfold setattr_Texture. run_monad. rewrite Hnew. cbv iota beta.
  cbn [tell Texture_ set_Texture StreamingTextureId].
  destruct (Z.geb_spec (len Block - p) 4) as [H4|H4];
    [rewrite ReadUint_exact by lia|]; cbv iota beta;
    cbn [tell Texture_ set_Texture StreamingTextureId];
    (destruct (negb (StreamingTextureId s =? 0) && _); [|reflexivity]);
    repeat (match goal with
            | |- context [ReadStreamingTexture ?Sub ?s2] =>
                let s3 := fresh "s3" in
                let Hrun := fresh "Hrun" in
                let HT := fresh "HT" in
                destruct (ReadStreamingTexture_run Sub s2)
                  as (s3 & Hrun & _ & HT & _);
                rewrite Hrun
            | |- context [match ?x with pair _ _ => _ end] => destruct x
            | |- context [if ?b then _ else _] => destruct b
            end; cbv beta iota);
    cbn [final Texture_ set_StreamingId set_Texture];
    try match goal with HT : Texture_ _ = _ |- _ => rewrite HT end;
    reflexivity.
Qed.

(** X17. [ReadStreamingData] on any block and any object: it returns.  A
    block that is cut short (fewer than 4 bytes, a header length beyond the
    block, fewer than 14 bytes after the header) changes nothing and logs
    nothing.  Any other block makes a new main texture: the format code,
    the width and the height are the fields behind the header, the declared
    length is the 32-bit field 12 bytes behind the header when the block
    holds it and 0 otherwise, and there are no data yet; the texture is
    well-formed, the file and the payload attributes are kept, a streaming
    texture that is assigned is well-formed, and with a streaming id of 0
    the streaming texture and [StreamingId] are not assigned. *)
Theorem streaming_block_never_raises (Block : bytes) (s : SCTX) :
  let h := from_bytes_unsigned (slice 0 4 Block) in
  (len Block < 4 \/ len Block - 4 < h \/ len Block - (4 + h) < 14 ->
   ReadStreamingData Block s = mkOutcome (inr tt) s [])
  /\ (4 <= len Block -> h <= len Block - 4 -> 14 <= len Block - (4 + h) ->
      let t :=
        set_DataLength
          (if len Block - (4 + h + 12) >=? 4
           then from_bytes_unsigned (slice (4 + h + 12) (4 + h + 16) Block)
           else 0)
          (Texture_init
             (pixel_of_code
                (from_bytes_unsigned (slice (4 + h) (4 + h + 4) Block)))
             (from_bytes_unsigned (slice (4 + h + 4) (4 + h + 6) Block))
             (from_bytes_unsigned (slice (4 + h + 6) (4 + h + 8) Block))) in
      exists s' l,
        ReadStreamingData Block s = mkOutcome (inr tt) s' l
        /\ same_file s s'
        /\ Texture_ s' = Some t
        /\ parsed_texture t
        /\ (StreamingTexture s' = StreamingTexture s
            \/ exists st, StreamingTexture s' = Some st
                 /\ parsed_texture st)
        /\ (StreamingTextureId s = 0 ->
            StreamingTexture s' = StreamingTexture s
            /\ StreamingId s' = StreamingId s)).
Proof.
  intros h. split; [apply ReadStreamingData_cut_short|].
  intros Hl Hfit Hlong t.
  pose proof (ReadStreamingData_main_texture Block s Hl Hfit Hlong) as Hmain.
  fold h in Hmain. fold t in Hmain.
  destruct (ReadStreamingData_run Block s)
    as (s' & l & Hrun & Hsf & Hcases & Hz).
  rewrite Hrun in Hmain. cbn [final] in Hmain.
  exists s', l. split; [exact Hrun|]. split; [exact Hsf|].
  split; [exact Hmain|]. split; [|split; [|exact Hz]].
  - pose proof (from_bytes_unsigned_nonneg (slice 0 4 Block)) as Hh.
    fold h in Hh.
    pose proof (ushort_range Block (4 + h + 4) ltac:(lia) ltac:(lia)) as HW.
    pose proof (ushort_range Block (4 + h + 6) ltac:(lia) ltac:(lia)) as HH.
    replace (4 + h + 4 + 2) with (4 + h + 6) in HW by lia.
    replace (4 + h + 6 + 2) with (4 + h + 8) in HH by lia.
    unfold t. parsed_fields.
    split; [exact HW|]. split; [exact HH|]. split; [|repeat split; discriminate].
    destruct (Z.geb_spec (len Block - (4 + h + 12)) 4) as [H4|H4]; [|lia].
    pose proof (uint_range Block (4 + h + 12) ltac:(lia) ltac:(lia)) as HD.
    replace (4 + h + 12 + 4) with (4 + h + 16) in HD by lia. exact HD.
  - destruct Hcases as [E|(t0 & _ & _ & _ & Hst)]; [|exact Hst].
    left. rewrite E. reflexivity.
Qed.

Lemma streaming_block_never_raises_witness :
  ReadStreamingData overrun_block blank_SCTX = mkOutcome (inr tt) blank_SCTX []
  /\ exists s' l,
       ReadStreamingData announcing_block blank_SCTX
       = mkOutcome (inr tt) s' l
       /\ Texture_ s'
          = Some (set_DataLength 16 (Texture_init (Enum ScPixel.RGBA8) 4 4)).
Proof.
  split.
  - apply (proj1 (streaming_block_never_raises overrun_block blank_SCTX)).
    right. left. reflexivity.
  - destruct (proj2 (streaming_block_never_raises announcing_block
                       blank_SCTX)
                ltac:(discriminate) ltac:(discriminate) ltac:(discriminate))
      as (s' & l & Hrun & _ & Ht & _).
    exists s', l. split; [exact Hrun|exact Ht].
Defined.

(** X18. [ReadTexture] on an object that has a main texture: it returns and
    logs nothing; a block of fewer than 34 bytes changes nothing; any other
    block overwrites the width and the height of the main texture with the
    16-bit fields at offsets 24 and 26 and changes nothing else, whatever
    hash length and hash follow. *)
Theorem header_block_sets_dimensions (Block : bytes) (s : SCTX)
    (t : Texture) :
  Texture_ s = Some t ->
  (len Block < 34 -> ReadTexture Block s = mkOutcome (inr tt) s [])
  /\ (34 <= len Block ->
      ReadTexture Block s
      = mkOutcome (inr tt)
          (set_Texture
             (Some (set_Height (from_bytes_unsigned (slice 26 28 Block))
                      (set_Width (from_bytes_unsigned (slice 24 26 Block))
                         t))) s)
          []).
Proof.
  intros Ht. rewrite (ReadTexture_with_Texture Block s t Ht).
  split; intros H.
  - destruct (Z.ltb_spec (len Block) 34); [reflexivity|lia].
  - destruct (Z.ltb_spec (len Block) 34); [lia|reflexivity].
Qed.

Lemma header_block_sets_dimensions_witness :
  ReadTexture (repeat x00 33) unrepaired_SCTX
  = mkOutcome (inr tt) unrepaired_SCTX []
  /\ ReadTexture streaming_block_4x4 unrepaired_SCTX
     = mkOutcome (inr tt)
         (set_Texture
            (Some (set_Height 0 (set_Width 0
                     (texture_of (Enum ScPixel.ETC2_RGB8) 8 8 ten_bytes))))
            unrepaired_SCTX)
         [].
Proof.
  split.
  - apply (header_block_sets_dimensions (repeat x00 33) unrepaired_SCTX
             (texture_of (Enum ScPixel.ETC2_RGB8) 8 8 ten_bytes) eq_refl).
    reflexivity.
  - apply (header_block_sets_dimensions streaming_block_4x4 unrepaired_SCTX
             (texture_of (Enum ScPixel.ETC2_RGB8) 8 8 ten_bytes) eq_refl).
    vm_compute. discriminate.
Defined.

Lemma FindAndDecompressPayload_frame zstd (s : SCTX) :
  exists s' l,
    FindAndDecompressPayload zstd s = mkOutcome (inr tt) s' l
    /\ same_container s s'.
Proof.
  unfold FindAndDecompressPayload.
  destruct (scan_offsets_invariant zstd [0; 512; 536; 584; 768; 1024]
              ltac:(repeat constructor; lia) s)
    as (b & s1 & l1 & Hrun & Hsame & _).
  unfold decompress_payload. run_monad. rewrite Hrun.
  destruct b; [eexists _, _; split; [reflexivity|exact Hsame]|].
  destruct Hsame as (? & ? & ? & ? & ? & ?).
  destruct (negb (bytes_find (OriginalFileData s1) ZstdMagic =? -1));
    [|eexists _, _; split; [reflexivity|container_fields]].
  cbn [CompressedPayload set_CompressedPayload].
  destruct (zstd _ None);
    eexists _, _; (split; [reflexivity|container_fields]).
Qed.

(** The body of the constructor, from any well-formed object. *)
Lemma SCTX__init__body_run zstd (s0 : SCTX) :
  parsed_container s0 ->
  exists r s' l,
    SCTX__init__body zstd s0 = mkOutcome r s' l
    /\ (r = inr tt
        \/ (r = inl (NoneType_has_no "Width") /\ Texture_ s' = None))
    /\ OriginalFileData s' = OriginalFileData s0
    /\ StreamingTextureId s' = StreamingTextureId s0
    /\ parsed_container s'
    /\ (StreamingTextureId s0 = 0 ->
        StreamingTexture s' = StreamingTexture s0).
Proof.
  intros Hpc0. unfold SCTX__init__body.
  destruct (FindAndDecompressPayload_frame zstd s0)
    as (s1 & l1 & Hrun1 & Hid1 & _ & Hst1 & Ht1 & Hdata1 & _).
  assert (Hpc1 : parsed_container s1).
  { destruct Hpc0 as [HT HS]. split; [rewrite Ht1|rewrite Hst1, Ht1]; auto. }
  rewrite <- Hdata1, <- Hid1, <- Hst1. clear Hpc0 Hst1 Ht1 Hdata1 Hid1.
  run_monad. rewrite Hrun1. cbv iota beta.
  destruct (init_streaming_block_spec
              (BinaryReader_init (OriginalFileData s1)) s1 eq_refl
              ltac:(unfold BinaryReader_init; cbn [tell getvalue];
                    pose proof (len_nonneg (OriginalFileData s1)); lia))
    as (block & r2 & Hrun2 & _ & Hlb & Hg2 & Htell2 & Hle2).
  rewrite Hrun2. cbv iota beta.
  destruct (ReadStreamingData_parsed block s1 Hpc1)
    as (s2 & l2 & Hrun3 & Hsf2 & Hpc2 & Hzero).
  rewrite Hrun3. cbv iota beta.
  assert (Hr2 : 0 <= tell r2 <= len (getvalue r2)).
  { destruct (ReadUint_spec (BinaryReader_init (OriginalFileData s1))
                ltac:(unfold BinaryReader_init; cbn [tell getvalue];
                      pose proof (len_nonneg (OriginalFileData s1)); lia))
      as (HL & _ & Ht).
    change (tell (BinaryReader_init (OriginalFileData s1))) with 0 in Ht.
    change (getvalue (BinaryReader_init (OriginalFileData s1)))
      with (OriginalFileData s1) in Ht.
    rewrite Hg2. pose proof (len_nonneg (OriginalFileData s1)). lia. }
  clear Hrun2 Hlb Htell2 Hle2.
  assert (Hd2 : OriginalFileData s2 = OriginalFileData s1)
    by (destruct Hsf2 as (_ & _ & H & _); exact H).
  assert (Hi2 : StreamingTextureId s2 = StreamingTextureId s1)
    by (destruct Hsf2 as (H & _); exact H).
  rewrite <- Hd2, <- Hi2. rewrite <- Hd2 in Hg2.
  assert (Hz2 : StreamingTextureId s2 = 0 ->
                StreamingTexture s2 = StreamingTexture s1)
    by (intros E; apply Hzero; congruence).
  clear Hd2 Hi2 Hsf2 Hrun3 Hrun1 Hpc1 Hzero.
  destruct (tell r2 <? len (OriginalFileData s2) - 4).
  - destruct (init_texture_block_spec r2 s2 Hg2 Hr2)
      as (block2 & r3 & Hrun4 & _ & _ & Hg3 & Htell3 & Hle3).
    rewrite Hrun4. cbv iota beta.
    assert (Hr3 : 0 <= tell r3).
    { destruct (ReadUint_spec r2 Hr2) as (HL & _ & Ht).
      rewrite Hg2 in Ht. rewrite Hg2 in Hr2. lia. }
    clear Hrun4 Htell3.
    destruct (ReadTexture_parsed block2 s2 Hpc2)
      as (r & s3 & Hrun5 & Hsf3 & Hpc3 & Hs3 & Hr).
    rewrite Hrun5.
    assert (Hd3 : OriginalFileData s3 = OriginalFileData s2)
      by (destruct Hsf3 as (_ & _ & H & _); exact H).
    assert (Hi3 : StreamingTextureId s3 = StreamingTextureId s2)
      by (destruct Hsf3 as (H & _); exact H).
    rewrite <- Hd3, <- Hi3. rewrite <- Hd3 in Hg3, Hle3.
    assert (Hz3 : StreamingTextureId s3 = 0 ->
                  StreamingTexture s3 = StreamingTexture s1)
      by (intros E; rewrite Hs3; apply Hz2; congruence).
    destruct Hr as [->|[-> Hnone]].
    + destruct (init_texture_data_parsed r3 s3 Hg3
                  ltac:(rewrite Hg3; lia) Hpc3)
        as (r4 & s4 & l4 & Hrun6 & Hsf4 & Hs4 & Hpc4).
      rewrite Hrun6.
      destruct (init_repair_parsed s4 Hpc4)
        as (s5 & l5 & Hrun7 & Hsf5 & Hs5 & Hpc5).
      rewrite Hrun7.
      eexists _, _, _. split; [reflexivity|]. split; [left; reflexivity|].
      destruct Hsf4 as (? & _ & ? & _). destruct Hsf5 as (? & _ & ? & _).
      split; [congruence|]. split; [congruence|]. split; [exact Hpc5|].
      intros E. rewrite Hs5, Hs4. apply Hz3. exact E.
    + eexists _, _, _. split; [reflexivity|].
      split; [right; split; [reflexivity|exact Hnone]|].
      split; [reflexivity|]. split; [reflexivity|].
      split; [exact Hpc3|exact Hz3].
  - destruct (init_repair_parsed s2 Hpc2)
      as (s5 & l5 & Hrun7 & Hsf5 & Hs5 & Hpc5).
    rewrite Hrun7.
    eexists _, _, _. split; [reflexivity|]. split; [left; reflexivity|].
    destruct Hsf5 as (? & _ & ? & _).
    split; [congruence|]. split; [congruence|]. split; [exact Hpc5|].
    intros E. rewrite Hs5. apply Hz2. congruence.
Qed.

(** X19. The constructor on any file, with any decompressor: it either
    returns or raises the [AttributeError] of [ReadTexture] on a missing
    main texture, and nothing else.  The object it leaves behind is
    well-formed: the file and the streaming id override are as given; the
    dimensions of both textures are 16-bit values and the declared lengths
    32-bit values; data that are stored are not empty and not longer than
    the declared length; nothing is memoised; and a streaming texture
    exists only beside a main texture.  When it raises there is no main
    texture. *)
Theorem constructor_outcome zstd (FileData : bytes) (StreamingIdOverride : Z) :
  exists r s' l,
    SCTX__init__ zstd FileData StreamingIdOverride = mkOutcome r s' l
    /\ (r = inr tt
        \/ (r = inl (AttributeError
                       "'NoneType' object has no attribute 'Width'")
            /\ Texture_ s' = None))
    /\ OriginalFileData s' = FileData
    /\ StreamingTextureId s' = StreamingIdOverride
    /\ parsed_container s'.
Proof.
  unfold SCTX__init__.
  destruct (SCTX__init__body_run zstd
           {| StreamingTextureId := StreamingIdOverride; TextureId := 255;
              StreamingTexture := None; Texture_ := None;
              OriginalFileData := FileData; CompressedPayload := None;
              DecompressedPayload := None; StreamingId := None |})
    as (r & s' & l & Hrun & Hr & Hd & Hi & Hpc & _);
    [split; intros ? [=]|].
  exists r, s', l. auto.
Qed.

(** X20. [StreamingIdOverride = 0] switches the streaming texture off: on
    any file the constructor then leaves [StreamingTexture] at [None]. *)
Theorem override_zero_disables_streaming_texture zstd (FileData : bytes) :
  StreamingTexture (final (SCTX__init__ zstd FileData 0)) = None.
Proof.
  unfold SCTX__init__.
  destruct (SCTX__init__body_run zstd
           {| StreamingTextureId := 0; TextureId := 255;
              StreamingTexture := None; Texture_ := None;
              OriginalFileData := FileData; CompressedPayload := None;
              DecompressedPayload := None; StreamingId := None |})
    as (r & s' & l & Hrun & _ & _ & _ & _ & Hz);
    [split; intros ? [=]|].
  rewrite Hrun. proj_red. apply Hz. reflexivity.
Qed.

Ltac log_eq :=
  repeat first [rewrite <- app_assoc | rewrite app_nil_l | rewrite app_nil_r];
  reflexivity.

(** C3 (counterexample).  The streaming block [c8 00 00 00 01] declares a
    header of 200 bytes with one byte left.  [ReadStreamingData] does not
    take [min 200 1] bytes for it: it returns with nothing logged and no
    texture created, and the parse of a file made of this block ends with an
    empty log.  In [guarded_data_file] the main texture declares 16 bytes of
    data and three bytes are left after the streaming block: the constructor
    does not take [min 16 3] bytes for it, it stores no data and logs no
    warning. *)
Lemma unclamped_lengths_counterexample :
  (fst (ReadUint (BinaryReader_init overrun_block)) = 200
   /\ ReadStreamingData overrun_block (fresh_SCTX overrun_file 255)
      = mkOutcome (inr tt) (fresh_SCTX overrun_file 255) []
   /\ logged (SCTX__init__ zstd_rejects overrun_file 255) = []
   /\ Texture_ (final (SCTX__init__ zstd_rejects overrun_file 255)) = None)
  /\ (len guarded_data_file = 27
      /\ SCTX__init__ zstd_rejects guarded_data_file 255
         = mkOutcome (inr tt)
             (set_Texture
                (Some (set_DataLength 16
                         (Texture_init (Enum ScPixel.RGBA8) 4 4)))
                (fresh_SCTX guarded_data_file 255))
             [(INFO, "Main texture data is too small, checking streaming texture..."%string)]).
Proof. repeat split. Qed.

(** C3 (amended).  The constructor on a file of [n] bytes.  The streaming
    block length [L1] is read at offset 0; with [R1] bytes left after it,
    [ReadStreamingData] gets exactly the next [min L1 R1] bytes, and the
    warning is logged exactly when [L1] exceeds [R1].  The two other lengths
    are behind the guard of line 330.  When 4 bytes or fewer are left after
    the streaming block, the constructor goes on to the repair: nothing more
    is taken and no warning logged, whatever the main texture declares.
    When more than 4 bytes are left, the texture block length [L2] is read;
    with [R2] bytes left after it [ReadTexture] gets exactly the next
    [min L2 R2] bytes, with a warning exactly when [L2] exceeds [R2]; an
    exception of [ReadTexture] leaves the constructor; otherwise, for the
    data length [L3] the main texture declares (0 without a main texture)
    and [R3] bytes left, the next [min L3 R3] bytes become the texture's
    data when there is at least one, with a warning exactly when [L3]
    exceeds [R3], and the constructor goes on to the repair.  No position
    is beyond the end of the file.  The streaming-block header length
    inside [ReadStreamingData] is guarded, not clamped: when it exceeds the
    bytes left in the block the method returns without a warning and
    without creating the texture. *)
Theorem top_level_lengths_are_clamped zstd (FileData : bytes)
    (StreamingIdOverride : Z) :
  let n := len FileData in
  let built := SCTX__init__ zstd FileData StreamingIdOverride in
  let located :=
    FindAndDecompressPayload zstd (fresh_SCTX FileData StreamingIdOverride) in
  let L1 := fst (ReadUint (BinaryReader_init FileData)) in
  let p1 := tell (snd (ReadUint (BinaryReader_init FileData))) in
  let R1 := n - p1 in
  let p2 := p1 + Z.min L1 R1 in
  let w1 := if L1 >? R1
            then [(WARNING, ("Invalid streaming length " ++ str L1)%string)]
            else [] in
  let streamed := ReadStreamingData (slice p1 p2 FileData) (final located) in
  let L2 := from_bytes_unsigned (slice p2 (p2 + 4) FileData) in
  let R2 := n - (p2 + 4) in
  let p3 := p2 + 4 + Z.min L2 R2 in
  let w2 := if L2 >? R2
            then [(WARNING, ("Invalid data length " ++ str L2)%string)]
            else [] in
  let header := ReadTexture (slice (p2 + 4) p3 FileData) (final streamed) in
  let L3 := match Texture_ (final header) with
            | Some t => DataLength t
            | None => 0
            end in
  let R3 := n - p3 in
  let p4 := p3 + Z.min L3 R3 in
  let w3 := if L3 >? R3
            then [(WARNING, ("Texture data length " ++ str L3
                             ++ " exceeds file size")%string)]
            else [] in
  let stored :=
    match Texture_ (final header) with
    | Some t =>
        if 0 <? Z.min L3 R3
        then set_Texture (Some (set_Data (Some (slice p3 p4 FileData)) t))
               (final header)
        else final header
    | None => final header
    end in
  (result located = inr tt /\ result streamed = inr tt
   /\ 0 <= L1 /\ p1 = Z.min 4 n
   /\ len (slice p1 p2 FileData) = Z.min L1 R1 /\ p2 <= n)
  /\ (n - 4 <= p2 ->
      result built = result (init_repair (final streamed))
      /\ final built = final (init_repair (final streamed))
      /\ logged built
         = logged located ++ w1 ++ logged streamed
           ++ logged (init_repair (final streamed)))
  /\ (p2 < n - 4 ->
      0 <= L2 /\ len (slice (p2 + 4) p3 FileData) = Z.min L2 R2 /\ p3 <= n
      /\ logged header = []
      /\ match result header with
         | inl e =>
             built = mkOutcome (inl e) (final header)
                       (logged located ++ w1 ++ logged streamed ++ w2)
         | inr _ =>
             0 <= L3 /\ len (slice p3 p4 FileData) = Z.min L3 R3 /\ p4 <= n
             /\ result built = result (init_repair stored)
             /\ final built = final (init_repair stored)
             /\ logged built
                = logged located ++ w1 ++ logged streamed ++ w2 ++ w3
                  ++ logged (init_repair stored)
         end)
  /\ (forall (Block : bytes) (s : SCTX),
        4 <= len Block ->
        len Block - 4 < fst (ReadUint (BinaryReader_init Block)) ->
        ReadStreamingData Block s = mkOutcome (inr tt) s []).
Proof.
  cbv zeta.
  pose proof (len_nonneg FileData) as Hn.
  assert (Hpc0 : parsed_container (fresh_SCTX FileData StreamingIdOverride))
    by (split; intros ? [=]).
  destruct (FindAndDecompressPayload_frame zstd
              (fresh_SCTX FileData StreamingIdOverride))
    as (s1 & l1 & Hrun1 & Hid1 & _ & Hst1 & Ht1 & Hdata1 & _).
  assert (Hpc1 : parsed_container s1).
  { destruct Hpc0 as [HT HS]. split; [rewrite Ht1|rewrite Hst1, Ht1]; auto. }
  change (OriginalFileData (fresh_SCTX FileData StreamingIdOverride))
    with FileData in Hdata1.
  assert (Hr0 : 0 <= tell (BinaryReader_init FileData)
                <= len (getvalue (BinaryReader_init FileData)))
    by (cbn [BinaryReader_init tell getvalue]; lia).
  destruct (ReadUint_spec (BinaryReader_init FileData) Hr0)
    as (HL1 & Hg1 & Htell1).
  change (tell (BinaryReader_init FileData)) with 0 in Htell1.
  change (getvalue (BinaryReader_init FileData)) with FileData in Htell1, Hg1.
  rewrite Z.add_0_l, Z.sub_0_r in Htell1.
  destruct (init_streaming_block_spec (BinaryReader_init FileData) s1
              (eq_sym Hdata1) Hr0)
    as (block & r2 & Hrun2 & Hblock & Hlb & Hg2 & Htell2 & Hle2).
  rewrite Hdata1 in Hrun2, Hblock, Hlb, Hg2, Htell2, Hle2.
  unfold SCTX__init__.
  change {| StreamingTextureId := StreamingIdOverride; TextureId := 255;
            StreamingTexture := None; Texture_ := None;
            OriginalFileData := FileData; CompressedPayload := None;
            DecompressedPayload := None; StreamingId := None |}
    with (fresh_SCTX FileData StreamingIdOverride).
  unfold SCTX__init__body. run_monad. rewrite Hrun1. cbv iota beta.
  rewrite Hdata1. rewrite Hrun2. cbv iota beta. proj_red.
  rewrite <- Hblock.
  destruct (ReadStreamingData_parsed block s1 Hpc1)
    as (s2 & l2 & Hrun3 & Hsf2 & Hpc2 & _).
  rewrite Hrun3. cbv iota beta. proj_red.
  assert (Hd2 : OriginalFileData s2 = FileData)
    by (destruct Hsf2 as (_ & _ & H & _); congruence).
  rewrite ?Hd2.
  set (L1 := fst (ReadUint (BinaryReader_init FileData))) in *.
  set (p1 := tell (snd (ReadUint (BinaryReader_init FileData)))) in *.
  set (R1 := len FileData - p1) in *.
  set (p2 := p1 + Z.min L1 R1) in *.
  rewrite Htell2.
  split; [repeat split; try assumption; try lia; congruence|].
  destruct (Z.ltb_spec p2 (len FileData - 4)) as [Hguard|Hguard].
  - split; [intros ?; lia|]. split; [|exact ReadStreamingData_header_overrun].
    intros _.
    destruct r2 as [g2 t2]. cbn [getvalue tell] in Hg2, Htell2. subst g2 t2.
    assert (Hr2 : 0 <= p2 <= len FileData) by lia.
    destruct (init_texture_block_spec {| getvalue := FileData; tell := p2 |}
                s2 (eq_sym Hd2) Hr2)
      as (block2 & r3 & Hrun4 & Hblock2 & Hlb2 & Hg3 & Htell3 & Hle3).
    rewrite ReadUint_exact in Hrun4, Hblock2, Hlb2, Htell3 by lia.
    cbn [fst snd tell] in Hrun4, Hblock2, Hlb2, Htell3.
    rewrite Hd2 in Hrun4, Hblock2, Hlb2, Hg3, Htell3, Hle3.
    pose proof (from_bytes_unsigned_nonneg (slice p2 (p2 + 4) FileData)) as HL2.
    set (L2 := from_bytes_unsigned (slice p2 (p2 + 4) FileData)) in *.
    set (R2 := len FileData - (p2 + 4)) in *.
    set (p3 := p2 + 4 + Z.min L2 R2) in *.
    rewrite Hrun4. cbv iota beta. rewrite <- Hblock2.
    destruct (ReadTexture_parsed block2 s2 Hpc2)
      as (r & s3 & Hrun5 & Hsf3 & Hpc3 & Hs3 & Hr).
    rewrite Hrun5. cbv iota beta. proj_red.
    split; [exact HL2|]. split; [exact Hlb2|]. split; [lia|].
    split; [reflexivity|].
    assert (Hd3 : OriginalFileData s3 = FileData)
      by (destruct Hsf3 as (_ & _ & H & _); congruence).
    destruct Hr as [->|[-> Hnone]].
    + destruct r3 as [g3 t3]. cbn [getvalue tell] in Hg3, Htell3. subst g3 t3.
      assert (Hr3 : 0 <= p3 <= len FileData) by lia.
      destruct (Texture_ s3) as [t|] eqn:Ht3.
      * destruct Hpc3 as [HT3 _].
        destruct (HT3 t Ht3) as (_ & _ & HDL & _).
        destruct (Z.lt_ge_cases 0 (DataLength t)) as [Hpos|Hzero].
        -- destruct (init_texture_data_spec
                       {| getvalue := FileData; tell := p3 |} s3 t
                       (eq_sym Hd3) Hr3 Ht3 Hpos)
             as (r4 & Hrun6 & Hlen & Htell4 & Hle4).
           cbn [tell] in Hrun6, Hlen, Htell4, Hle4.
           rewrite Hd3 in Hrun6, Hlen, Htell4, Hle4.
           rewrite Hrun6. cbv iota beta.
           split; [lia|]. split; [exact Hlen|]. split; [lia|].
           destruct (init_repair _) as [r5 s5 l5]. proj_red.
           repeat split; log_eq.
        -- assert (E0 : DataLength t = 0) by lia.
           unfold init_texture_data. run_monad. rewrite Ht3, E0.
           cbn [Z.gtb Z.compare]. cbv iota beta.
           assert (Em : Z.min 0 (len FileData - p3) = 0) by lia.
           rewrite Em. cbn [Z.ltb Z.compare]. cbv iota beta.
           rewrite Z.add_0_r.
           split; [lia|]. split; [|split; [lia|]].
           { unfold slice. rewrite Z.sub_diag. reflexivity. }
           destruct (Z.gtb_spec 0 (len FileData - p3)) as [?|_]; [lia|].
           destruct (init_repair s3) as [r5 s5 l5]. proj_red.
           repeat split; log_eq.
      * unfold init_texture_data. run_monad. rewrite Ht3. cbv iota beta.
        assert (Em : Z.min 0 (len FileData - p3) = 0) by lia.
        rewrite Em, Z.add_0_r.
        split; [lia|]. split; [|split; [lia|]].
        { unfold slice. rewrite Z.sub_diag. reflexivity. }
        destruct (Z.gtb_spec 0 (len FileData - p3)) as [?|_]; [lia|].
        destruct (init_repair s3) as [r5 s5 l5]. proj_red.
        repeat split; log_eq.
    + log_eq.
  - split; [|split; [intros ?; lia|exact ReadStreamingData_header_overrun]].
    intros _.
    destruct (init_repair s2) as [r5 s5 l5]. proj_red.
    repeat split; log_eq.
Qed.

Lemma top_level_lengths_are_clamped_witness :
  logged (SCTX__init__ zstd_rejects clamped_streaming_file 255)
  = [(WARNING, "Invalid streaming length 200"%string)]
  /\ logged (SCTX__init__ zstd_rejects clamped_header_file 255)
     = [(WARNING, "Invalid data length 100"%string)]
  /\ logged (SCTX__init__ zstd_rejects clamped_data_file 255)
     = [(WARNING, "Texture data length 16 exceeds file size"%string);
        (INFO, "Main texture data is too small, checking streaming texture..."%string)]
  /\ Texture_ (final (SCTX__init__ zstd_rejects clamped_data_file 255))
     = Some (set_Data (Some five_bytes)
               (set_DataLength 16 (Texture_init (Enum ScPixel.RGBA8) 4 4))).
Proof.
  split; [|split; [|split]].
  - exact (proj2 (proj2
             (proj1 (proj2 (top_level_lengths_are_clamped zstd_rejects
                              clamped_streaming_file 255))
                ltac:(vm_compute; discriminate)))).
  - exact (proj2 (proj2 (proj2 (proj2 (proj2 (proj2 (proj2 (proj2 (proj2
             (proj1 (proj2 (proj2
                       (top_level_lengths_are_clamped zstd_rejects
                          clamped_header_file 255)))
                ltac:(vm_compute; reflexivity))))))))))).
  - exact (proj2 (proj2 (proj2 (proj2 (proj2 (proj2 (proj2 (proj2 (proj2
             (proj1 (proj2 (proj2
                       (top_level_lengths_are_clamped zstd_rejects
                          clamped_data_file 255)))
                ltac:(vm_compute; reflexivity))))))))))).
  - exact (f_equal Texture_
             (proj1 (proj2 (proj2 (proj2 (proj2 (proj2 (proj2 (proj2 (proj2
                (proj1 (proj2 (proj2
                          (top_level_lengths_are_clamped zstd_rejects
                             clamped_data_file 255)))
                   ltac:(vm_compute; reflexivity)))))))))))).
Defined.

(** ** The decode dispatcher, continued *)

Ltac dispatch_cases :=
  repeat (match goal with
          | |- context [match re_search_dims ?s with _ => _ end] =>
              destruct (re_search_dims s) as [[? ?]|]
          | |- context [if ?c then _ else _] => destruct c
          | |- context [match ?x with inl _ => _ | inr _ => _ end] =>
              destruct x
          end; cbv beta iota).

(** The dispatch leaves the texture alone; what it returns is tagged RGBA or
    RGB; when it returns nothing it has logged that the format is
    unsupported; when it raises it has logged nothing. *)
Lemma decode_dispatch_run dec (d : bytes) (t : Texture) :
  exists r l,
    decode_dispatch dec d t = mkOutcome r t l
    /\ match r with
       | inl _ => l = []
       | inr None => l = [unsupported_record t]
       | inr (Some (_, mode)) => mode = "RGBA"%string \/ mode = "RGB"%string
       end.
Proof.
  unfold decode_dispatch, unsupported, unsupported_record. run_monad.
  dispatch_cases;
    eexists _, _; (split; [reflexivity|]); cbv beta iota; cbn [app]; auto.
Qed.

(** [DecodeTexture] with any decompressor and any decoder, on any texture:
    it returns; it changes nothing of the texture but the memoised fields;
    an image comes tagged RGBA or RGB; and when there is no image the last
    record logged is an error. *)
Lemma DecodeTexture_run zstd dec (self : SCTX) (use : bool) (t : Texture) :
  exists r t' l,
    DecodeTexture zstd dec self use t = mkOutcome (inr r) t' l
    /\ same_texture t t'
    /\ match r with
       | Some (_, mode) => mode = "RGBA"%string \/ mode = "RGB"%string
       | None => exists l0 msg, l = l0 ++ [(ERROR, msg)]
       end.
Proof.
  destruct (decode_source_run zstd self use t)
    as (src & t1 & l1 & Hsrc & Hsame & _).
  destruct src as [[d|]|].
  - destruct (Z.lt_ge_cases (len d) 16) as [Hs|Hl].
    + rewrite (DecodeTexture_too_small zstd dec self use t t1 d l1 Hsrc Hs).
      eexists _, _, _. split; [reflexivity|]. split; [exact Hsame|].
      eexists _, _. reflexivity.
    + rewrite (DecodeTexture_selected zstd dec self use t t1 d l1 Hsrc Hl).
      destruct (decode_dispatch_run dec d t1) as (r & l & Hrun & Hr).
      rewrite Hrun. destruct r as [e|[[b mode]|]].
      * eexists _, _, _. split; [reflexivity|]. split; [exact Hsame|].
        eexists (l1 ++ l), _. rewrite app_assoc. reflexivity.
      * eexists _, _, _. split; [reflexivity|]. split; [exact Hsame|].
        exact Hr.
      * eexists _, _, _. split; [reflexivity|]. split; [exact Hsame|].
        eexists l1, _. rewrite Hr. reflexivity.
  - unfold DecodeTexture. unfold bind at 1. rewrite Hsrc.
    cbn [truthy negb orb]. run_monad.
    eexists _, _, _. split; [reflexivity|]. split; [exact Hsame|].
    eexists l1, _. rewrite app_nil_r. reflexivity.
  - unfold DecodeTexture. unfold bind at 1. rewrite Hsrc. run_monad.
    eexists _, _, _. split; [reflexivity|]. split; [exact Hsame|].
    eexists l1, _. rewrite app_nil_r. reflexivity.
Qed.


(** X21. [DecodeTexture] with any decompressor and any decoder library, on
    any object and texture: it returns, whatever the libraries raise; it
    changes nothing of the texture but the memoised fields; an image comes
    tagged RGBA or RGB; and when there is no image the last record logged
    is an error. *)
Theorem DecodeTexture_never_raises zstd dec (self : SCTX) (use : bool)
    (t : Texture) :
  exists r t' l,
    DecodeTexture zstd dec self use t = mkOutcome (inr r) t' l
    /\ same_texture t t'
    /\ match r with
       | Some (_, mode) => mode = "RGBA"%string \/ mode = "RGB"%string
       | None => exists l0 msg, l = l0 ++ [(ERROR, msg)]
       end.
Proof. apply DecodeTexture_run. Qed.

Lemma prefix_app_l (p q s : string) :
  String.prefix (p ++ q) s = true -> String.prefix p s = true.
Proof.
  revert s. induction p as [|c p IH]; intros s H.
  - destruct s; reflexivity.
  - destruct s as [|c' s]; [discriminate H|].
    cbn [String.append String.prefix] in *.
    destruct (Ascii.ascii_dec c c'); [apply IH; exact H|discriminate H].
Qed.

(** A name that holds [p ++ q] holds [p]. *)
Lemma str_in_app_l (p q s : string) :
  str_in (p ++ q) s = true -> str_in p s = true.
Proof.
  induction s as [|c s IH]; intros H.
  - rewrite str_in_unfold in *.
    destruct (String.prefix (p ++ q) "") eqn:E; [|discriminate H].
    rewrite (prefix_app_l _ _ _ E). reflexivity.
  - rewrite str_in_unfold in H |- *.
    destruct (String.prefix (p ++ q) (String c s)) eqn:E.
    + rewrite (prefix_app_l _ _ _ E). reflexivity.
    + destruct (String.prefix p (String c s)); [reflexivity|].
      apply IH. exact H.
Qed.

(** The dispatch never reaches its call of [decode_etc2a1]: a name that
    holds one of the two punch-through names holds [ETC2_RGB8] or
    [ETC2_SRGB8], which the branch before takes. *)
Lemma decode_dispatch_etc2a1 f dec (d : bytes) (t : Texture) :
  decode_dispatch (with_decode_etc2a1 f dec) d t = decode_dispatch dec d t.
Proof.
  unfold decode_dispatch, unsupported. run_monad.
  cbn [with_decode_etc2a1 decode_astc decode_etc1 decode_etc2 decode_etc2a1
       decode_eacr decode_eacrg decode_pvrtc].
  destruct (IsAstc t); [reflexivity|].
  destruct (IsEtc t); [|reflexivity].
  destruct (str_in "ETC2_RGB8" (GetFormatName t)) eqn:E1;
    [rewrite orb_true_r; reflexivity|].
  destruct (str_in "ETC2_SRGB8" (GetFormatName t)) eqn:E2;
    [rewrite orb_true_r; reflexivity|].
  destruct (str_in "ETC2_RGB8_PUNCHTHROUGH_ALPHA1" (GetFormatName t)) eqn:E3.
  { apply (str_in_app_l "ETC2_RGB8" "_PUNCHTHROUGH_ALPHA1") in E3.
    congruence. }
  destruct (str_in "ETC2_SRGB8_PUNCHTHROUGH_ALPHA1" (GetFormatName t)) eqn:E4.
  { apply (str_in_app_l "ETC2_SRGB8" "_PUNCHTHROUGH_ALPHA1") in E4.
    congruence. }
  cbn [orb]. reflexivity.
Qed.

(** X22. [texture2ddecoder.decode_etc2a1] is never called: with any other
    function in its place, [DecodeTexture] does the same on every object and
    texture. *)
Theorem decode_etc2a1_is_never_called zstd dec f (self : SCTX) (use : bool)
    (t : Texture) :
  DecodeTexture zstd (with_decode_etc2a1 f dec) self use t
  = DecodeTexture zstd dec self use t.
Proof.
  destruct (decode_source_run zstd self use t)
    as (src & t1 & l1 & Hsrc & _ & _).
  destruct src as [[d|]|].
  - destruct (Z.lt_ge_cases (len d) 16) as [Hs|Hl].
    + rewrite !(DecodeTexture_too_small zstd _ self use t t1 d l1 Hsrc Hs).
      reflexivity.
    + rewrite !(DecodeTexture_selected zstd _ self use t t1 d l1 Hsrc Hl).
      rewrite decode_dispatch_etc2a1. reflexivity.
  - unfold DecodeTexture. run_monad. rewrite Hsrc. reflexivity.
  - unfold DecodeTexture. run_monad. rewrite Hsrc. reflexivity.
Qed.

(** The dispatch returns nothing exactly when none of its branches takes
    the texture. *)
Lemma decode_dispatch_takes dec (d : bytes) (t : Texture) :
  result (decode_dispatch dec d t) = inr None <-> dispatch_takes t = false.
Proof.
  unfold decode_dispatch, unsupported, dispatch_takes. run_monad.
  destruct (IsAstc t).
  { destruct (re_search_dims (GetFormatName t)) as [[bw bh]|];
      [|split; reflexivity].
    dispatch_cases; proj_red; split; discriminate. }
  destruct (IsEtc t).
  { repeat match goal with
           | |- context [if ?c then _ else _] =>
               destruct c; cbv beta iota; cbn [orb];
               [dispatch_cases; proj_red; split; discriminate|]
           end.
    split; reflexivity. }
  destruct (IsUncompressed t).
  { repeat match goal with
           | |- context [if ?c then _ else _] =>
               destruct c; cbv beta iota; cbn [orb];
               [dispatch_cases; proj_red; split; discriminate|]
           end.
    split; reflexivity. }
  destruct (IsPvrtc t); [|split; reflexivity].
  dispatch_cases; proj_red; split; discriminate.
Qed.

(** X23. Of the members of [ScPixel], the dispatch has no branch for the
    eight with 16-bit integer channels, and has one for every other: it
    returns [None] exactly for those eight. *)
Theorem undecodable_members dec (d : bytes) (t : Texture) (p : ScPixel.t) :
  PixelType t = Enum p ->
  (result (decode_dispatch dec d t) = inr None
   <-> sixteen_bit_integer p = true).
Proof.
  intros Hp. rewrite decode_dispatch_takes.
  unfold dispatch_takes, IsUncompressed, IsAstc, IsEtc, IsPvrtc,
    GetFormatName.
  rewrite Hp. destruct p; vm_compute; split; congruence.
Qed.

Lemma undecodable_members_witness :
  result (decode_dispatch decoder_double sixteen_bytes
            (texture_of (Enum ScPixel.RGBA16) 2 2 sixteen_bytes)) = inr None
  /\ result (decode_dispatch decoder_double sixteen_bytes
               (texture_of (Enum ScPixel.RGBA16F) 2 2 sixteen_bytes))
     <> inr None.
Proof.
  split.
  - apply (undecodable_members decoder_double sixteen_bytes
             (texture_of (Enum ScPixel.RGBA16) 2 2 sixteen_bytes)
             ScPixel.RGBA16 eq_refl).
    reflexivity.
  - intros H.
    apply (undecodable_members decoder_double sixteen_bytes
             (texture_of (Enum ScPixel.RGBA16F) 2 2 sixteen_bytes)
             ScPixel.RGBA16F eq_refl) in H.
    discriminate H.
Defined.

Lemma decode_dispatch_astc dec (d : bytes) (t : Texture) (bw bh : Z) :
  IsAstc t = true -> re_search_dims (GetFormatName t) = Some (bw, bh) ->
  decode_dispatch dec d t
  = match decode_astc dec d (Width t) (Height t) bw bh with
    | inl e => mkOutcome (inl e) t []
    | inr RgbaData =>
        match rgba_to_bgra RgbaData with
        | inl e => mkOutcome (inl e) t []
        | inr BgraData => mkOutcome (inr (Some (BgraData, "RGBA"))) t []
        end
    end.
Proof.
  intros HA HR. unfold decode_dispatch. run_monad. rewrite HA, HR.
  destruct (decode_astc dec d _ _ _ _) as [e|RgbaData]; [reflexivity|].
  destruct (rgba_to_bgra RgbaData); reflexivity.
Qed.

(** X24. For every member whose value is in [AstcFormatIds] the two numbers
    the dispatcher reads out of the format name are the block footprint of
    the catalogue, and the image is what [decode_astc] makes of the selected
    data with the texture's size and that footprint, red and blue
    exchanged. *)
Theorem decode_astc_footprint zstd dec (self : SCTX) (use : bool)
    (t t' : Texture) (d : bytes) (l : list LogRecord) (p : ScPixel.t) :
  decode_source zstd self use t = mkOutcome (inr (Some (Some d))) t' l ->
  16 <= len d -> PixelType t = Enum p ->
  int_in (ScPixel.value p) AstcFormatIds = true ->
  exists bw bh,
    Catalogue.block_footprint p = Some (bw, bh)
    /\ result (DecodeTexture zstd dec self use t)
       = inr (reordered (decode_astc dec d (Width t) (Height t) bw bh)).
Proof.
  intros E Hd Hp Hk.
  pose proof (decode_source_same _ _ _ _ _ _ _ E) as (Hw & Hh & _ & _ & Hp').
  rewrite Hp in Hp'.
  rewrite (DecodeTexture_selected zstd dec self use t t' d l E Hd).
  destruct p; vm_compute in Hk; try discriminate Hk;
    (eexists _, _; split; [reflexivity|];
     erewrite decode_dispatch_astc; [| by_format Hp' ..];
     rewrite Hw, Hh; unfold reordered;
     destruct (decode_astc dec d _ _ _ _) as [e|RgbaData];
       [reflexivity|];
     destruct (rgba_to_bgra RgbaData); reflexivity).
Qed.

Lemma decode_astc_footprint_witness :
  exists bw bh,
    Catalogue.block_footprint ScPixel.ASTC_RGBA8_6x5 = Some (bw, bh)
    /\ result (DecodeTexture zstd_rejects decoder_double blank_SCTX false
                 (texture_of (Enum ScPixel.ASTC_RGBA8_6x5) 2 2 sixteen_bytes))
       = inr (reordered (decode_astc decoder_double sixteen_bytes 2 2 bw bh)).
Proof.
  apply (decode_astc_footprint zstd_rejects decoder_double blank_SCTX false
           (texture_of (Enum ScPixel.ASTC_RGBA8_6x5) 2 2 sixteen_bytes)
           _ sixteen_bytes _ ScPixel.ASTC_RGBA8_6x5
           eq_refl ltac:(discriminate) eq_refl eq_refl).
Defined.

(** ** The loops of the dispatcher *)

Lemma for_extend_map {A B : Type} (h : A -> B) (l : list A)
    (g : B -> Exn + bytes) :
  for_extend (map h l) g = for_extend l (fun x => g (h x)).
Proof.
  induction l as [|x l IH]; [reflexivity|].
  cbn [map for_extend]. rewrite IH. reflexivity.
Qed.

Lemma for_extend_ext {A : Type} (l : list A) (g g' : A -> Exn + bytes) :
  (forall x, In x l -> g x = g' x) -> for_extend l g = for_extend l g'.
Proof.
  induction l as [|x l IH]; intros H; [reflexivity|].
  cbn [for_extend]. rewrite (H x (or_introl eq_refl)).
  rewrite IH; [reflexivity|]. intros y Hy. apply H. right. exact Hy.
Qed.

(** A loop whose body never raises appends what the body makes of each
    item. *)
Lemma for_extend_flat_map {A : Type} (l : list A) (g : A -> Exn + bytes)
    (f : A -> bytes) :
  (forall x, In x l -> g x = inr (f x)) ->
  for_extend l g = inr (flat_map f l).
Proof.
  induction l as [|x l IH]; intros H; [reflexivity|].
  cbn [for_extend flat_map]. rewrite (H x (or_introl eq_refl)).
  rewrite IH; [reflexivity|]. intros y Hy. apply H. right. exact Hy.
Qed.

(** A loop raises as soon as its body raises on some item. *)
Lemma for_extend_raises {A : Type} (l : list A) (g : A -> Exn + bytes) :
  (exists x, In x l /\ exists e, g x = inl e) ->
  exists e, for_extend l g = inl e.
Proof.
  induction l as [|x l IH]; intros (y & Hy & e & Hfail).
  - destruct Hy.
  - cbn [for_extend]. destruct (g x) as [e'|b] eqn:Hx.
    + exists e'. reflexivity.
    + destruct Hy as [<-|Hy]; [congruence|].
      destruct IH as (e' & ->); [exists y; eauto|].
      exists e'. reflexivity.
Qed.

(** A loop over [range(0, len(d), k)] that works on [d[I:I+k]] is a loop
    over the pieces of [d]. *)
Lemma for_extend_chunks (k : nat) (d : bytes) (g : bytes -> Exn + bytes) :
  for_extend (range_step (len d) (Z.of_nat k))
    (fun Idx => g (slice Idx (Idx + Z.of_nat k) d))
  = for_extend (chunks k d) g.
Proof.
  unfold range_step, chunks. rewrite !for_extend_map.
  apply for_extend_ext. intros i _. f_equal. unfold slice.
  replace (Z.of_nat i * Z.of_nat k + Z.of_nat k - Z.of_nat i * Z.of_nat k)
    with (Z.of_nat k) by lia.
  rewrite <- Nat2Z.inj_mul, !Nat2Z.id. reflexivity.
Qed.

Lemma chunks_length (k : nat) (d : bytes) (c : bytes) :
  (0 < k)%nat -> In c (chunks k d) ->
  (0 < List.length c <= k)%nat
  /\ (len d mod Z.of_nat k = 0 -> List.length c = k).
Proof.
  intros Hk Hc. unfold chunks in Hc. apply in_map_iff in Hc.
  destruct Hc as (i & <- & Hi). apply in_seq in Hi.
  rewrite length_firstn, length_skipn.
  set (n := List.length d) in *.
  assert (Hn : len d = Z.of_nat n) by reflexivity. rewrite Hn in *.
  set (q := (Z.of_nat n + Z.of_nat k - 1) / Z.of_nat k) in *.
  assert (Hq : Z.of_nat k * q <= Z.of_nat n + Z.of_nat k - 1
               < Z.of_nat k * (q + 1)).
  { pose proof (Z.div_mod (Z.of_nat n + Z.of_nat k - 1) (Z.of_nat k)
                  ltac:(lia)) as E.
    pose proof (Z.mod_pos_bound (Z.of_nat n + Z.of_nat k - 1) (Z.of_nat k)
                  ltac:(lia)) as B.
    fold q in E. lia. }
  assert (Hq0 : 0 <= q) by (apply Z.div_pos; lia).
  assert (Hi' : Z.of_nat i + 1 <= q) by lia.
  assert (Hik : Z.of_nat (i * k) = Z.of_nat i * Z.of_nat k) by lia.
  split; [nia|].
  intros Hm.
  assert (Hd : Z.of_nat n = Z.of_nat k * (Z.of_nat n / Z.of_nat k)).
  { pose proof (Z.div_mod (Z.of_nat n) (Z.of_nat k) ltac:(lia)). lia. }
  set (m := Z.of_nat n / Z.of_nat k) in *.
  assert (q <= m) by nia.
  nia.
Qed.

(** When the length is no multiple of [k], some piece is shorter than
    [k]. *)
Lemma chunks_short (k : nat) (d : bytes) :
  (0 < k)%nat -> len d mod Z.of_nat k <> 0 ->
  exists c, In c (chunks k d) /\ (List.length c < k)%nat.
Proof.
  intros Hk Hm.
  set (n := List.length d).
  assert (Hn : len d = Z.of_nat n) by reflexivity. rewrite Hn in *.
  pose proof (Z.div_mod (Z.of_nat n) (Z.of_nat k) ltac:(lia)) as E.
  pose proof (Z.mod_pos_bound (Z.of_nat n) (Z.of_nat k) ltac:(lia)) as B.
  set (m := Z.of_nat n / Z.of_nat k) in *.
  set (r := Z.of_nat n mod Z.of_nat k) in *.
  assert (Hm0 : 0 <= m) by (apply Z.div_pos; lia).
  assert (Hq : (Z.of_nat n + Z.of_nat k - 1) / Z.of_nat k = m + 1).
  { symmetry. apply Z.div_unique with (r := r - 1); lia. }
  exists (firstn k (skipn (Z.to_nat m * k) d)). split.
  - unfold chunks. apply in_map_iff. exists (Z.to_nat m). split; [reflexivity|].
    apply in_seq. rewrite Hn, Hq. lia.
  - rewrite length_firstn, length_skipn. fold n. nia.
Qed.

(** A loop that unpacks each piece of [k] bytes: it makes [f] of every
    pixel, or raises when the data do not divide into pixels. *)
Lemma for_extend_per_pixel (k : nat) (d : bytes) (g : bytes -> Exn + bytes)
    (f : bytes -> bytes) :
  (0 < k)%nat ->
  (forall c, List.length c = k -> g c = inr (f c)) ->
  (forall c, List.length c <> k -> exists e, g c = inl e) ->
  match per_pixel k f d with
  | Some out => for_extend (chunks k d) g = inr out
  | None => exists e, for_extend (chunks k d) g = inl e
  end.
Proof.
  intros Hk Hok Hbad. unfold per_pixel.
  destruct (Z.eqb_spec (len d mod Z.of_nat k) 0) as [Hm|Hm].
  - apply for_extend_flat_map. intros c Hc. apply Hok.
    apply (chunks_length k d c Hk Hc). exact Hm.
  - apply for_extend_raises.
    destruct (chunks_short k d Hk Hm) as (c & Hc & Hlt).
    exists c. split; [exact Hc|]. apply Hbad. lia.
Qed.

(** The dispatch on a texture of a known member: the conditions on the
    format name are evaluated. *)
Ltac dispatch_by_format Hp :=
  unfold decode_dispatch, unsupported; run_monad;
  unfold IsUncompressed, IsAstc, IsEtc, IsPvrtc, GetFormatName;
  rewrite Hp;
  repeat (match goal with
          | |- context [if ?c then _ else _] =>
              let v := eval vm_compute in c in
              change c with v
          end; cbv beta iota);
  repeat match goal with
         | |- context [str_in ?a ?b] =>
             let v := eval vm_compute in (str_in a b) in
             change (str_in a b) with v
         end.

Lemma for_extend_chunks_Z (k : Z) (d : bytes) (g : bytes -> Exn + bytes) :
  0 < k ->
  for_extend (range_step (len d) k) (fun Idx => g (slice Idx (Idx + k) d))
  = for_extend (chunks (Z.to_nat k) d) g.
Proof.
  intros Hk. rewrite <- (for_extend_chunks (Z.to_nat k) d g).
  rewrite Z2Nat.id by lia. reflexivity.
Qed.

(** Pieces of a given length, for the patterns of the loops. *)
Ltac by_length :=
  intros [|? [|? [|? [|? ?]]]] Hlen;
  cbn [List.length] in Hlen; try reflexivity; try (eexists; reflexivity);
  try discriminate Hlen; try lia; exfalso; apply Hlen; reflexivity.

(** X25. The ETC and EAC members: ETC1, ETC2 RGB and the two punch-through
    members go to [decode_etc1], the two ETC2 RGBA members to [decode_etc2],
    the R11 members to [decode_eacr] and the RG11 members to [decode_eacrg],
    both with [signed] set for the signed member only.  The image is the
    decoder's answer with red and blue exchanged, a grey opaque pixel per
    byte of [decode_eacr], or a pixel (0, G, R, 255) per two bytes of
    [decode_eacrg]; there is no image when the decoder raises or the
    two-channel answer has an odd length. *)
Theorem decode_etc_family zstd dec (self : SCTX) (use : bool)
    (t t' : Texture) (d : bytes) (l : list LogRecord) (p : ScPixel.t)
    (e : EtcEntry) :
  decode_source zstd self use t = mkOutcome (inr (Some (Some d))) t' l ->
  16 <= len d -> PixelType t = Enum p -> etc_entry p = Some e ->
  result (DecodeTexture zstd dec self use t)
  = inr (etc_image dec d (Width t) (Height t) e).
Proof.
  intros E Hd Hp He.
  pose proof (decode_source_same _ _ _ _ _ _ _ E) as (Hw & Hh & _ & _ & Hp').
  rewrite Hp in Hp'.
  rewrite (DecodeTexture_selected zstd dec self use t t' d l E Hd).
  rewrite <- Hw, <- Hh.
  destruct p; try discriminate He; injection He as <-;
    dispatch_by_format Hp'; unfold etc_image, reordered;
    try (destruct (decode_etc1 dec d _ _) as [e|RgbaData]; [reflexivity|];
         destruct (rgba_to_bgra RgbaData); reflexivity);
    try (destruct (decode_etc2 dec d _ _) as [e|RgbaData]; [reflexivity|];
         destruct (rgba_to_bgra RgbaData); reflexivity);
    try (destruct (decode_eacr dec d _ _ _) as [e|MonoData]; [reflexivity|];
         match goal with
         | |- context [for_extend MonoData ?g] =>
             rewrite (for_extend_flat_map MonoData g
                        (fun i => [i; i; i; xff]))
               by (intros; reflexivity)
         end;
         reflexivity);
    (destruct (decode_eacrg dec d _ _ _) as [e|RgData]; [reflexivity|];
     rewrite (for_extend_chunks_Z 2 RgData
                (fun c => match c with
                          | [R; G] => inr [x00; G; R; xff]
                          | [] => inl (unpack_error 2 (len ([])))
                          | [R] => inl (unpack_error 2 (len ([R])))
                          | R :: G :: B :: l => inl (unpack_error 2 (len (R :: G :: B :: l)))
                          end) ltac:(lia));
     change (Z.to_nat 2) with 2%nat;
     match goal with
     | |- context [for_extend (chunks 2 RgData) ?g] =>
         pose proof (for_extend_per_pixel 2 RgData g
                    (fun c => match c with
                              | [R; G] => [x00; G; R; xff]
                              | _ => []
                              end) ltac:(lia) ltac:(by_length)
                    ltac:(by_length)) as Hpp
     end;
     revert Hpp; destruct (per_pixel 2 _ RgData);
        [intros ->|intros (e0 & ->)]; reflexivity).
Qed.

Lemma decode_etc_family_witness :
  result (DecodeTexture zstd_rejects decoder_double blank_SCTX false
            (texture_of (Enum ScPixel.EAC_SIGNED_RG11) 2 2 sixteen_bytes))
  = inr (etc_image decoder_double sixteen_bytes 2 2 (via_eacrg true)).
Proof.
  apply (decode_etc_family zstd_rejects decoder_double blank_SCTX false
           (texture_of (Enum ScPixel.EAC_SIGNED_RG11) 2 2 sixteen_bytes)
           _ sixteen_bytes _ ScPixel.EAC_SIGNED_RG11 (via_eacrg true)
           eq_refl ltac:(discriminate) eq_refl eq_refl).
Defined.

Lemma chunks_nil (k : nat) : (0 < k)%nat -> chunks k [] = [].
Proof.
  intros Hk. unfold chunks. change (len (@nil byte)) with 0.
  rewrite Z.div_small by lia. reflexivity.
Qed.

Lemma chunks_cons (k : nat) (d : bytes) :
  (0 < k)%nat -> d <> [] ->
  chunks k d = firstn k d :: chunks k (skipn k d).
Proof.
  intros Hk Hd. unfold chunks.
  assert (Hn : (0 < List.length d)%nat)
    by (destruct d; [congruence|cbn [List.length]; lia]).
  assert (Hq : Z.to_nat ((len d + Z.of_nat k - 1) / Z.of_nat k)
               = S (Z.to_nat ((len (skipn k d) + Z.of_nat k - 1)
                              / Z.of_nat k))).
  { unfold len. rewrite length_skipn.
    destruct (Nat.le_gt_cases k (List.length d)) as [Hle|Hgt].
    - replace (Z.of_nat (List.length d) + Z.of_nat k - 1)
        with (Z.of_nat (List.length d - k) + Z.of_nat k - 1
              + 1 * Z.of_nat k) by lia.
      rewrite Z.div_add by lia.
      rewrite Z2Nat.inj_add; [lia| |lia].
      apply Z.div_pos; lia.
    - replace (List.length d - k)%nat with 0%nat by lia.
      change (Z.of_nat 0) with 0.
      rewrite (Z.div_small (0 + Z.of_nat k - 1)) by lia.
      replace (Z.of_nat (List.length d) + Z.of_nat k - 1)
        with (Z.of_nat (List.length d) - 1 + 1 * Z.of_nat k) by lia.
      rewrite Z.div_add by lia. rewrite Z.div_small by lia. reflexivity. }
  rewrite Hq. cbn [seq map]. f_equal.
  rewrite <- seq_shift, map_map. apply map_ext. intros i.
  replace (S i * k)%nat with (i * k + k)%nat by lia.
  rewrite <- skipn_skipn. reflexivity.
Qed.

(** The pieces put together again are the data. *)
Lemma chunks_concat (k : nat) (d : bytes) :
  (0 < k)%nat -> flat_map (fun c => c) (chunks k d) = d.
Proof.
  intros Hk.
  assert (H : forall n d, (List.length d <= n)%nat ->
                          flat_map (fun c => c) (chunks k d) = d).
  { clear d. induction n as [|n IH]; intros d Hn.
    - destruct d; [|cbn [List.length] in Hn; lia].
      rewrite chunks_nil by exact Hk. reflexivity.
    - destruct d as [|x d]; [rewrite chunks_nil by exact Hk; reflexivity|].
      rewrite chunks_cons by (exact Hk || discriminate).
      cbn [flat_map]. rewrite IH.
      + apply firstn_skipn.
      + rewrite length_skipn. cbn [List.length] in *. lia. }
  apply (H (List.length d)). lia.
Qed.

Lemma per_pixel_id (k : nat) (d : bytes) :
  (0 < k)%nat -> len d mod Z.of_nat k = 0 ->
  per_pixel k (fun c => c) d = Some d.
Proof.
  intros Hk Hm. unfold per_pixel. rewrite Hm. cbn [Z.eqb].
  rewrite chunks_concat by exact Hk. reflexivity.
Qed.

(** X26. The 8-bit members with one, two or three channels (signed,
    [Unorm] and [sRGB] variants alike) yield an RGB image: the selected
    data unchanged for the RGB members, each pixel reversed for the BGR
    members, a zero blue channel added for the two-channel members, the byte
    repeated three times for the one-channel members; and no image when the
    data do not divide into pixels. *)
Theorem decode_eight_bit_rgb zstd dec (self : SCTX) (use : bool)
    (t t' : Texture) (d : bytes) (l : list LogRecord) (p : ScPixel.t) :
  decode_source zstd self use t = mkOutcome (inr (Some (Some d))) t' l ->
  16 <= len d -> PixelType t = Enum p -> is_eight_bit_rgb p = true ->
  result (DecodeTexture zstd dec self use t)
  = inr (match eight_bit_image p d with
         | Some out => Some (out, "RGB"%string)
         | None => None
         end)
  /\ (eight_bit_image p d = per_pixel 3 (fun c => c) d ->
      len d mod 3 = 0 ->
      result (DecodeTexture zstd dec self use t) = inr (Some (d, "RGB"%string))).
Proof.
  intros E Hd Hp Hk.
  assert (Hmain : result (DecodeTexture zstd dec self use t)
                  = inr (match eight_bit_image p d with
                         | Some out => Some (out, "RGB"%string)
                         | None => None
                         end)).
  2:{ split; [exact Hmain|]. intros Hrgb Hm. rewrite Hmain, Hrgb.
      rewrite (per_pixel_id 3 d ltac:(lia) Hm). reflexivity. }
  pose proof (decode_source_same _ _ _ _ _ _ _ E) as (Hw & Hh & _ & _ & Hp').
  rewrite Hp in Hp'.
  rewrite (DecodeTexture_selected zstd dec self use t t' d l E Hd).
  destruct p; try discriminate Hk;
    dispatch_by_format Hp'; unfold eight_bit_image;
    first
      [ match goal with
        | |- context [for_extend d ?g] =>
            rewrite (for_extend_flat_map d g (fun r => [r; r; r]))
              by (intros; reflexivity)
        end; reflexivity
      | rewrite (for_extend_chunks_Z 2 d
                   (fun c => match c with
                             | [R; G] => inr [R; G; x00]
                             | [] => inl (unpack_error 2 (len ([])))
                             | [R] => inl (unpack_error 2 (len ([R])))
                             | R :: G :: B :: l => inl (unpack_error 2 (len (R :: G :: B :: l)))
                             end) ltac:(lia));
        change (Z.to_nat 2) with 2%nat;
        match goal with
        | |- context [for_extend (chunks 2 d) ?g] =>
            pose proof (for_extend_per_pixel 2 d g (fun c => c ++ [x00])
                       ltac:(lia) ltac:(by_length) ltac:(by_length)) as Hpp
        end;
        revert Hpp; destruct (per_pixel 2 _ d);
        [intros ->|intros (e0 & ->)]; reflexivity
      | rewrite (for_extend_chunks_Z 3 d
                   (fun c => match c with
                             | [R; G; B] => inr [R; G; B]
                             | [] => inl (unpack_error 3 (len ([])))
                             | [R] => inl (unpack_error 3 (len ([R])))
                             | [R; G] => inl (unpack_error 3 (len ([R; G])))
                             | R :: G :: B :: A :: l => inl (unpack_error 3 (len (R :: G :: B :: A :: l)))
                             end) ltac:(lia));
        change (Z.to_nat 3) with 3%nat;
        match goal with
        | |- context [for_extend (chunks 3 d) ?g] =>
            pose proof (for_extend_per_pixel 3 d g (fun c => c)
                       ltac:(lia) ltac:(by_length) ltac:(by_length)) as Hpp
        end;
        revert Hpp; destruct (per_pixel 3 _ d);
        [intros ->|intros (e0 & ->)]; reflexivity
      | rewrite (for_extend_chunks_Z 3 d
                   (fun c => match c with
                             | [B; G; R] => inr [R; G; B]
                             | [] => inl (unpack_error 3 (len ([])))
                             | [R] => inl (unpack_error 3 (len ([R])))
                             | [R; G] => inl (unpack_error 3 (len ([R; G])))
                             | R :: G :: B :: A :: l => inl (unpack_error 3 (len (R :: G :: B :: A :: l)))
                             end) ltac:(lia));
        change (Z.to_nat 3) with 3%nat;
        match goal with
        | |- context [for_extend (chunks 3 d) ?g] =>
            pose proof (for_extend_per_pixel 3 d g (@rev byte)
                       ltac:(lia) ltac:(by_length) ltac:(by_length)) as Hpp
        end;
        revert Hpp; destruct (per_pixel 3 _ d);
        [intros ->|intros (e0 & ->)]; reflexivity ].
Qed.

Lemma decode_eight_bit_rgb_witness :
  result (DecodeTexture zstd_rejects decoder_double blank_SCTX false
            (texture_of (Enum ScPixel.RGB8) 3 2 eighteen_bytes))
  = inr (Some (eighteen_bytes, "RGB"%string)).
Proof.
  apply (proj2 (decode_eight_bit_rgb zstd_rejects decoder_double blank_SCTX
                  false (texture_of (Enum ScPixel.RGB8) 3 2 eighteen_bytes)
                  _ eighteen_bytes _ ScPixel.RGB8
                  eq_refl ltac:(discriminate) eq_refl eq_refl));
    reflexivity.
Defined.

Lemma range_step_in (stop step Idx : Z) :
  0 < step -> 0 <= stop -> stop mod step = 0 ->
  In Idx (range_step stop step) -> 0 <= Idx /\ Idx + step <= stop.
Proof.
  intros Hs Hstop Hm Hin. unfold range_step in Hin.
  apply in_map_iff in Hin. destruct Hin as (i & <- & Hi).
  apply in_seq in Hi.
  pose proof (Z.div_mod stop step ltac:(lia)) as E. rewrite Hm in E.
  assert (Hq : (stop + step - 1) / step = stop / step).
  { symmetry. apply Z.div_unique with (r := step - 1); lia. }
  rewrite Hq in Hi.
  assert (0 <= stop / step) by (apply Z.div_pos; lia).
  nia.
Qed.

(** Inside a whole pixel, [d[I + o]] is byte [o] of the pixel. *)
Lemma getitem_in_pixel (d : bytes) (Idx k o : Z) :
  0 <= Idx -> 0 <= o < k -> Idx + k <= len d ->
  getitem d (Idx + o) = inr (nth (Z.to_nat o) (slice Idx (Idx + k) d) x00).
Proof.
  intros HI Ho Hk. unfold getitem, slice.
  replace (Idx + k - Idx) with k by lia.
  assert (Hlt : (Z.to_nat (Idx + o) < List.length d)%nat)
    by (unfold len in Hk; lia).
  destruct (nth_error d (Z.to_nat (Idx + o))) as [x|] eqn:E;
    [|apply nth_error_None in E; lia].
  f_equal. symmetry. apply nth_error_nth.
  rewrite nth_error_firstn.
  destruct (Nat.ltb_spec (Z.to_nat o) (Z.to_nat k)) as [_|?]; [|lia].
  rewrite nth_error_skipn.
  replace (Z.to_nat Idx + Z.to_nat o)%nat with (Z.to_nat (Idx + o)) by lia.
  exact E.
Qed.

Lemma getitem_in_pixel_0 (d : bytes) (Idx k : Z) :
  0 <= Idx -> 0 < k -> Idx + k <= len d ->
  getitem d Idx = inr (nth 0 (slice Idx (Idx + k) d) x00).
Proof.
  intros HI Hk Hle.
  pose proof (getitem_in_pixel d Idx k 0 HI ltac:(lia) Hle) as H.
  rewrite Z.add_0_r in H. exact H.
Qed.

(** A loop over whole pixels whose body makes [f] of each pixel. *)
Lemma for_extend_pixelwise (k : Z) (d : bytes) (body : Z -> Exn + bytes)
    (f : bytes -> bytes) :
  0 < k -> len d mod k = 0 ->
  (forall Idx, 0 <= Idx -> Idx + k <= len d ->
     body Idx = inr (f (slice Idx (Idx + k) d))) ->
  for_extend (range_step (len d) k) body
  = inr (flat_map f (chunks (Z.to_nat k) d)).
Proof.
  intros Hk Hm Hbody.
  rewrite (for_extend_ext _ body (fun Idx => inr (f (slice Idx (Idx + k) d)))).
  - rewrite (for_extend_chunks_Z k d (fun c => inr (f c)) Hk).
    apply for_extend_flat_map. reflexivity.
  - intros Idx Hin.
    destruct (range_step_in (len d) k Idx Hk (len_nonneg d) Hm Hin).
    apply Hbody; assumption.
Qed.

(** X27. The members with floating-point channels are not converted: when
    the selected data divide into whole pixels, each pixel of the image
    holds, for every channel, the first byte of that channel's 16-bit or
    32-bit value, laid out as (R, R, R), (R, G, 0) or (R, G, B) and tagged
    RGB for one to three channels, and as (B, G, R, A) tagged RGBA for
    four. *)
Theorem decode_float_samples zstd dec (self : SCTX) (use : bool)
    (t t' : Texture) (d : bytes) (l : list LogRecord) (p : ScPixel.t) :
  decode_source zstd self use t = mkOutcome (inr (Some (Some d))) t' l ->
  16 <= len d -> PixelType t = Enum p -> is_float p = true ->
  len d mod pixel_size p = 0 ->
  result (DecodeTexture zstd dec self use t)
  = inr (Some (flat_map (float_sample p)
                 (chunks (Z.to_nat (pixel_size p)) d),
               float_mode p)).
Proof.
  intros E Hd Hp Hk Hm.
  pose proof (decode_source_same _ _ _ _ _ _ _ E) as (Hw & Hh & _ & _ & Hp').
  rewrite Hp in Hp'.
  rewrite (DecodeTexture_selected zstd dec self use t t' d l E Hd).
  destruct p; try discriminate Hk;
    dispatch_by_format Hp';
    match goal with
    | |- context [for_extend (range_step (len d) ?k) ?body] =>
        match goal with
        | |- context [float_sample ?p] =>
            change (pixel_size p) with k in Hm |- *;
            rewrite (for_extend_pixelwise k d body (float_sample p)
                       ltac:(lia) Hm);
            [reflexivity|];
            intros Idx H0 Hle;
            rewrite (getitem_in_pixel_0 d Idx k H0 ltac:(lia) Hle);
            repeat match goal with
                   | |- context [getitem d (Idx + ?o)] =>
                       rewrite (getitem_in_pixel d Idx k o H0 ltac:(lia) Hle)
                   end;
            reflexivity
        end
    end.
Qed.

Lemma decode_float_samples_witness :
  result (DecodeTexture zstd_rejects decoder_double blank_SCTX false
            (texture_of (Enum ScPixel.RGBA16F) 2 1 sixteen_bytes))
  = inr (Some ([x05; x03; x01; x07; x0d; x0b; x09; x0f], "RGBA"%string)).
Proof.
  apply (decode_float_samples zstd_rejects decoder_double blank_SCTX false
           (texture_of (Enum ScPixel.RGBA16F) 2 1 sixteen_bytes)
           _ sixteen_bytes _ ScPixel.RGBA16F
           eq_refl ltac:(discriminate) eq_refl eq_refl eq_refl).
Defined.

(** ** ProcessSingleFile *)

Lemma SCTX__init___run zstd (FileData : bytes) (StreamingIdOverride : Z) :
  exists r Ctx l,
    SCTX__init__ zstd FileData StreamingIdOverride = mkOutcome r Ctx l
    /\ (r = inr tt
        \/ (r = inl (NoneType_has_no "Width") /\ Texture_ Ctx = None))
    /\ parsed_container Ctx.
Proof.
  unfold SCTX__init__.
  destruct (SCTX__init__body_run zstd
           {| StreamingTextureId := StreamingIdOverride; TextureId := 255;
              StreamingTexture := None; Texture_ := None;
              OriginalFileData := FileData; CompressedPayload := None;
              DecompressedPayload := None; StreamingId := None |})
    as (r & s' & l & Hrun & Hr & _ & _ & Hpc & _);
    [split; intros ? [=]|].
  exists r, s', l. auto.
Qed.

(** The two calls of [DecodeTexture] in [ProcessSingleFile], on a texture
    [t]: they return, on a texture of the same size and format, and an
    image comes tagged RGBA or RGB. *)
Lemma decode_with_retry zstd dec (Ctx : SCTX) (msg : string) (t : Texture) :
  exists r t' l,
    (first <- DecodeTexture zstd dec Ctx false ;;
     match first with
     | Some (_ :: _, _) => ret first
     | _ =>
         if truthy (DecompressedPayload Ctx) then
           logging INFO msg ;; DecodeTexture zstd dec Ctx true
         else ret first
     end) t = mkOutcome (inr r) t' l
    /\ same_texture t t'
    /\ match r with
       | Some (_, mode) => mode = "RGBA"%string \/ mode = "RGB"%string
       | None => True
       end.
Proof.
  destruct (DecodeTexture_run zstd dec Ctx false t)
    as (r1 & t1 & l1 & Hrun1 & Hs1 & Hm1).
  unfold bind at 1. rewrite Hrun1.
  assert (Hretry :
    exists r t' l,
      (if truthy (DecompressedPayload Ctx)
       then logging INFO msg ;; DecodeTexture zstd dec Ctx true
       else ret r1) t1 = mkOutcome (inr r) t' l
      /\ same_texture t t'
      /\ match r with
         | Some (_, mode) => mode = "RGBA"%string \/ mode = "RGB"%string
         | None => True
         end).
  { destruct (truthy (DecompressedPayload Ctx)).
    - destruct (DecodeTexture_run zstd dec Ctx true t1)
        as (r2 & t2 & l2 & Hrun2 & Hs2 & Hm2).
      run_monad. rewrite Hrun2. eexists _, _, _. split; [reflexivity|].
      split; [eapply same_texture_trans; eassumption|].
      destruct r2 as [[? ?]|]; [exact Hm2|exact I].
    - eexists _, _, _. split; [reflexivity|]. split; [exact Hs1|].
      destruct r1 as [[? ?]|]; [exact Hm1|exact I]. }
  destruct r1 as [[[|x d] mode]|].
  - destruct Hretry as (r & t' & l & E & Hs & Hm). rewrite E.
    eexists _, _, _. split; [reflexivity|]. auto.
  - run_monad. eexists _, _, _. split; [reflexivity|]. auto.
  - destruct Hretry as (r & t' & l & E & Hs & Hm). rewrite E.
    eexists _, _, _. split; [reflexivity|]. auto.
Qed.

(** X28. [ProcessSingleFile] reports success only when the file was read,
    the constructor returned, and [Image.frombytes(...).save(OutputFile)]
    was done on an image that is not empty, is tagged RGBA or RGB, and has
    the size of the main texture, whose dimensions are 16-bit values; the
    triple is then [(True, InputFile, OutputFile)]. *)
Theorem ProcessSingleFile_success zstd dec read_file Image_save
    (InputFile OutputFile name message : string) (log : list LogRecord) :
  ProcessSingleFile zstd dec read_file Image_save (InputFile, OutputFile)
  = ((true, name, message), log) ->
  name = InputFile /\ message = OutputFile
  /\ exists FileData Ctx l0 t mode x data,
       read_file InputFile = inr FileData
       /\ SCTX__init__ zstd FileData 255 = mkOutcome (inr tt) Ctx l0
       /\ Texture_ Ctx = Some t /\ parsed_texture t
       /\ (mode = "RGBA"%string \/ mode = "RGB"%string)
       /\ Image_save mode (Width t, Height t) (x :: data) OutputFile = inr tt.
Proof.
  unfold ProcessSingleFile. intros H.
  destruct (read_file InputFile) as [msg|FileData] eqn:ER; [discriminate H|].
  destruct (SCTX__init___run zstd FileData 255)
    as (r & Ctx & l0 & Hrun & Hr & [HT HS]).
  rewrite Hrun in H.
  destruct Hr as [->|[-> _]]; [|discriminate H].
  destruct (Texture_ Ctx) as [t|] eqn:Ht.
  - destruct (decode_with_retry zstd dec Ctx
                ("[" ++ InputFile ++ "] Retrying with decompressed payload...")
                t) as (r & t' & l & E & (Hw & Hh & _) & Hm).
    rewrite E in H.
    destruct r as [[[|x data] mode]|]; try discriminate H.
    destruct (Image_save mode (Width t', Height t') (x :: data) OutputFile)
      as [msg|[]] eqn:ES; [discriminate H|].
    injection H as <- <- _.
    split; [reflexivity|]. split; [reflexivity|].
    exists FileData, Ctx, l0, t, mode, x, data.
    rewrite Hw, Hh in ES.
    split; [reflexivity|]. split; [exact Hrun|]. split; [exact Ht|].
    split; [apply (HT t eq_refl)|]. split; [exact Hm|exact ES].
  - destruct (StreamingTexture Ctx) as [st|] eqn:Hst.
    + destruct (HS st eq_refl) as [_ Hne]. congruence.
    + discriminate H.
Qed.

Lemma ProcessSingleFile_success_witness :
  exists FileData Ctx l0 t mode x data,
    one_file (container_file 319 2 2 sixteen_bytes 4 4 sixteen_bytes)
      "a.sctx" = inr FileData
    /\ SCTX__init__ zstd_rejects FileData 255 = mkOutcome (inr tt) Ctx l0
    /\ Texture_ Ctx = Some t /\ parsed_texture t
    /\ (mode = "RGBA"%string \/ mode = "RGB"%string)
    /\ saves_all mode (Width t, Height t) (x :: data) "a.png" = inr tt.
Proof.
  apply (ProcessSingleFile_success zstd_rejects decoder_double
           (one_file (container_file 319 2 2 sixteen_bytes 4 4 sixteen_bytes))
           saves_all "a.sctx" "a.png" "a.sctx" "a.png"
           [(INFO, "RGBA8Unorm: treating as BGRA (no conversion)"%string)]).
  vm_compute. reflexivity.
Defined.

(** X29. Without a main texture [ProcessSingleFile] decodes nothing.  On a
    file that is read and leaves [Ctx.Texture] at [None]: when the
    constructor raised, it reports a failure with the message of the
    [AttributeError] and logs what the constructor logged; when the
    constructor returned, it logs the error [No texture found in SCTX file]
    after that and reports a failure with the message [No texture found].
    The branch that would decode the streaming texture in its place is
    never taken, since the parser builds no streaming texture without a
    main texture. *)
Theorem ProcessSingleFile_without_main_texture zstd dec read_file
    Image_save (InputFile OutputFile : string) (FileData : bytes) :
  read_file InputFile = inr FileData ->
  Texture_ (final (SCTX__init__ zstd FileData 255)) = None ->
  ProcessSingleFile zstd dec read_file Image_save (InputFile, OutputFile)
  = match result (SCTX__init__ zstd FileData 255) with
    | inl _ =>
        ((false, InputFile,
          "'NoneType' object has no attribute 'Width'"%string),
         logged (SCTX__init__ zstd FileData 255))
    | inr _ =>
        ((false, InputFile, "No texture found"%string),
         logged (SCTX__init__ zstd FileData 255)
         ++ [(ERROR, ("[" ++ InputFile
                      ++ "] No texture found in SCTX file")%string)])
    end.
Proof.
  intros ER Hnone. unfold ProcessSingleFile. rewrite ER.
  destruct (SCTX__init___run zstd FileData 255)
    as (r & Ctx & l0 & Hrun & Hr & [HT HS]).
  rewrite Hrun in Hnone |- *. proj_red. cbn [final] in Hnone.
  destruct Hr as [->|[-> _]].
  - rewrite Hnone.
    destruct (StreamingTexture Ctx) as [st|] eqn:Hst.
    + destruct (HS st eq_refl) as [_ Hne]. congruence.
    + reflexivity.
  - reflexivity.
Qed.

Lemma ProcessSingleFile_without_main_texture_witness :
  ProcessSingleFile zstd_rejects decoder_double (one_file sixteen_bytes)
    saves_all ("a.sctx"%string, "a.png"%string)
  = ((false, "a.sctx"%string, "No texture found"%string),
     [(WARNING, "Invalid streaming length 67305985"%string);
      (ERROR, "[a.sctx] No texture found in SCTX file"%string)])
  /\ ProcessSingleFile zstd_rejects decoder_double (one_file headerless_file)
       saves_all ("a.sctx"%string, "a.png"%string)
     = ((false, "a.sctx"%string,
         "'NoneType' object has no attribute 'Width'"%string), []).
Proof.
  split.
  - apply (ProcessSingleFile_without_main_texture zstd_rejects
             decoder_double (one_file sixteen_bytes) saves_all "a.sctx"
             "a.png" sixteen_bytes).
    + reflexivity.
    + vm_compute. reflexivity.
  - apply (ProcessSingleFile_without_main_texture zstd_rejects
             decoder_double (one_file headerless_file) saves_all "a.sctx"
             "a.png" headerless_file).
    + reflexivity.
    + vm_compute. reflexivity.
Defined.

(** ** The memo of [IsCompressedData] and the decode *)

(** A first call of [IsCompressedData] logs nothing, and a second call
    repeats its answer without a change. *)
Lemma IsCompressedData_twice zstd (t : Texture) :
  exists b t1,
    IsCompressedData zstd t = mkOutcome (inr b) t1 []
    /\ IsCompressedData zstd t1 = mkOutcome (inr b) t1 []
    /\ same_texture t t1.
Proof.
  assert (M : forall t0 b, IsCompressedDataFlag t0 = Some b ->
              IsCompressedData zstd t0 = mkOutcome (inr b) t0 []).
  { intros t0 b H. unfold IsCompressedData. run_monad. rewrite H.
    reflexivity. }
  destruct (IsCompressedDataFlag t) as [flag|] eqn:EF.
  - exists flag, t. rewrite (M t flag EF).
    repeat split; reflexivity.
  - unfold IsCompressedData at 1. run_monad. rewrite EF.
    destruct (Data t) as [[|x d]|] eqn:ED;
      repeat (match goal with
              | |- context [zstd ?a ?b] => destruct (zstd a b) eqn:?
              | |- context [if ?b then _ else _] => destruct b eqn:?
              end; proj_red);
      eexists _, _; (split; [reflexivity|]);
      (split; [apply M; reflexivity | texture_fields]).
Qed.

(** The dispatch reads the size and the format of the texture only. *)
Lemma decode_dispatch_same dec (d : bytes) (t t' : Texture) :
  same_texture t t' ->
  exists r l,
    decode_dispatch dec d t = mkOutcome r t l
    /\ decode_dispatch dec d t' = mkOutcome r t' l.
Proof.
  intros (Hw & Hh & _ & _ & Hp).
  unfold decode_dispatch, unsupported. run_monad.
  rewrite (IsAstc_same t t' Hp), (IsEtc_same t t' Hp),
    (IsUncompressed_same t t' Hp), (IsPvrtc_same t t' Hp),
    (GetFormatName_same t t' Hp), Hw, Hh.
  dispatch_cases; eexists _, _; split; reflexivity.
Qed.

(** X15. The memo of [IsCompressedData] is transparent to the decode: on a
    texture on which [IsCompressedData] has been called before,
    [DecodeTexture] returns what it returns, and logs what it logs, on the
    texture as it was. *)
Theorem decode_after_IsCompressedData zstd dec (self : SCTX) (use : bool)
    (t : Texture) :
  result (DecodeTexture zstd dec self use (final (IsCompressedData zstd t)))
  = result (DecodeTexture zstd dec self use t)
  /\ logged (DecodeTexture zstd dec self use (final (IsCompressedData zstd t)))
     = logged (DecodeTexture zstd dec self use t).
Proof.
  destruct (IsCompressedData_twice zstd t) as (b & t1 & E1 & E2 & Hs).
  rewrite E1. cbn [final].
  pose proof Hs as (_ & _ & _ & HD & _).
  unfold DecodeTexture, decode_source. run_monad.
  destruct (use && truthy (DecompressedPayload self)).
  - cbv beta iota.
    destruct (negb (truthy (DecompressedPayload self))
              || (match DecompressedPayload self with
                  | Some ((_ :: _) as d) => len d
                  | _ => 0
                  end <? 16)).
    + split; reflexivity.
    + destruct (decode_dispatch_same dec
                  (match DecompressedPayload self with
                   | Some d => d
                   | None => []
                   end) t t1 Hs) as (r & l & Ea & Eb).
      rewrite Ea, Eb. destruct r; split; reflexivity.
  - rewrite HD. destruct (truthy (Data t)).
    + rewrite E1, E2. split; reflexivity.
    + split; reflexivity.
Qed.
